(** * sorconcsv: a shallow embedding of the SOR-to-CSV converter

    The development follows [src/sorconcsv.py].  The first part models the
    pieces of the Python runtime the converter relies on (integers, binary64
    floats and their text forms, byte strings, [struct], [crcmod]); the
    second part is the converter itself, method by method; the fifth part
    states and proves the properties of the specification, the sixth
    further properties of the readers, the decoders and the CSV output. *)

From Stdlib Require Import ZArith List String Ascii Bool Lia.
From Stdlib Require Import Permutation Sorted.
From Stdlib Require Import Floats.PrimFloat Floats.FloatOps Floats.SpecFloat.
From Stdlib Require Uint63.
From Stdlib Require Import DecimalString DecimalPos.
From Stdlib Require Import Init.Byte.
Import ListNotations.
Open Scope string_scope.
Open Scope Z_scope.

Set Warnings "-inexact-float,-register-all".

(* ------------------------------------------------------------------ *)
(** * Part 1. The Python runtime                                        *)
(* ------------------------------------------------------------------ *)

(** Python [bytes]. *)
Definition bytes := list byte.

Definition byte_val (b : byte) : Z := Z.of_N (Byte.to_N b).

(** A Python [str] is kept as its UTF-8 encoding, one Rocq character per
    byte; equality, concatenation and the ASCII operations used by the
    converter are the same on both sides of that encoding. *)
Definition str_of_bytes (b : bytes) : string := string_of_list_byte b.
Definition bytes_of_str (s : string) : bytes := list_byte_of_string s.

Module Py.

(** ** Exceptions *)

Inductive exn : Type :=
| StructError (need : Z)
| UnicodeDecodeError (codec : string) (position : Z) (reason : string)
| KeyError (key : string)
| ValueError (msg : string)
| TypeError (msg : string)
| IndexError (msg : string)
| ZeroDivisionError
| OSError (msg : string).

(** ** Integers and their decimal text *)

(** [str(z)] for an [int]. *)
Definition str_int (z : Z) : string := NilZero.string_of_int (Z.to_int z).

Definition digit_val (c : ascii) : option Z :=
  let n := Z.of_nat (nat_of_ascii c) in
  if (48 <=? n) && (n <=? 57) then Some (n - 48) else None.

(** Value of a string of decimal digits, continuing from [acc]. *)
Fixpoint digits_val (acc : Z) (s : string) : option Z :=
  match s with
  | EmptyString => Some acc
  | String c s' =>
      match digit_val c with
      | Some d => digits_val (10 * acc + d) s'
      | None => None
      end
  end.

(** [int(s)] on an optionally signed decimal numeral. *)
Definition int_of_str (s : string) : option Z :=
  match s with
  | EmptyString => None
  | String "-"%char EmptyString => None
  | String "-"%char s' => option_map Z.opp (digits_val 0 s')
  | _ => digits_val 0 s
  end.

Fixpoint repeat_char (n : nat) (c : ascii) : string :=
  match n with O => EmptyString | S k => String c (repeat_char k c) end.

(** [s.zfill(n)] for an unsigned numeral. *)
Definition zfill (n : nat) (s : string) : string :=
  repeat_char (n - String.length s) "0"%char ++ s.

Definition hex_digit (d : Z) : ascii :=
  ascii_of_nat (Z.to_nat (if d <? 10 then 48 + d else 87 + d)).

(** Two lowercase hexadecimal digits, as in [0xc8]. *)
Definition hex2 (v : Z) : string :=
  String (hex_digit (v / 16)) (String (hex_digit (v mod 16)) EmptyString).

(** ** Floats (IEEE 754 binary64, as CPython's [float]) *)

(** [float(z)] for an [int]; exact below 2^53, which covers every integer the
    converter turns into a float (at most 32 bits). *)
Definition z2f (z : Z) : float :=
  if z <? 0 then PrimFloat.opp (PrimFloat.of_uint63 (Uint63.of_Z (- z)))
  else PrimFloat.of_uint63 (Uint63.of_Z z).

(** The non-negative rational [n / d] rounded to an integer, ties to even. *)
Definition round_half_even (n d : Z) : Z :=
  let q := n / d in
  let r := n mod d in
  if 2 * r <? d then q
  else if d <? 2 * r then q + 1
  else if Z.even q then q else q + 1.

(** Exact value of the finite float [m * 2^e] as a fraction. *)
Definition frac_of (m : positive) (e : Z) : Z * Z :=
  if 0 <=? e then (Z.pos m * 2 ^ e, 1) else (Z.pos m, 2 ^ (- e)).

(** ["%.<d>f" % x] and [f"{x:.<d>f}"]: the exact binary value rounded to [d]
    decimals, ties to even; the sign is that of the float, also for zero. *)
Definition format_f (d : nat) (x : float) : string :=
  match Prim2SF x with
  | S754_nan => "nan"
  | S754_infinity s => if s then "-inf" else "inf"
  | S754_zero s =>
      (if s then "-" else "") ++ "0" ++
      (match d with O => "" | _ => "." ++ repeat_char d "0"%char end)
  | S754_finite s m e =>
      let (n, dn) := frac_of m e in
      let p := 10 ^ Z.of_nat d in
      let r := round_half_even (n * p) dn in
      (if s then "-" else "") ++ str_int (r / p) ++
      (match d with O => "" | _ => "." ++ zfill d (str_int (r mod p)) end)
  end.

(** The binary64 float nearest to the non-negative rational [n / d]. *)
Definition float_of_frac (n d : Z) : float :=
  if n =? 0 then PrimFloat.zero else
  let e0 := Z.log2 n - Z.log2 d - 53 in
  let scaled e := if 0 <=? e then (n, d * 2 ^ e) else (n * 2 ^ (- e), d) in
  let adjust e := let (a, b) := scaled e in
                  if a / b <? 2 ^ 52 then e - 1
                  else if 2 ^ 53 <=? a / b then e + 1 else e in
  let e := Z.max (adjust (adjust e0)) (-1074) in
  let (a, b) := scaled e in
  if 971 <? e then PrimFloat.infinity else
  match round_half_even a b with
  | Z.pos p => SF2Prim (S754_finite false p e)
  | _ => PrimFloat.zero
  end.

(** [n * 10^k] as a fraction. *)
Definition pow10_frac (n : Z) (k : Z) : Z * Z :=
  if 0 <=? k then (n * 10 ^ k, 1) else (n, 10 ^ (- k)).

Definition ndigits (z : Z) : Z := Z.of_nat (String.length (str_int z)).

Fixpoint strip_zeros (fuel : nat) (c : Z) : Z :=
  match fuel with
  | O => c
  | S f => if (c mod 10 =? 0) && negb (c =? 0) then strip_zeros f (c / 10) else c
  end.

(** The shortest decimal digit string that reads back as the positive float
    [x = n / d]: the result [(c, decpt)] stands for [0.c * 10^decpt].  [nd] is
    the number of digits tried, [k] the decimal exponent of [x]. *)
Fixpoint shortest_digits (fuel : nat) (nd : Z) (x : float) (n d : Z) (k : Z) : Z * Z :=
  let (a, b0) := pow10_frac n (nd - k) in
  let b := b0 * d in
  let lo := a / b in
  let hi := lo + 1 in
  let back c := let (p, q) := pow10_frac c (k - nd) in float_of_frac p q in
  let oklo := (0 <? lo) && PrimFloat.eqb (back lo) x in
  let okhi := PrimFloat.eqb (back hi) x in
  let r := a mod b in
  let pick :=
    if oklo && okhi then
      (if 2 * r <? b then Some lo else if b <? 2 * r then Some hi
       else if Z.even lo then Some lo else Some hi)
    else if oklo then Some lo else if okhi then Some hi else None in
  match pick with
  | Some c => (strip_zeros 20 c, ndigits c + (k - nd))
  | None =>
      match fuel with
      | O => (lo, k)
      | S f => shortest_digits f (nd + 1) x n d k
      end
  end.

(** The decimal exponent [k] of [n / d]: 10^(k-1) <= n/d < 10^k. *)
Definition decimal_exponent (n d : Z) : Z :=
  let k0 := (Z.log2 n - Z.log2 d) * 30103 / 100000 in
  let below k := let (a, b) := pow10_frac 1 k in n * b <? a * d in
  let k1 := if below (k0 - 1) then k0 - 1 else if below k0 then k0
            else if below (k0 + 1) then k0 + 1 else k0 + 2 in
  if below (k1 - 1) then k1 - 1 else k1.

Definition str_exp (e : Z) : string :=
  (if e <? 0 then "-" else "+") ++ zfill 2 (str_int (Z.abs e)).

(** [str(x)] and [repr(x)] for a float: the shortest digits that round-trip,
    in exponent form when the decimal point falls outside (-4, 16]. *)
Definition repr_float (x : float) : string :=
  match Prim2SF x with
  | S754_nan => "nan"
  | S754_infinity s => if s then "-inf" else "inf"
  | S754_zero s => if s then "-0.0" else "0.0"
  | S754_finite s m e =>
      let (n, d) := frac_of m e in
      let k := decimal_exponent n d in
      let (c, decpt) := shortest_digits 17 1 (PrimFloat.abs x) n d k in
      let ds := str_int c in
      let len := String.length ds in
      let nd := Z.of_nat len in
      (if s then "-" else "") ++
      (if (decpt <=? -4) || (16 <? decpt) then
         String.substring 0 1 ds ++
         (if 1 <? nd then "." ++ String.substring 1 (len - 1) ds else "") ++
         "e" ++ str_exp (decpt - 1)
       else if decpt <=? 0 then
         "0." ++ repeat_char (Z.to_nat (- decpt)) "0"%char ++ ds
       else if nd <=? decpt then
         ds ++ repeat_char (Z.to_nat (decpt - nd)) "0"%char ++ ".0"
       else
         String.substring 0 (Z.to_nat decpt) ds ++ "." ++
         String.substring (Z.to_nat decpt) (len - Z.to_nat decpt) ds)
  end.

(** Split [s] at the first occurrence of a character satisfying [p]; the
    separator is dropped. *)
Fixpoint split_at (p : ascii -> bool) (s : string) : string * option string :=
  match s with
  | EmptyString => (EmptyString, None)
  | String c s' =>
      if p c then (EmptyString, Some s')
      else let (a, b) := split_at p s' in (String c a, b)
  end.

Definition is_char (c : ascii) (x : ascii) : bool := Ascii.eqb c x.

(** [float(s)] on the numerals the converter produces: an optional sign,
    digits with an optional fraction, an optional exponent; also inf and nan. *)
Definition float_of_str (s : string) : option float :=
  let (neg, body) :=
    match s with
    | String "-"%char s' => (true, s')
    | String "+"%char s' => (false, s')
    | _ => (false, s)
    end in
  let sign f := if neg then PrimFloat.opp f else f in
  if String.eqb body "inf" then Some (sign PrimFloat.infinity)
  else if String.eqb body "nan" then Some PrimFloat.nan
  else
    let (mant, ex) := split_at (fun c => is_char "e" c || is_char "E" c) body in
    let (ip, fp) := split_at (is_char ".") mant in
    let fp := match fp with Some f => f | None => "" end in
    if String.eqb (ip ++ fp) "" then None else
    match digits_val 0 (ip ++ fp), (match ex with
                                     | None => Some 0
                                     | Some (String "+"%char e) => int_of_str e
                                     | Some e => int_of_str e
                                     end) with
    | Some m, Some e =>
        let (n, d) := pow10_frac m (e - Z.of_nat (String.length fp)) in
        Some (sign (float_of_frac n d))
    | _, _ => None
    end.

(** ** Calendar time *)

(** The civil date of a day count since 1970-01-01 (proleptic Gregorian). *)
Definition civil_from_days (days : Z) : Z * Z * Z :=
  let z := days + 719468 in
  let era := z / 146097 in
  let doe := z mod 146097 in
  let yoe := (doe - doe / 1460 + doe / 36524 - doe / 146096) / 365 in
  let doy := doe - (365 * yoe + yoe / 4 - yoe / 100) in
  let mp := (5 * doy + 2) / 153 in
  let d := doy - (153 * mp + 2) / 5 + 1 in
  let m := if mp <? 10 then mp + 3 else mp - 9 in
  let y := yoe + era * 400 + (if m <=? 2 then 1 else 0) in
  (y, m, d).

(** [datetime.fromtimestamp(t, timezone.utc).strftime("%Y-%m-%d %H:%M:%S")]
    for a non-negative second count. *)
Definition utc_timestamp (t : Z) : string :=
  let '(y, m, d) := civil_from_days (t / 86400) in
  let s := t mod 86400 in
  let two z := zfill 2 (str_int z) in
  zfill 4 (str_int y) ++ "-" ++ two m ++ "-" ++ two d ++ " " ++
  two (s / 3600) ++ ":" ++ two (s mod 3600 / 60) ++ ":" ++ two (s mod 60).

(** ** Decoding bytes to text *)

(** [b.decode("ascii")]: every byte must be below 0x80. *)
Fixpoint ascii_error (pos : Z) (b : bytes) : option exn :=
  match b with
  | [] => None
  | x :: b' =>
      if byte_val x <? 128 then ascii_error (pos + 1) b'
      else Some (UnicodeDecodeError "ascii" pos
                   ("byte 0x" ++ hex2 (byte_val x) ++ ": ordinal not in range(128)"))
  end.

Definition decode_ascii (b : bytes) : exn + string :=
  match ascii_error 0 b with
  | Some e => inl e
  | None => inr (str_of_bytes b)
  end.

Definition in_range (lo hi : Z) (x : byte) : bool :=
  (lo <=? byte_val x) && (byte_val x <=? hi).

Definition cont (x : byte) : bool := in_range 128 191 x.

(** Position of the first ill-formed UTF-8 sequence of [b], if any (the
    well-formed sequences are those of the Unicode standard: no overlong
    forms, no surrogates, nothing above U+10FFFF). *)
Fixpoint utf8_error (pos : Z) (b : bytes) : option Z :=
  match b with
  | [] => None
  | x1 :: r1 =>
      if byte_val x1 <? 128 then utf8_error (pos + 1) r1
      else if in_range 194 223 x1 then
        match r1 with
        | x2 :: r2 => if cont x2 then utf8_error (pos + 2) r2 else Some pos
        | _ => Some pos
        end
      else if in_range 224 239 x1 then
        match r1 with
        | x2 :: x3 :: r3 =>
            let lo := if byte_val x1 =? 224 then 160 else 128 in
            let hi := if byte_val x1 =? 237 then 159 else 191 in
            if in_range lo hi x2 && cont x3 then utf8_error (pos + 3) r3 else Some pos
        | _ => Some pos
        end
      else if in_range 240 244 x1 then
        match r1 with
        | x2 :: x3 :: x4 :: r4 =>
            let lo := if byte_val x1 =? 240 then 144 else 128 in
            let hi := if byte_val x1 =? 244 then 143 else 191 in
            if in_range lo hi x2 && cont x3 && cont x4
            then utf8_error (pos + 4) r4 else Some pos
        | _ => Some pos
        end
      else Some pos
  end.

(** [b.decode("utf-8")].  The exception carries the position of the offending
    sequence; CPython's longer reason text is not reproduced. *)
Definition decode_utf8 (b : bytes) : exn + string :=
  match utf8_error 0 b with
  | Some p => inl (UnicodeDecodeError "utf-8" p "invalid or truncated sequence")
  | None => inr (str_of_bytes b)
  end.

(** [str(e)] for the exceptions above. *)
Definition exn_str (e : exn) : string :=
  match e with
  | StructError n => "unpack requires a buffer of " ++ str_int n ++ " bytes"
  | UnicodeDecodeError codec p reason =>
      "'" ++ codec ++ "' codec can't decode " ++ reason ++ " (position " ++ str_int p ++ ")"
  | KeyError k => "'" ++ k ++ "'"
  | ValueError m => m
  | TypeError m => m
  | IndexError m => m
  | ZeroDivisionError => "float division by zero"
  | OSError m => m
  end.

(** ** [struct.unpack] on little-endian integers *)

(** The unsigned little-endian value of a byte string. *)
Fixpoint le_uint (b : bytes) : Z :=
  match b with
  | [] => 0
  | x :: b' => byte_val x + 256 * le_uint b'
  end.

(** [struct.unpack("<H" | "<I" | "<Q", word)[0]] for [n] = 2, 4, 8. *)
Definition unpack_uint (n : Z) (word : bytes) : exn + Z :=
  if Z.of_nat (List.length word) =? n then inr (le_uint word)
  else inl (StructError n).

(** [struct.unpack("<h" | "<i" | "<q", word)[0]]: two's complement. *)
Definition unpack_signed (n : Z) (word : bytes) : exn + Z :=
  if Z.of_nat (List.length word) =? n then
    let v := le_uint word in
    inr (if v <? 2 ^ (8 * n - 1) then v else v - 2 ^ (8 * n))
  else inl (StructError n).

(** ** Dictionaries (insertion ordered, as [dict]) *)

Definition dict (V : Type) := list (string * V).

Fixpoint dict_get {V} (k : string) (d : dict V) : option V :=
  match d with
  | [] => None
  | (k', v) :: d' => if String.eqb k k' then Some v else dict_get k d'
  end.

(** [d[k] = v]: an existing key keeps its place. *)
Fixpoint dict_set {V} (k : string) (v : V) (d : dict V) : dict V :=
  match d with
  | [] => [(k, v)]
  | (k', v') :: d' =>
      if String.eqb k k' then (k, v) :: d' else (k', v') :: dict_set k v d'
  end.

Definition dict_keys {V} (d : dict V) : list string := map fst d.

(** Insert [x] after the elements whose key is not larger (stable). *)
Fixpoint insert_by {A} (key : A -> Z) (x : A) (l : list A) : list A :=
  match l with
  | [] => [x]
  | y :: l' => if key x <? key y then x :: y :: l' else y :: insert_by key x l'
  end.

(** [sorted(l, key=key)]. *)
Definition sorted {A} (key : A -> Z) (l : list A) : list A :=
  fold_left (fun acc x => insert_by key x acc) l [].

(** The values stored in the result dictionaries. *)
Inductive pyval : Type :=
| VInt (z : Z)
| VFloat (f : float)
| VStr (s : string)
| VBool (b : bool)
| VDict (d : list (string * pyval)).

End Py.
Export Py.

(** ** [crcmod.predefined.Crc("crc-ccitt-false")]

    The predefined algorithm has polynomial 0x11021, initial value 0xFFFF, no
    bit reversal and no final XOR.  [crcValue] is kept as an integer below
    2^16; [update] folds the bytes in, most significant bit first. *)
Module Crc.

Definition poly : Z := 0x1021.
Definition init : Z := 0xFFFF.

Definition shift1 (c : Z) : Z :=
  if Z.testbit c 15 then Z.lxor (Z.land (Z.shiftl c 1) 0xFFFF) poly
  else Z.land (Z.shiftl c 1) 0xFFFF.

Definition update_byte (c : Z) (x : byte) : Z :=
  let c0 := Z.lxor c (Z.shiftl (byte_val x) 8) in
  shift1 (shift1 (shift1 (shift1 (shift1 (shift1 (shift1 (shift1 c0))))))).

Definition update (c : Z) (data : bytes) : Z := fold_left update_byte data c.

End Crc.

(** CRC-16/CCITT-FALSE of a whole message. *)
Definition crc16_ccitt_false (data : bytes) : Z := Crc.update Crc.init data.

(* ------------------------------------------------------------------ *)
(** * Part 2. The converter                                             *)
(* ------------------------------------------------------------------ *)

Definition NUL : string := String (ascii_of_nat 0) EmptyString.
Definition TAB : string := String (ascii_of_nat 9) EmptyString.
Definition LF : string := String (ascii_of_nat 10) EmptyString.

(** SOL = 299792.458 / 1e6, the speed of light in km/usec. *)
Definition SOL : float := PrimFloat.div 299792.458 1e6.

(** ** The open binary file under the handler *)

Record RawFile := mkRawFile { content : bytes; offset : Z }.

(** The bytes of [c] from position [pos] on. *)
Definition drop_Z (pos : Z) (c : bytes) : bytes :=
  if Z.of_nat (List.length c) <=? pos then [] else skipn (Z.to_nat pos) c.

(** [f.read(n)]: up to [n] bytes from the cursor; everything when [n < 0]. *)
Definition raw_read (n : Z) (f : RawFile) : bytes * RawFile :=
  let rest := drop_Z (offset f) (content f) in
  let buf := if n <? 0 then rest else firstn (Z.to_nat n) rest in
  (buf, mkRawFile (content f) (offset f + Z.of_nat (List.length buf))).

(** ** class FileHandler *)

Record FileHandler := mkFileHandler {
  filehandle : RawFile;
  bufsize : Z;
  buffer : bytes;
  spaceleft : Z;
  crc16 : Z
}.

(** [FileHandler.__init__] *)
Definition FileHandler_init (f : RawFile) : FileHandler :=
  mkFileHandler f 2048 [] 2048 Crc.init.

(** [FileHandler.read] *)
Definition FileHandler_read (n : Z) (h : FileHandler) : bytes * FileHandler :=
  let (buf, f') := raw_read n (filehandle h) in
  let xlen := Z.of_nat (List.length buf) in
  let flush := spaceleft h <? xlen in
  let crc := if flush then Crc.update (crc16 h) (buffer h) else crc16 h in
  let buffer0 := if flush then [] else buffer h in
  let spaceleft0 := if flush then bufsize h else spaceleft h in
  (buf, mkFileHandler f' (bufsize h) (buffer0 ++ buf)%list (spaceleft0 - xlen) crc).

(** [FileHandler.digest] *)
Definition FileHandler_digest (h : FileHandler) : Z * FileHandler :=
  let crc := Crc.update (crc16 h) (buffer h) in
  (crc, mkFileHandler (filehandle h) (bufsize h) (buffer h) (spaceleft h) crc).

(** [FileHandler.seek]: a seek to 0 also resets buffer and CRC; the file
    object refuses a negative position. *)
Definition FileHandler_seek (pos : Z) (h : FileHandler) : (exn + Z) * FileHandler :=
  let h0 := if pos =? 0
            then mkFileHandler (filehandle h) (bufsize h) [] (bufsize h) Crc.init
            else h in
  if pos <? 0 then (inl (OSError "[Errno 22] Invalid argument"), h0)
  else (inr pos,
        mkFileHandler (mkRawFile (content (filehandle h0)) pos)
                      (bufsize h0) (buffer h0) (spaceleft h0) (crc16 h0)).

(** [FileHandler.tell] *)
Definition FileHandler_tell (h : FileHandler) : Z := offset (filehandle h).

(** ** The result structure *)

(** One entry of [results["blocks"]]. *)
Record BlockDescriptor := mkBlock {
  b_name : string;
  b_version : string;
  b_size : Z;
  b_pos : Z;
  b_order : Z
}.

(** [results["mapblock"]] *)
Record MapBlock := mkMapBlock { nbytes : Z; nblocks : Z }.

(** The block records a decoder can create in [results]. *)
Inductive BlockKind := GenParams | SupParams | FxdParams | DataPts | KeyEvents | Cksum.

Definition block_name (k : BlockKind) : string :=
  match k with
  | GenParams => "GenParams" | SupParams => "SupParams" | FxdParams => "FxdParams"
  | DataPts => "DataPts" | KeyEvents => "KeyEvents" | Cksum => "Cksum"
  end.

(** [self.results]: the keys the converter writes, each absent until set. *)
Record Results := mkResults {
  r_filename : option string;
  r_format : option Z;
  r_version : option string;
  r_mapblock : option MapBlock;
  r_blocks : option (dict BlockDescriptor);
  r_GenParams : option (dict pyval);
  r_SupParams : option (dict pyval);
  r_FxdParams : option (dict pyval);
  r_DataPts : option (dict pyval);
  r_KeyEvents : option (dict pyval);
  r_Cksum : option (dict pyval)
}.

Definition empty_results : Results :=
  mkResults None None None None None None None None None None None.

Definition record_of (k : BlockKind) (r : Results) : option (dict pyval) :=
  match k with
  | GenParams => r_GenParams r | SupParams => r_SupParams r | FxdParams => r_FxdParams r
  | DataPts => r_DataPts r | KeyEvents => r_KeyEvents r | Cksum => r_Cksum r
  end.

Definition with_record (k : BlockKind) (d : dict pyval) (r : Results) : Results :=
  let 'mkResults fn fm ve mb bl gp sp fp dp ke ck := r in
  match k with
  | GenParams => mkResults fn fm ve mb bl (Some d) sp fp dp ke ck
  | SupParams => mkResults fn fm ve mb bl gp (Some d) fp dp ke ck
  | FxdParams => mkResults fn fm ve mb bl gp sp (Some d) dp ke ck
  | DataPts => mkResults fn fm ve mb bl gp sp fp (Some d) ke ck
  | KeyEvents => mkResults fn fm ve mb bl gp sp fp dp (Some d) ck
  | Cksum => mkResults fn fm ve mb bl gp sp fp dp ke (Some d)
  end.

Definition with_filename (s : string) (r : Results) : Results :=
  let 'mkResults _ fm ve mb bl gp sp fp dp ke ck := r in
  mkResults (Some s) fm ve mb bl gp sp fp dp ke ck.
Definition with_format (z : Z) (r : Results) : Results :=
  let 'mkResults fn _ ve mb bl gp sp fp dp ke ck := r in
  mkResults fn (Some z) ve mb bl gp sp fp dp ke ck.
Definition with_version (s : string) (r : Results) : Results :=
  let 'mkResults fn fm _ mb bl gp sp fp dp ke ck := r in
  mkResults fn fm (Some s) mb bl gp sp fp dp ke ck.
Definition with_mapblock (m : MapBlock) (r : Results) : Results :=
  let 'mkResults fn fm ve _ bl gp sp fp dp ke ck := r in
  mkResults fn fm ve (Some m) bl gp sp fp dp ke ck.
Definition with_blocks (b : dict BlockDescriptor) (r : Results) : Results :=
  let 'mkResults fn fm ve mb _ gp sp fp dp ke ck := r in
  mkResults fn fm ve mb (Some b) gp sp fp dp ke ck.

(** ** class SorConverter *)

Record SorConverter := mkSorConverter {
  filename : string;
  results : Results;
  tracedata : list string
}.

(** [SorConverter.__init__] *)
Definition SorConverter_init (fname : string) : SorConverter :=
  mkSorConverter fname empty_results [].

(** The objects a decoder works on: the converter and the file handler. *)
Record State := mkState { self : SorConverter; fh : FileHandler }.

(** ** Computations that mutate the state and may raise

    A raised exception keeps the state reached so far: Python does not undo
    the assignments made before the failure. *)

Inductive outcome (A : Type) : Type :=
| Ret (a : A)
| Raise (e : exn).
Arguments Ret {A} a.
Arguments Raise {A} e.

Definition M (A : Type) : Type := State -> outcome A * State.

Definition ret {A} (a : A) : M A := fun s => (Ret a, s).
Definition raise {A} (e : exn) : M A := fun s => (Raise e, s).
Definition bind {A B} (m : M A) (k : A -> M B) : M B :=
  fun s => match m s with
           | (Ret a, s') => k a s'
           | (Raise e, s') => (Raise e, s')
           end.

Declare Scope sor_scope.
Delimit Scope sor_scope with sor.
Notation "x <- m ;; k" := (bind m (fun x => k))
  (at level 100, m at next level, right associativity) : sor_scope.
Notation "m ;;; k" := (bind m (fun _ => k))
  (at level 100, right associativity) : sor_scope.
Open Scope sor_scope.

(** A value that is either an exception or a result, raised or returned. *)
Definition lift {A} (x : exn + A) : M A :=
  match x with inl e => raise e | inr a => ret a end.

(** [for x in l: body(x)] *)
Fixpoint for_each {A} (l : list A) (body : A -> M unit) : M unit :=
  match l with
  | [] => ret tt
  | x :: l' => body x ;;; for_each l' body
  end.

(** [range(n)] *)
Definition range (n : Z) : list Z := map Z.of_nat (seq 0 (Z.to_nat n)).

(** *** The handler's methods as computations *)

Definition read (n : Z) : M bytes :=
  fun s => let (buf, h) := FileHandler_read n (fh s) in (Ret buf, mkState (self s) h).

Definition seek (pos : Z) : M Z :=
  fun s => let (r, h) := FileHandler_seek pos (fh s) in
           (match r with inl e => Raise e | inr p => Ret p end, mkState (self s) h).

Definition digest : M Z :=
  fun s => let (c, h) := FileHandler_digest (fh s) in (Ret c, mkState (self s) h).

(** *** Access to [self.results] and [self.tracedata] *)

Definition get_results : M Results := fun s => (Ret (results (self s)), s).

Definition get_tracedata : M (list string) := fun s => (Ret (tracedata (self s)), s).

Definition modify_results (f : Results -> Results) : M unit :=
  fun s => (Ret tt,
            mkState (mkSorConverter (filename (self s)) (f (results (self s)))
                                    (tracedata (self s))) (fh s)).

(** [self.tracedata.append(line)] *)
Definition append_trace (line : string) : M unit :=
  fun s => (Ret tt,
            mkState (mkSorConverter (filename (self s)) (results (self s))
                                    (tracedata (self s) ++ [line])%list) (fh s)).

(** [self.results[key]] for an optional key: KeyError when absent. *)
Definition lookup_key {A} (key : string) (field : Results -> option A) : M A :=
  r <- get_results ;;
  match field r with
  | Some a => ret a
  | None => raise (KeyError key)
  end.

(** [d[key]] *)
Definition getitem {V} (key : string) (d : dict V) : M V :=
  match dict_get key d with
  | Some v => ret v
  | None => raise (KeyError key)
  end.

(** [self.results["format"]] *)
Definition get_format : M Z := lookup_key "format" r_format.

(** [self.results["blocks"][bname]] *)
Definition get_block (bname : string) : M BlockDescriptor :=
  blocks <- lookup_key "blocks" r_blocks ;;
  getitem bname blocks.

(** [xref[key] = v] where [xref] is [self.results[bname]]. *)
Definition set_item (k : BlockKind) (key : string) (v : pyval) : M unit :=
  modify_results (fun r =>
    with_record k (dict_set key v (match record_of k r with
                                   | Some d => d | None => [] end)) r).

(** ** Basic parsing functions *)

Definition is_nul (b : byte) : bool := byte_val b =? 0.

(** The loop of [_get_string]: [byte] is the byte just read, [mystr] what was
    accumulated.  Each round consumes one byte of the file, so [fuel] (the
    file length) is never exhausted. *)
Fixpoint get_string_loop (fuel : nat) (mystr : bytes) (byte : bytes) : M bytes :=
  match byte with
  | [] => ret mystr
  | c :: _ =>
      if is_nul c then ret mystr
      else match fuel with
           | O => ret (mystr ++ [c])%list
           | S fuel' =>
               byte' <- read 1 ;;
               get_string_loop fuel' (mystr ++ [c])%list byte'
           end
  end.

(** The length of the file, the bound on the rounds of the loop above. *)
Definition file_length : M nat :=
  fun s => (Ret (List.length (content (filehandle (fh s)))), s).

(** [_get_string]: a NUL-terminated string, decoded as UTF-8. *)
Definition _get_string : M string :=
  byte <- read 1 ;;
  fuel <- file_length ;;
  mystr <- get_string_loop fuel [] byte ;;
  lift (decode_utf8 mystr).

(** [_get_uint] *)
Definition _get_uint (nbytes : Z) : M Z :=
  word <- read nbytes ;;
  if (nbytes =? 2) || (nbytes =? 4) || (nbytes =? 8) then lift (unpack_uint nbytes word)
  else raise (ValueError ("Invalid number of bytes " ++ str_int nbytes)).

(** [_get_signed] *)
Definition _get_signed (nbytes : Z) : M Z :=
  word <- read nbytes ;;
  if (nbytes =? 2) || (nbytes =? 4) || (nbytes =? 8) then lift (unpack_signed nbytes word)
  else raise (ValueError ("Invalid number of bytes " ++ str_int nbytes)).

(** ["%.2f" % (v * 0.01)] *)
Definition hundredths (v : Z) : string := format_f 2 (PrimFloat.mul (z2f v) 0.01).

(** ** Block processing functions *)

(** [_process_mapblock], first part: probe the leading string for the format
    version; format 1 rewinds to the start. *)
Definition mapblock_probe : M unit :=
  seek 0 ;;;
  tag <- _get_string ;;
  if String.eqb tag "Map" then
    modify_results (with_format 2)
  else
    (modify_results (with_format 1) ;;;
     seek 0 ;;;
     ret tt).

(** [self.results["blocks"][bname] = {...}] *)
Definition add_block (ref : BlockDescriptor) : M unit :=
  blocks <- lookup_key "blocks" r_blocks ;;
  modify_results (with_blocks (dict_set (b_name ref) ref blocks)).

(** The table loop of [_process_mapblock]; [startpos] is the running offset. *)
Fixpoint mapblock_loop (idx : list Z) (startpos : Z) : M unit :=
  match idx with
  | [] => ret tt
  | i :: idx' =>
      bname <- _get_string ;;
      v <- _get_uint 2 ;;
      bsize <- _get_uint 4 ;;
      add_block (mkBlock bname (hundredths v) bsize startpos i) ;;;
      mapblock_loop idx' (startpos + bsize)
  end.

(** [_process_mapblock], second part: version, map size, block table. *)
Definition mapblock_table : M string :=
  v <- _get_uint 2 ;;
  modify_results (with_version (hundredths v)) ;;;
  nb <- _get_uint 4 ;;
  n <- _get_uint 2 ;;
  modify_results (with_mapblock (mkMapBlock nb (n - 1))) ;;;
  modify_results (with_blocks []) ;;;
  mb <- lookup_key "mapblock" r_mapblock ;;
  mapblock_loop (range (nblocks mb)) (nbytes mb) ;;;
  ret "ok".

Definition _process_mapblock : M string :=
  mapblock_probe ;;; mapblock_table.

(** The common entry of every block decoder: locate the block, seek to it,
    check the header tag in format 2 and start an empty record.  [None]
    stands for the early [return "nok"]. *)
Definition enter_block (k : BlockKind) : M (option BlockDescriptor) :=
  let bname := block_name k in
  let hsize := Z.of_nat (String.length bname) + 1 in
  ref <- get_block bname ;;
  seek (b_pos ref) ;;;
  fmt <- get_format ;;
  ok <- (if fmt =? 2 then
           raw <- read hsize ;;
           mystr <- lift (decode_ascii raw) ;;
           ret (String.eqb mystr (bname ++ NUL))
         else ret true) ;;
  if ok then
    modify_results (with_record k []) ;;;
    ret (Some ref)
  else ret None.

Definition mem_str (x : string) (l : list string) : bool :=
  existsb (String.eqb x) l.

Definition genparams_fields (fmt : Z) : list string :=
  if fmt =? 1 then
    ["cable ID"; "fiber ID"; "wavelength"; "location A"; "location B";
     "cable code/fiber type"; "build condition"; "user offset";
     "operator"; "comments"]
  else
    ["cable ID"; "fiber ID"; "fiber type"; "wavelength"; "location A";
     "location B"; "cable code/fiber type"; "build condition";
     "user offset"; "user offset distance"; "operator"; "comments"].

(** The body of the field loop of [_process_genparams]. *)
Definition genparams_field (field : string) : M unit :=
  xstr <- (if String.eqb field "build condition" then
             raw <- read 2 ;; lift (decode_ascii raw)
           else if mem_str field ["wavelength"; "fiber type"] then
             val <- _get_uint 2 ;;
             ret (if String.eqb field "wavelength" then str_int val ++ " nm"
                  else str_int val)
           else if mem_str field ["user offset"; "user offset distance"] then
             val <- _get_signed 4 ;;
             ret (str_int val)
           else _get_string) ;;
  set_item GenParams field (VStr xstr).

Definition _process_genparams : M string :=
  r <- enter_block GenParams ;;
  match r with
  | None => ret "nok"
  | Some ref =>
      raw <- read 2 ;;
      lang <- lift (decode_ascii raw) ;;
      set_item GenParams "language" (VStr lang) ;;;
      fmt <- get_format ;;
      for_each (genparams_fields fmt) genparams_field ;;;
      ret "ok"
  end.

Definition supparams_fields : list string :=
  ["supplier"; "OTDR"; "OTDR S/N"; "module"; "module S/N"; "software"; "other"].

Definition _process_supparams : M string :=
  r <- enter_block SupParams ;;
  match r with
  | None => ret "nok"
  | Some ref =>
      for_each supparams_fields
        (fun field => x <- _get_string ;; set_item SupParams field (VStr x)) ;;;
      ret "ok"
  end.

(** One row of the field table of [_process_fxdparams].  An empty string in
    the [scale] or [dgt] column of the source is [None] here. *)
Record Field := mkField {
  f_name : string;
  f_pos : Z;
  f_size : Z;
  f_type : string;
  f_scale : option float;
  f_dgt : option nat;
  f_unit : string
}.

Definition fxdparams_plist (fmt : Z) : list Field :=
  if fmt =? 1 then
    [ mkField "date/time" 0 4 "v" None None "";
      mkField "unit" 4 2 "s" None None "";
      mkField "wavelength" 6 2 "v" (Some 0.1%float) (Some 1%nat) "nm";
      mkField "acquisition offset" 8 4 "i" None None "";
      mkField "number of pulse width entries" 12 2 "v" None None "";
      mkField "pulse width" 14 2 "v" None (Some 0%nat) "ns";
      mkField "sample spacing" 16 4 "v" (Some 1e-8%float) None "usec";
      mkField "num data points" 20 4 "v" None None "";
      mkField "index" 24 4 "v" (Some 1e-5%float) (Some 6%nat) "";
      mkField "BC" 28 2 "v" (Some (-0.1)%float) (Some 2%nat) "dB";
      mkField "num averages" 30 4 "v" None None "";
      mkField "range" 34 4 "v" (Some 2e-5%float) (Some 6%nat) "km";
      mkField "front panel offset" 38 4 "i" None None "";
      mkField "noise floor level" 42 2 "v" None None "";
      mkField "noise floor scaling factor" 44 2 "i" None None "";
      mkField "power offset first point" 46 2 "v" None None "";
      mkField "loss thr" 48 2 "v" (Some 0.001%float) (Some 3%nat) "dB";
      mkField "refl thr" 50 2 "v" (Some (-0.001)%float) (Some 3%nat) "dB";
      mkField "EOT thr" 52 2 "v" (Some 0.001%float) (Some 3%nat) "dB" ]
  else
    [ mkField "date/time" 0 4 "v" None None "";
      mkField "unit" 4 2 "s" None None "";
      mkField "wavelength" 6 2 "v" (Some 0.1%float) (Some 1%nat) "nm";
      mkField "acquisition offset" 8 4 "i" None None "";
      mkField "acquisition offset distance" 12 4 "i" None None "";
      mkField "number of pulse width entries" 16 2 "v" None None "";
      mkField "pulse width" 18 2 "v" None (Some 0%nat) "ns";
      mkField "sample spacing" 20 4 "v" (Some 1e-8%float) None "usec";
      mkField "num data points" 24 4 "v" None None "";
      mkField "index" 28 4 "v" (Some 1e-5%float) (Some 6%nat) "";
      mkField "BC" 32 2 "v" (Some (-0.1)%float) (Some 2%nat) "dB";
      mkField "num averages" 34 4 "v" None None "";
      mkField "averaging time" 38 2 "v" (Some 0.1%float) (Some 0%nat) "sec";
      mkField "range" 40 4 "v" (Some 2e-5%float) (Some 6%nat) "km";
      mkField "acquisition range distance" 44 4 "i" None None "";
      mkField "front panel offset" 48 4 "i" None None "";
      mkField "noise floor level" 52 2 "v" None None "";
      mkField "noise floor scaling factor" 54 2 "i" None None "";
      mkField "power offset first point" 56 2 "v" None None "";
      mkField "loss thr" 58 2 "v" (Some 0.001%float) (Some 3%nat) "dB";
      mkField "refl thr" 60 2 "v" (Some (-0.001)%float) (Some 3%nat) "dB";
      mkField "EOT thr" 62 2 "v" (Some 0.001%float) (Some 3%nat) "dB";
      mkField "trace type" 64 2 "s" None None "";
      mkField "X1" 66 4 "i" None None "";
      mkField "Y1" 70 4 "i" None None "";
      mkField "X2" 74 4 "i" None None "";
      mkField "Y2" 78 4 "i" None None "" ].

(** [str(val)] for the number held in [val]. *)
Definition str_num (val : pyval) : string :=
  match val with
  | VInt z => str_int z
  | VFloat f => repr_float f
  | _ => ""
  end.

(** The number in [val] as a float (for [f"{val:.3f}"] and arithmetic). *)
Definition num_float (val : pyval) : exn + float :=
  match val with
  | VInt z => inr (z2f z)
  | VFloat f => inr f
  | _ => inl (TypeError "a number is required")
  end.

(** [float(v)] *)
Definition to_float (v : pyval) : exn + float :=
  match v with
  | VStr s =>
      match float_of_str s with
      | Some f => inr f
      | None => inl (ValueError ("could not convert string to float: '" ++ s ++ "'"))
      end
  | _ => num_float v
  end.

(** [int(v)] for a string. *)
Definition to_int (v : pyval) : exn + Z :=
  match v with
  | VInt z => inr z
  | VStr s =>
      match int_of_str s with
      | Some z => inr z
      | None => inl (ValueError ("invalid literal for int() with base 10: '" ++ s ++ "'"))
      end
  | _ => inl (TypeError "int() argument must be a string or a number")
  end.

(** [a / b] on floats. *)
Definition py_div (a b : float) : exn + float :=
  if PrimFloat.eqb b 0 then inl ZeroDivisionError else inr (PrimFloat.div a b).

(** The whole seconds of a timestamp held in [val]. *)
Definition timestamp_seconds (val : pyval) : exn + Z :=
  match val with
  | VInt z => inr z
  | VFloat f =>
      match Prim2SF f with
      | S754_finite false m e => let (n, d) := frac_of m e in inr (n / d)
      | S754_zero _ => inr 0
      | _ => inl (ValueError "timestamp out of range")
      end
  | _ => inl (TypeError "a number is required")
  end.

Definition unit_map : dict string :=
  [("mt", "meters"); ("km", "kilometers"); ("mi", "miles"); ("kf", "kilo-ft")].

Definition truthy_scale (s : option float) : bool :=
  match s with Some f => negb (PrimFloat.eqb f 0) | None => false end.

Definition truthy_dgt (d : option nat) : bool :=
  match d with Some (S _) => true | _ => false end.

(** The body of the field loop of [_process_fxdparams].  [val] is the loop's
    variable of that name: it keeps its value over the fields that read no
    number.  The result is its new value. *)
Definition fxdparams_field (ref : BlockDescriptor) (field : Field) (val : pyval)
  : M pyval :=
  seek (b_pos ref + f_pos field) ;;;
  vx <- (if String.eqb (f_type field) "i" then
           v <- _get_signed (f_size field) ;;
           ret (VInt v, str_int v)
         else if String.eqb (f_type field) "v" then
           v <- _get_uint (f_size field) ;;
           let val' := if truthy_scale (f_scale field) then
                         match f_scale field with
                         | Some sc => VFloat (PrimFloat.mul (z2f v) sc)
                         | None => VInt v
                         end
                       else VInt v in
           if truthy_dgt (f_dgt field) then
             x <- lift (num_float val') ;;
             ret (val', format_f (match f_dgt field with Some d => d | None => O end) x)
           else ret (val', str_num val')
         else if String.eqb (f_type field) "s" then
           raw <- read (f_size field) ;;
           x <- lift (decode_utf8 raw) ;;
           ret (val, x)
         else ret (val, "")) ;;
  let (val', xstr) := vx : pyval * string in
  xstr' <- (if String.eqb (f_name field) "date/time" then
              t <- lift (timestamp_seconds val') ;;
              ret (utc_timestamp t)
            else if String.eqb (f_name field) "unit" then
              ret (xstr ++ " (" ++ match dict_get xstr unit_map with
                                   | Some u => u | None => "unknown" end ++ ")")
            else ret xstr) ;;
  set_item FxdParams (f_name field)
    (VStr (if String.eqb (f_unit field) "" then xstr' else xstr' ++ " " ++ f_unit field)) ;;;
  ret val'.

Fixpoint fxdparams_loop (ref : BlockDescriptor) (plist : list Field) (val : pyval)
  : M unit :=
  match plist with
  | [] => ret tt
  | field :: plist' =>
      val' <- fxdparams_field ref field val ;;
      fxdparams_loop ref plist' val'
  end.

Definition is_space (c : ascii) : bool :=
  let n := nat_of_ascii c in
  (Nat.eqb n 32) || ((Nat.leb 9 n) && (Nat.leb n 13)).

Fixpoint lstrip (s : string) : string :=
  match s with
  | String c s' => if is_space c then lstrip s' else s
  | EmptyString => s
  end.

(** [s.split()[0]] on ASCII text: the first whitespace-delimited word. *)
Definition first_word (s : string) : exn + string :=
  match fst (split_at is_space (lstrip s)) with
  | EmptyString => inl (IndexError "list index out of range")
  | w => inr w
  end.

Definition as_str (v : pyval) : exn + string :=
  match v with
  | VStr s => inr s
  | _ => inl (TypeError "a string is required")
  end.

Definition _process_fxdparams : M string :=
  r <- enter_block FxdParams ;;
  match r with
  | None => ret "nok"
  | Some ref =>
      fmt <- get_format ;;
      fxdparams_loop ref (fxdparams_plist fmt) (VInt 0) ;;;
      xref <- lookup_key "FxdParams" r_FxdParams ;;
      index <- getitem "index" xref ;;
      ior <- lift (to_float index) ;;
      spacing <- getitem "sample spacing" xref ;;
      spacing_s <- lift (as_str spacing) ;;
      word <- lift (first_word spacing_s) ;;
      ss <- lift (to_float (VStr word)) ;;
      dx <- lift (py_div (PrimFloat.mul ss SOL) ior) ;;
      set_item FxdParams "resolution" (VFloat (PrimFloat.mul dx 1000)) ;;;
      ndp <- getitem "num data points" xref ;;
      n <- lift (to_int ndp) ;;
      set_item FxdParams "range" (VFloat (PrimFloat.mul dx (z2f n))) ;;;
      ret "ok"
  end.

(** [[self._get_uint(fh, 2) for _ in range(N)]] *)
Fixpoint read_samples (idx : list Z) : M (list Z) :=
  match idx with
  | [] => ret []
  | _ :: idx' =>
      x <- _get_uint 2 ;;
      xs <- read_samples idx' ;;
      ret (x :: xs)
  end.

(** [max(dlist)] and [min(dlist)]: ValueError on an empty list. *)
Definition py_max (l : list Z) : exn + Z :=
  match l with
  | [] => inl (ValueError "max() arg is an empty sequence")
  | x :: l' => inr (fold_left Z.max l' x)
  end.

Definition py_min (l : list Z) : exn + Z :=
  match l with
  | [] => inl (ValueError "min() arg is an empty sequence")
  | x :: l' => inr (fold_left Z.min l' x)
  end.

(** The conversion of the raw samples to dB under an offset mode. *)
Definition datapts_nlist (offset : string) (ymax ymin : Z) (fs : float)
    (dlist : list Z) : list float :=
  if String.eqb offset "STV" then
    map (fun x => PrimFloat.mul (z2f (ymax - x)) fs) dlist
  else if String.eqb offset "AFL" then
    map (fun x => PrimFloat.mul (z2f (ymin - x)) fs) dlist
  else
    map (fun x => PrimFloat.mul (z2f (- x)) fs) dlist.

(** The distance of sample [i]: [dx * i * xscaling / 1000.0]. *)
Definition datapts_x (dx : float) (xscaling : Z) (i : Z) : float :=
  PrimFloat.div (PrimFloat.mul (PrimFloat.mul dx (z2f i)) (z2f xscaling)) 1000.

(** One line of trace data: [f"{x:.6f}\t{y:.6f}\n"]. *)
Definition trace_line (x y : float) : string :=
  format_f 6 x ++ TAB ++ format_f 6 y ++ LF.

Definition _process_datapts : M string :=
  r <- enter_block DataPts ;;
  match r with
  | None => ret "nok"
  | Some ref =>
      let xscaling := 1 in
      let offset := "STV" in
      set_item DataPts "_datapts_params"
        (VDict [("xscaling", VInt xscaling); ("offset", VStr offset)]) ;;;
      N <- _get_uint 4 ;;
      set_item DataPts "num data points" (VInt N) ;;;
      val <- _get_signed 2 ;;
      set_item DataPts "num traces" (VInt val) ;;;
      _get_uint 4 ;;;
      val <- _get_uint 2 ;;
      let scaling_factor := PrimFloat.div (z2f val) 1000 in
      set_item DataPts "scaling factor" (VFloat scaling_factor) ;;;
      dlist <- read_samples (range N) ;;
      ymax <- lift (py_max dlist) ;;
      ymin <- lift (py_min dlist) ;;
      let fs := PrimFloat.mul 0.001 scaling_factor in
      fxd <- lookup_key "FxdParams" r_FxdParams ;;
      res <- getitem "resolution" fxd ;;
      resolution <- lift (num_float res) ;;
      let dx := PrimFloat.div resolution 1000 in
      let nlist := datapts_nlist offset ymax ymin fs dlist in
      for_each (range N)
        (fun i => append_trace
                    (trace_line (datapts_x dx xscaling i)
                                (nth (Z.to_nat i) nlist PrimFloat.zero))) ;;;
      ret "ok"
  end.

(** The body of the event loop of [_process_keyevents]. *)
Definition keyevents_event (factor : float) (j : Z) : M unit :=
  event_id <- _get_uint 2 ;;
  d <- _get_uint 4 ;;
  let dist := PrimFloat.mul (z2f d) factor in
  sl <- _get_signed 2 ;;
  let slope := PrimFloat.mul (z2f sl) 0.001 in
  sp <- _get_signed 2 ;;
  let splice := PrimFloat.mul (z2f sp) 0.001 in
  rf <- _get_signed 4 ;;
  let refl := PrimFloat.mul (z2f rf) 0.001 in
  raw <- read 8 ;;
  xtype <- lift (decode_ascii raw) ;;
  fmt <- get_format ;;
  (if fmt =? 2 then read 20 ;;; ret tt else ret tt) ;;;
  comments <- _get_string ;;
  set_item KeyEvents ("event " ++ str_int (j + 1))
    (VDict [("type", VStr xtype);
            ("distance", VStr (format_f 3 dist));
            ("slope", VStr (format_f 3 slope));
            ("splice loss", VStr (format_f 3 splice));
            ("refl loss", VStr (format_f 3 refl));
            ("comments", VStr comments)]).

(** [float(f"{x:.<d>f}")] *)
Definition rounded (d : nat) (x : float) : M pyval :=
  f <- lift (to_float (VStr (format_f d x))) ;;
  ret (VFloat f).

Definition _process_keyevents : M string :=
  r <- enter_block KeyEvents ;;
  match r with
  | None => ret "nok"
  | Some ref =>
      nev <- _get_uint 2 ;;
      set_item KeyEvents "num events" (VInt nev) ;;;
      fxd <- lookup_key "FxdParams" r_FxdParams ;;
      index <- getitem "index" fxd ;;
      ior <- lift (to_float index) ;;
      factor <- lift (py_div (PrimFloat.mul 1e-4 SOL) ior) ;;
      for_each (range nev) (keyevents_event factor) ;;;
      t <- _get_signed 4 ;;
      let total := PrimFloat.mul (z2f t) 0.001 in
      ls <- _get_signed 4 ;;
      let loss_start := PrimFloat.mul (z2f ls) factor in
      lf <- _get_uint 4 ;;
      let loss_finish := PrimFloat.mul (z2f lf) factor in
      o <- _get_uint 2 ;;
      let orl := PrimFloat.mul (z2f o) 0.001 in
      os <- _get_signed 4 ;;
      let orl_start := PrimFloat.mul (z2f os) factor in
      of_ <- _get_uint 4 ;;
      let orl_finish := PrimFloat.mul (z2f of_) factor in
      v1 <- rounded 3 total ;;
      v2 <- rounded 3 orl ;;
      v3 <- rounded 6 loss_start ;;
      v4 <- rounded 6 loss_finish ;;
      v5 <- rounded 6 orl_start ;;
      v6 <- rounded 6 orl_finish ;;
      set_item KeyEvents "Summary"
        (VDict [("total loss", v1); ("ORL", v2); ("loss start", v3);
                ("loss end", v4); ("ORL start", v5); ("ORL finish", v6)]) ;;;
      ret "ok"
  end.

Definition _process_cksum : M string :=
  r <- enter_block Cksum ;;
  match r with
  | None => ret "nok"
  | Some ref =>
      dg <- digest ;;
      csum <- _get_uint 2 ;;
      set_item Cksum "checksum_ours" (VInt dg) ;;;
      set_item Cksum "checksum" (VInt csum) ;;;
      set_item Cksum "match" (VBool (dg =? csum)) ;;;
      ret "ok"
  end.

(** ** The orchestrator *)

(** The dispatch on the block name; an unknown name leaves [status] as is. *)
Definition dispatch (bname : string) (status : string) : M string :=
  if String.eqb bname "GenParams" then _process_genparams
  else if String.eqb bname "SupParams" then _process_supparams
  else if String.eqb bname "FxdParams" then _process_fxdparams
  else if String.eqb bname "DataPts" then _process_datapts
  else if String.eqb bname "KeyEvents" then _process_keyevents
  else if String.eqb bname "Cksum" then _process_cksum
  else ret status.

(** The block loop of [sorparse]; the result is the final [status]. *)
Fixpoint sorparse_loop (klist : list string) (status : string) : M string :=
  match klist with
  | [] => ret status
  | bname :: klist' =>
      ref <- get_block bname ;;
      status' <- dispatch (b_name ref) status ;;
      if String.eqb status' "ok" then sorparse_loop klist' status'
      else ret status'
  end.

(** [sorted(self.results["blocks"], key=lambda x: ...["order"])] *)
Definition block_order (blocks : dict BlockDescriptor) : list string :=
  map fst (sorted (fun kv => b_order (snd kv)) blocks).

(** What [sorparse] returns: status, results, tracedata. *)
Definition parse_result : Type :=
  string * option Results * option (list string).

Definition status_of (r : parse_result) : string := fst (fst r).
Definition results_in (r : parse_result) : option Results := snd (fst r).
Definition tracedata_in (r : parse_result) : option (list string) := snd r.

(** The part of [sorparse] after the file is open, inside [try]. *)
Definition sorparse_body (basename : string) : M parse_result :=
  modify_results (with_filename basename) ;;;
  status <- _process_mapblock ;;
  if negb (String.eqb status "ok") then ret (status, None, None)
  else
    blocks <- lookup_key "blocks" r_blocks ;;
    status <- sorparse_loop (block_order blocks) status ;;
    r <- get_results ;;
    td <- get_tracedata ;;
    ret (status, Some r, Some td).

(** [os.path.basename] (POSIX): what follows the last slash. *)
Fixpoint basename (p : string) : string :=
  match p with
  | EmptyString => EmptyString
  | String c p' =>
      if existsb (Ascii.eqb "/"%char) (list_ascii_of_string p') then basename p'
      else if Ascii.eqb c "/"%char then p' else p
  end.

(** The file system: the content of the files that can be opened. *)
Definition Disk : Type := string -> option bytes.

(** [sorparse]: any exception becomes the status ["Error: ..."]. *)
Definition sorparse (disk : Disk) (fname : string) (me : SorConverter)
  : parse_result * SorConverter :=
  match disk fname with
  | None =>
      (("Error: " ++ exn_str (OSError ("[Errno 2] No such file or directory: '"
                                         ++ fname ++ "'")), None, None), me)
  | Some c =>
      let s0 := mkState me (FileHandler_init (mkRawFile c 0)) in
      match sorparse_body (basename fname) s0 with
      | (Ret res, s) => (res, self s)
      | (Raise e, s) => (("Error: " ++ exn_str e, None, None), self s)
      end
  end.

Fixpoint rstrip_rev (r : list ascii) : list ascii :=
  match r with
  | c :: r' => if is_space c then rstrip_rev r' else r
  | [] => []
  end.

(** [s.strip()] on ASCII text. *)
Definition strip (s : string) : string :=
  string_of_list_ascii
    (rev (rstrip_rev (rev (list_ascii_of_string (lstrip s))))).

(** [s.replace('\t', ',')] *)
Fixpoint tabs_to_commas (s : string) : string :=
  match s with
  | EmptyString => EmptyString
  | String c s' =>
      String (if Ascii.eqb c (ascii_of_nat 9) then ","%char else c) (tabs_to_commas s')
  end.

(** [_write_csv]: the text written to the output file. *)
Definition _write_csv (td : list string) : string :=
  fold_left (fun acc line => acc ++ tabs_to_commas (strip line) ++ LF) td
            ("Distance (km),Loss (dB)" ++ LF).

(** [os.path.splitext(name)[0]] for a name without directories. *)
Definition splitext_root (name : string) : string :=
  let cs := list_ascii_of_string name in
  let fix last_dot (i : nat) (l : list ascii) (found : option nat) :=
    match l with
    | [] => found
    | c :: l' => last_dot (S i) l' (if Ascii.eqb c "."%char then Some i else found)
    end in
  let fix leading (l : list ascii) : nat :=
    match l with
    | c :: l' => if Ascii.eqb c "."%char then S (leading l') else O
    | [] => O
    end in
  match last_dot O cs None with
  | Some i => if Nat.ltb i (leading cs) then name else String.substring 0 i name
  | None => name
  end.

(** [convert_to_csv]: the returned flag and the file written, if any. *)
Definition convert_to_csv (disk : Disk) (output_file : option string)
    (me : SorConverter) : (bool * option (string * string)) * SorConverter :=
  let '((status, _, td), me') := sorparse disk (filename me) me in
  if negb (String.eqb status "ok") then ((false, None), me')
  else
    let out := match output_file with
               | Some o => if String.eqb o "" then
                             splitext_root (basename (filename me)) ++ ".csv"
                           else o
               | None => splitext_root (basename (filename me)) ++ ".csv"
               end in
    ((true, Some (out, _write_csv (match td with Some l => l | None => [] end))), me').

(* ------------------------------------------------------------------ *)
(** * Part 3. Sample files                                              *)
(* ------------------------------------------------------------------ *)

(** Small SOR files, assembled field by field, on which the converter is
    run in the examples below. *)
Module Sample.

Definition byte_of (v : Z) : byte :=
  match Byte.of_N (Z.to_N (v mod 256)) with Some b => b | None => x00 end.

(** [n] bytes of [v], little endian (two's complement when negative). *)
Fixpoint le (n : nat) (v : Z) : bytes :=
  match n with
  | O => []
  | S k => byte_of v :: le k (v / 256)
  end.

Definition cstr (s : string) : bytes := (bytes_of_str s ++ [x00])%list.

Definition blen (b : bytes) : Z := Z.of_nat (List.length b).

(** A block of the file: the name in the map, the leading tag (empty in
    format 1) and the body. *)
Record Block := mkB { name : string; tag : bytes; body : bytes }.

Definition whole (b : Block) : bytes := (tag b ++ body b)%list.

Definition map_rows (blocks : list Block) : bytes :=
  flat_map (fun b => cstr (name b) ++ le 2 100 ++ le 4 (blen (whole b)))%list blocks.

(** The map block: [lead] is the format-2 tag, empty in format 1. *)
Definition map_block (lead : bytes) (blocks : list Block) : bytes :=
  let rows := map_rows blocks in
  (lead ++ le 2 100 ++ le 4 (blen lead + 8 + blen rows)
        ++ le 2 (Z.of_nat (List.length blocks) + 1) ++ rows)%list.

Definition sor_file (lead : bytes) (blocks : list Block) : bytes :=
  (map_block lead blocks ++ flat_map whole blocks)%list.

(** Format 1 blocks carry no tag, format 2 blocks their name. *)
Definition v1 (n : string) (b : bytes) : Block := mkB n [] b.
Definition v2 (n : string) (b : bytes) : Block := mkB n (cstr n) b.

Definition genparams1 : bytes :=
  (bytes_of_str "EN" ++ cstr "cable-7" ++ cstr "fiber-3" ++ le 2 1550 ++
   cstr "site A" ++ cstr "site B" ++ cstr "G652" ++ bytes_of_str "BC" ++
   le 4 0 ++ cstr "op" ++ cstr "none")%list.

Definition genparams2 : bytes :=
  (bytes_of_str "EN" ++ cstr "cable-7" ++ cstr "fiber-3" ++ le 2 652 ++ le 2 1550 ++
   cstr "site A" ++ cstr "site B" ++ cstr "G652" ++ bytes_of_str "BC" ++
   le 4 0 ++ le 4 0 ++ cstr "op" ++ cstr "none")%list.

Definition supparams : bytes :=
  (cstr "ACME" ++ cstr "OTDR-1" ++ cstr "sn1" ++ cstr "mod" ++ cstr "sn2" ++
   cstr "1.0" ++ cstr "")%list.

(** Format 1: sample spacing 0.01 usec, 3 data points, index 1.468. *)
Definition fxdparams1 : bytes :=
  (le 4 1700000000 ++ bytes_of_str "km" ++ le 2 15500 ++ le 4 0 ++ le 2 1 ++
   le 2 30 ++ le 4 1000000 ++ le 4 3 ++ le 4 146800 ++ le 2 800 ++ le 4 1000 ++
   le 4 500000 ++ le 4 0 ++ le 2 0 ++ le 2 0 ++ le 2 0 ++ le 2 200 ++
   le 2 40000 ++ le 2 3000)%list.

(** Format 2, the same acquisition. *)
Definition fxdparams2 : bytes :=
  (le 4 1700000000 ++ bytes_of_str "km" ++ le 2 15500 ++ le 4 0 ++ le 4 0 ++
   le 2 1 ++ le 2 30 ++ le 4 1000000 ++ le 4 3 ++ le 4 146800 ++ le 2 800 ++
   le 4 1000 ++ le 2 30 ++ le 4 500000 ++ le 4 0 ++ le 4 0 ++ le 2 0 ++ le 2 0 ++
   le 2 0 ++ le 2 200 ++ le 2 40000 ++ le 2 3000 ++ bytes_of_str "ST" ++
   le 4 0 ++ le 4 0 ++ le 4 0 ++ le 4 0)%list.

Definition datapts (samples : list Z) (c : Z) : bytes :=
  (le 4 (Z.of_nat (List.length samples)) ++ le 2 1 ++
   le 4 (Z.of_nat (List.length samples)) ++ le 2 c ++
   flat_map (le 2) samples)%list.

Definition summary : bytes :=
  (le 4 1500 ++ le 4 0 ++ le 4 1000 ++ le 2 30000 ++ le 4 0 ++ le 4 1000)%list.

Definition keyevents1 : bytes :=
  (le 2 1 ++
   le 2 1 ++ le 4 1000 ++ le 2 190 ++ le 2 (-25) ++ le 4 (-45000) ++
   bytes_of_str "1F9999LS" ++ cstr "end" ++ summary)%list.

Definition keyevents2 : bytes :=
  (le 2 1 ++
   le 2 1 ++ le 4 1000 ++ le 2 190 ++ le 2 (-25) ++ le 4 (-45000) ++
   bytes_of_str "1F9999LS" ++ le 4 0 ++ le 4 0 ++ le 4 0 ++ le 4 0 ++ le 4 0 ++
   cstr "end" ++ summary)%list.

(** A complete format-1 file with samples [100, 150, 50], scaling code
    1000 and [csum] as stored checksum. *)
Definition file1 (csum : Z) : bytes :=
  sor_file []
    [v1 "GenParams" genparams1; v1 "SupParams" supparams;
     v1 "FxdParams" fxdparams1; v1 "DataPts" (datapts [100; 150; 50] 1000);
     v1 "KeyEvents" keyevents1; v1 "Cksum" (le 2 csum)].

(** A complete format-2 file; [ketag] is the tag written in front of the
    key events block (["KeyEvents"] in a well-formed file). *)
Definition file2 (ketag : string) : bytes :=
  sor_file (cstr "Map")
    [v2 "GenParams" genparams2; v2 "SupParams" supparams;
     v2 "FxdParams" fxdparams2; v2 "DataPts" (datapts [100; 150; 50] 1000);
     mkB "KeyEvents" (cstr ketag) keyevents2; v2 "Cksum" (le 2 0)].

(** A format-1 file whose map lists the data points before the fixed
    parameters. *)
Definition file_datapts_first : bytes :=
  sor_file []
    [v1 "DataPts" (datapts [100; 150; 50] 1000); v1 "FxdParams" fxdparams1].

(** A disk holding one file, ["dir/trace.sor"]. *)
Definition disk (c : bytes) : Disk :=
  fun name => if String.eqb name "dir/trace.sor" then Some c else None.

Definition converter : SorConverter := SorConverter_init "dir/trace.sor".

Definition parse (c : bytes) : parse_result :=
  fst (sorparse (disk c) "dir/trace.sor" converter).

(** The state after the map block of [c] is parsed. *)
Definition after_map (c : bytes) : State :=
  snd (_process_mapblock (mkState converter (FileHandler_init (mkRawFile c 0)))).

(** The state of the parse of [file1] when the data points decoder is
    entered: the map and the three parameter blocks are decoded. *)
Definition before_datapts : State :=
  let s0 := mkState converter (FileHandler_init (mkRawFile (file1 0) 0)) in
  let s1 := snd (_process_mapblock s0) in
  let s2 := snd (_process_genparams s1) in
  let s3 := snd (_process_supparams s2) in
  snd (_process_fxdparams s3).

(** The state of the same parse when the checksum decoder is entered. *)
Definition before_cksum : State :=
  snd (_process_keyevents (snd (_process_datapts before_datapts))).

End Sample.

(* ------------------------------------------------------------------ *)
(** * Part 4. Notions used in the statements                            *)
(* ------------------------------------------------------------------ *)

(** The file under a state and the position of its cursor. *)
Definition file_of (s : State) : bytes := content (filehandle (fh s)).
Definition pos_of (s : State) : Z := offset (filehandle (fh s)).
Definition results_of (s : State) : Results := results (self s).
Definition trace_of (s : State) : list string := tracedata (self s).

(** The [n] bytes of [c] at position [p] (fewer at the end of the file). *)
Definition bytes_at (c : bytes) (p n : Z) : bytes :=
  firstn (Z.to_nat n) (drop_Z p c).

(** The unsigned little-endian field of width [n] at position [p]. *)
Definition uint_at (c : bytes) (p n : Z) : Z := le_uint (bytes_at c p n).

(** The bytes of [b] before its first NUL (all of [b] when it has none). *)
Fixpoint cstring (b : bytes) : bytes :=
  match b with
  | [] => []
  | x :: b' => if is_nul x then [] else x :: cstring b'
  end.

(** The number of bytes of [b] a read of a NUL-terminated string consumes:
    the string and its NUL, or all of [b] when it has no NUL. *)
Fixpoint cstring_span (b : bytes) : nat :=
  match b with
  | [] => O
  | x :: b' => if is_nul x then 1%nat else S (cstring_span b')
  end.

(** Where the map's version field starts: after the tag "Map\0" in format 2
    (after the leading string, in general), at 0 in format 1. *)
Definition map_start (c : bytes) (fmt : Z) : Z :=
  if fmt =? 2 then Z.of_nat (cstring_span c) else 0.

(** The first [n] rows of a block table laid out in [rest]: each row is a
    NUL-terminated name, a 16-bit version and a 32-bit size; a row is kept
    here as (name, size). *)
Fixpoint table_rows (n : nat) (rest : bytes) : list (string * Z) :=
  match n with
  | O => []
  | S k =>
      let r1 := skipn (cstring_span rest) rest in
      (str_of_bytes (cstring rest), le_uint (firstn 4 (skipn 2 r1)))
        :: table_rows k (skipn 6 r1)
  end.

Definition Zsum (l : list Z) : Z := fold_right Z.add 0 l.

(** The operations a client performs on a [FileHandler] before asking for
    the digest. *)
Inductive op : Type :=
| OpRead (n : Z)
| OpSeek (pos : Z)
| OpTell.

(** One operation on the handler, together with the log of the bytes that
    [read] has returned since the last [seek(0)]. *)
Definition step_logged (hl : FileHandler * bytes) (o : op) : FileHandler * bytes :=
  let (h, log) := hl in
  match o with
  | OpRead n => let (buf, h') := FileHandler_read n h in (h', (log ++ buf)%list)
  | OpSeek p => (snd (FileHandler_seek p h), if p =? 0 then [] else log)
  | OpTell => (h, log)
  end.

Definition run_logged (ops : list op) (f : RawFile) : FileHandler * bytes :=
  fold_left step_logged ops (FileHandler_init f, []).

(** The handler [h] accounts for the bytes [log]: its running CRC completed
    by its buffer is the CRC of [log]. *)
Definition tracks (h : FileHandler) (log : bytes) : Prop :=
  Crc.update (crc16 h) (buffer h) = crc16_ccitt_false log.

(** The size of the tag a format-2 block starts with; nothing in format 1. *)
Definition header_size (fmt : Z) (k : BlockKind) : Z :=
  if fmt =? 2 then Z.of_nat (String.length (block_name k)) + 1 else 0.

(** What a computation leaves alone: the file and a view [g] of the results. *)
Definition frame {X} (g : Results -> X) (s : State) : bytes * X :=
  (file_of s, g (results_of s)).

Definition keeps {X A} (g : Results -> X) (m : M A) : Prop :=
  forall s, frame g (snd (m s)) = frame g s.

(** The first steps of [sorparse] on the file [c]: the file name is noted
    and the map block parsed. *)
Definition after_mapblock (c : bytes) (fname : string) (me : SorConverter)
  : outcome string * State :=
  (modify_results (with_filename (basename fname)) ;;; _process_mapblock)
    (mkState me (FileHandler_init (mkRawFile c 0))).

(** The view of the results that the block decoders rely on and leave
    alone: the block table and the format. *)
Definition map_view (r : Results) : option (dict BlockDescriptor) * option Z :=
  (r_blocks r, r_format r).

(** The tag [<name>\0] a format-2 block must start with. *)
Definition tag_of (k : BlockKind) : bytes := bytes_of_str (block_name k ++ NUL).

(** The first column (distance) and second column (loss) of a trace line. *)
Definition distance_column (line : string) : string :=
  fst (split_at (is_char (ascii_of_nat 9)) line).

Definition loss_column (line : string) : string :=
  match snd (split_at (is_char (ascii_of_nat 9)) line) with
  | Some rest => fst (split_at (is_char (ascii_of_nat 10)) rest)
  | None => ""
  end.

(** The result of a computation is an exception or the status ["nok"]. *)
Definition fails (o : outcome string) : Prop :=
  match o with
  | Ret st => st = "nok"
  | Raise _ => True
  end.

(** [a] is a prefix of [b]. *)
Definition starts_with (a b : string) : Prop := exists rest, b = (a ++ rest)%string.

(** ** Notions used in the further properties *)

(** A computation moves every state to one that [R] relates to it, whether
    it returns or raises. *)
Definition preserves {A} (R : State -> State -> Prop) (m : M A) : Prop :=
  forall s, R s (snd (m s)).

(** Relations between states that no step on the file handler and no
    assignment to the results can break. *)
Class Stable (R : State -> State -> Prop) : Prop := {
  stable_refl : forall s, R s s;
  stable_trans : forall a b c, R a b -> R b c -> R a c;
  stable_handler : forall s h, R s (mkState (self s) h);
  stable_results : forall s f,
    R s (mkState (mkSorConverter (filename (self s)) (f (results (self s)))
                                 (tracedata (self s))) (fh s))
}.

(** Relations that an appended trace line does not break either. *)
Class StableAppend (R : State -> State -> Prop) : Prop := {
  stable_append : forall s line,
    R s (mkState (mkSorConverter (filename (self s)) (results (self s))
                                 (tracedata (self s) ++ [line])%list) (fh s))
}.

(** The trace data and the file name are what they were. *)
Definition same_trace (s s' : State) : Prop :=
  trace_of s' = trace_of s /\ filename (self s') = filename (self s).

(** The file name is what it was and the trace data has grown at its end. *)
Definition trace_grows (s s' : State) : Prop :=
  filename (self s') = filename (self s) /\
  exists l, trace_of s' = (trace_of s ++ l)%list.

(** A text without white space. *)
Definition spaceless (s : string) : Prop :=
  Forall (fun c => is_space c = false) (list_ascii_of_string s).

(** The first [n] NUL-terminated strings laid out one after the other in
    [rest]. *)
Fixpoint cstrings (n : nat) (rest : bytes) : list string :=
  match n with
  | O => []
  | S k => str_of_bytes (cstring rest) :: cstrings k (skipn (cstring_span rest) rest)
  end.

(** The record of block [k] as the decoders see it through [xref]. *)
Definition xref_of (k : BlockKind) (s : State) : dict pyval :=
  match record_of k (results_of s) with Some d => d | None => [] end.

(** The value that the field loop of [_process_fxdparams] keeps for a field
    of type "v" read as the unsigned integer [v]: scaled when the table
    gives a scale. *)
Definition uint_field_value (f : Field) (v : Z) : pyval :=
  if truthy_scale (f_scale f) then
    match f_scale f with
    | Some sc => VFloat (PrimFloat.mul (z2f v) sc)
    | None => VInt v
    end
  else VInt v.

(** The text stored for such a field: formatted to the digits of the table
    if any, turned into a date for "date/time", followed by the unit. *)
Definition uint_field_text (f : Field) (v : Z) : exn + string :=
  let val := uint_field_value f v in
  match (if truthy_dgt (f_dgt f) then
           match num_float val with
           | inl e => inl e
           | inr x => inr (format_f (match f_dgt f with Some d => d | None => O end) x)
           end
         else inr (str_num val)) with
  | inl e => inl e
  | inr xstr =>
      match (if String.eqb (f_name f) "date/time" then
               match timestamp_seconds val with
               | inl e => inl e
               | inr t => inr (utc_timestamp t)
               end
             else if String.eqb (f_name f) "unit" then
               inr (xstr ++ " (" ++ match dict_get xstr unit_map with
                                    | Some u => u | None => "unknown" end ++ ")")
             else inr xstr) with
      | inl e => inl e
      | inr xstr' =>
          inr (if String.eqb (f_unit f) "" then xstr' else xstr' ++ " " ++ f_unit f)
      end
  end.

(* ------------------------------------------------------------------ *)
(** * Part 5. Properties                                                *)
(* ------------------------------------------------------------------ *)

Open Scope list_scope.

(** ** The model of crcmod on the catalogue's check string *)

Example crc16_check_value : crc16_ccitt_false (bytes_of_str "123456789") = 0x29B1.
Proof. vm_compute. reflexivity. Qed.

(** ** The checksummed reader *)

Lemma crc_update_app (c : Z) (a b : bytes) :
  Crc.update c (a ++ b) = Crc.update (Crc.update c a) b.
Proof. unfold Crc.update. apply fold_left_app. Qed.

Lemma tracks_init (f : RawFile) : tracks (FileHandler_init f) [].
Proof. reflexivity. Qed.

Lemma tracks_read (n : Z) (h : FileHandler) (log : bytes) :
  tracks h log ->
  tracks (snd (FileHandler_read n h)) (log ++ fst (FileHandler_read n h)).
Proof.
  unfold tracks, FileHandler_read, crc16_ccitt_false. intros H.
  destruct (raw_read n (filehandle h)) as [buf f'] eqn:E. simpl.
  rewrite (crc_update_app Crc.init), <- H.
  destruct (spaceleft h <? Z.of_nat (List.length buf)); simpl.
  - reflexivity.
  - apply crc_update_app.
Qed.

Lemma tracks_seek (p : Z) (h : FileHandler) (log : bytes) :
  tracks h log ->
  tracks (snd (FileHandler_seek p h)) (if p =? 0 then [] else log).
Proof.
  unfold tracks, FileHandler_seek. intros H.
  destruct (p =? 0) eqn:E0; destruct (p <? 0) eqn:E1; simpl; auto.
Qed.

Lemma tracks_digest (h : FileHandler) (log : bytes) :
  tracks h log -> fst (FileHandler_digest h) = crc16_ccitt_false log.
Proof. unfold tracks, FileHandler_digest. simpl. auto. Qed.

Lemma tracks_step (o : op) (h : FileHandler) (log : bytes) :
  tracks h log ->
  tracks (fst (step_logged (h, log) o)) (snd (step_logged (h, log) o)).
Proof.
  intros H. destruct o as [n | p | ]; unfold step_logged.
  - pose proof (tracks_read n h log H) as R.
    destruct (FileHandler_read n h) as [buf h']. exact R.
  - apply tracks_seek, H.
  - exact H.
Qed.

Lemma tracks_run (ops : list op) (hl : FileHandler * bytes) :
  tracks (fst hl) (snd hl) ->
  tracks (fst (fold_left step_logged ops hl)) (snd (fold_left step_logged ops hl)).
Proof.
  revert hl. induction ops as [| o ops IH]; intros [h log] H; simpl in *.
  - exact H.
  - apply IH. apply tracks_step, H.
Qed.

Lemma tracks_run_logged (ops : list op) (f : RawFile) :
  tracks (fst (run_logged ops f)) (snd (run_logged ops f)).
Proof. apply tracks_run, tracks_init. Qed.

(** ** Stepping through computations *)

Lemma bind_inv {A B} (m : M A) (k : A -> M B) (s s' : State) (b : B) :
  bind m k s = (Ret b, s') ->
  exists a s1, m s = (Ret a, s1) /\ k a s1 = (Ret b, s').
Proof.
  unfold bind. destruct (m s) as [[a | e] s1]; intros H.
  - exists a, s1. auto.
  - discriminate.
Qed.

Lemma bind_ok {A B} (m : M A) (k : A -> M B) (s s1 : State) (a : A) :
  m s = (Ret a, s1) -> bind m k s = k a s1.
Proof. unfold bind. intros ->. reflexivity. Qed.

Lemma bind_raise {A B} (m : M A) (k : A -> M B) (s s1 : State) (e : exn) :
  m s = (Raise e, s1) -> bind m k s = (Raise e, s1).
Proof. unfold bind. intros ->. reflexivity. Qed.

Lemma ret_inv {A} (a b : A) (s s' : State) :
  ret a s = (Ret b, s') -> b = a /\ s' = s.
Proof. unfold ret. intros H. inversion H. auto. Qed.

Lemma lift_inv {A} (x : exn + A) (s s' : State) (a : A) :
  lift x s = (Ret a, s') -> x = inr a /\ s' = s.
Proof.
  destruct x as [e | a0]; simpl; unfold raise, ret; intros H; inversion H; auto.
Qed.

(** Split a successful [bind] into its two halves. *)
Tactic Notation "inv_bind" hyp(H) ident(a) ident(s1) ident(Hm) :=
  apply bind_inv in H; destruct H as (a & s1 & Hm & H).

(** *** The file under the handler *)

Lemma drop_Z_skipn (p : Z) (c : bytes) : drop_Z p c = skipn (Z.to_nat p) c.
Proof.
  unfold drop_Z. destruct (Z.of_nat (List.length c) <=? p) eqn:E; [| reflexivity].
  symmetry. apply skipn_all2. apply Z.leb_le in E. lia.
Qed.

Lemma bytes_at_length (c : bytes) (p n : Z) :
  Z.of_nat (List.length (bytes_at c p n)) <= Z.max 0 n.
Proof.
  unfold bytes_at. rewrite length_firstn. lia.
Qed.

Lemma str_of_bytes_length (b : bytes) :
  String.length (str_of_bytes b) = List.length b.
Proof.
  unfold str_of_bytes, string_of_list_byte.
  induction b as [| x b IH]; simpl; [reflexivity |].
  now rewrite IH.
Qed.

Lemma str_of_bytes_inj (b : bytes) (s : string) :
  str_of_bytes b = s -> b = bytes_of_str s.
Proof.
  unfold str_of_bytes, bytes_of_str. intros <-.
  symmetry. apply list_byte_of_string_of_list_byte.
Qed.

(** *** The handler's methods *)

Lemma read_eq (n : Z) (s : State) :
  0 <= n ->
  exists h, read n s = (Ret (bytes_at (file_of s) (pos_of s) n), mkState (self s) h) /\
            content (filehandle h) = file_of s /\
            offset (filehandle h) =
              pos_of s + Z.of_nat (List.length (bytes_at (file_of s) (pos_of s) n)).
Proof.
  intros Hn. unfold read, FileHandler_read, raw_read, bytes_at, file_of, pos_of.
  assert (E : (n <? 0) = false) by (apply Z.ltb_ge; lia). rewrite E.
  eexists. split; [reflexivity |]. simpl. auto.
Qed.

Lemma read_inv (n : Z) (s s1 : State) (b : bytes) :
  read n s = (Ret b, s1) -> 0 <= n ->
  b = bytes_at (file_of s) (pos_of s) n /\ self s1 = self s /\
  file_of s1 = file_of s /\ pos_of s1 = pos_of s + Z.of_nat (List.length b).
Proof.
  intros H Hn. destruct (read_eq n s Hn) as (h & E & Hc & Ho).
  rewrite E in H. inversion H; subst. unfold file_of, pos_of in *. simpl. auto.
Qed.

Lemma seek_eq (p : Z) (s : State) :
  0 <= p ->
  exists h, seek p s = (Ret p, mkState (self s) h) /\
            content (filehandle h) = file_of s /\ offset (filehandle h) = p /\
            bufsize h = bufsize (fh s) /\
            (p = 0 -> buffer h = [] /\ spaceleft h = bufsize (fh s) /\
                      crc16 h = Crc.init) /\
            (p <> 0 -> buffer h = buffer (fh s) /\ spaceleft h = spaceleft (fh s) /\
                       crc16 h = crc16 (fh s)).
Proof.
  intros Hp. unfold seek, FileHandler_seek, file_of.
  assert (E : (p <? 0) = false) by (apply Z.ltb_ge; lia). rewrite E.
  eexists. split; [reflexivity |].
  destruct (p =? 0) eqn:E0;
    [apply Z.eqb_eq in E0 | apply Z.eqb_neq in E0];
    simpl; repeat split; auto; intros; try contradiction; try lia.
Qed.

Lemma seek_inv (p q : Z) (s s1 : State) :
  seek p s = (Ret q, s1) ->
  0 <= p /\ self s1 = self s /\ file_of s1 = file_of s /\ pos_of s1 = p.
Proof.
  intros H. destruct (Z.ltb_spec p 0) as [Hneg | Hp].
  - unfold seek, FileHandler_seek in H.
    assert (E : (p <? 0) = true) by (apply Z.ltb_lt; lia). rewrite E in H.
    discriminate.
  - destruct (seek_eq p s Hp) as (h & E & Hc & Ho & _).
    rewrite E in H. inversion H; subst. unfold file_of, pos_of. simpl. auto.
Qed.

Lemma width_cases (n : Z) :
  (n =? 2) || (n =? 4) || (n =? 8) = true -> n = 2 \/ n = 4 \/ n = 8.
Proof.
  intros H. apply orb_true_iff in H. destruct H as [H | H].
  - apply orb_true_iff in H. destruct H as [H | H]; apply Z.eqb_eq in H; auto.
  - apply Z.eqb_eq in H; auto.
Qed.

Lemma get_uint_inv (n v : Z) (s s1 : State) :
  _get_uint n s = (Ret v, s1) ->
  (n = 2 \/ n = 4 \/ n = 8) /\ v = uint_at (file_of s) (pos_of s) n /\
  self s1 = self s /\ file_of s1 = file_of s /\ pos_of s1 = pos_of s + n.
Proof.
  unfold _get_uint. intros H. inv_bind H word s0 Hr.
  destruct ((n =? 2) || (n =? 4) || (n =? 8)) eqn:W; [| discriminate].
  apply width_cases in W.
  apply read_inv in Hr; [| lia]. destruct Hr as (Hw & Hs & Hf & Hp).
  apply lift_inv in H. destruct H as [H ->].
  unfold unpack_uint in H.
  destruct (Z.of_nat (List.length word) =? n) eqn:L; [| discriminate].
  apply Z.eqb_eq in L. inversion H; subst v.
  unfold uint_at. rewrite <- Hw. repeat split; auto. lia.
Qed.

Lemma get_signed_inv (n v : Z) (s s1 : State) :
  _get_signed n s = (Ret v, s1) ->
  self s1 = self s /\ file_of s1 = file_of s /\ pos_of s1 = pos_of s + n.
Proof.
  unfold _get_signed. intros H. inv_bind H word s0 Hr.
  destruct ((n =? 2) || (n =? 4) || (n =? 8)) eqn:W; [| discriminate].
  apply width_cases in W.
  apply read_inv in Hr; [| lia]. destruct Hr as (Hw & Hs & Hf & Hp).
  apply lift_inv in H. destruct H as [H ->].
  unfold unpack_signed in H.
  destruct (Z.of_nat (List.length word) =? n) eqn:L; [| discriminate].
  apply Z.eqb_eq in L. repeat split; auto. lia.
Qed.

Lemma get_uint_eq (n : Z) (s : State) :
  n = 2 \/ n = 4 \/ n = 8 ->
  Z.of_nat (List.length (bytes_at (file_of s) (pos_of s) n)) = n ->
  exists h, _get_uint n s = (Ret (uint_at (file_of s) (pos_of s) n), mkState (self s) h) /\
            content (filehandle h) = file_of s /\ offset (filehandle h) = pos_of s + n.
Proof.
  intros W L. destruct (read_eq n s) as (h & E & Hc & Ho); [lia |].
  exists h. unfold _get_uint. rewrite (bind_ok _ _ _ _ _ E).
  assert (Wb : (n =? 2) || (n =? 4) || (n =? 8) = true).
  { destruct W as [-> | [-> | ->]]; reflexivity. }
  rewrite Wb. unfold unpack_uint. rewrite L, Z.eqb_refl. simpl. unfold ret.
  repeat split; auto. lia.
Qed.

Lemma get_uint_short (n : Z) (s : State) :
  n = 2 \/ n = 4 \/ n = 8 ->
  Z.of_nat (List.length (bytes_at (file_of s) (pos_of s) n)) < n ->
  fst (_get_uint n s) = Raise (StructError n).
Proof.
  intros W L. destruct (read_eq n s) as (h & E & Hc & Ho); [lia |].
  unfold _get_uint. rewrite (bind_ok _ _ _ _ _ E).
  assert (Wb : (n =? 2) || (n =? 4) || (n =? 8) = true).
  { destruct W as [-> | [-> | ->]]; reflexivity. }
  rewrite Wb. unfold unpack_uint.
  assert (Ne : (Z.of_nat (List.length (bytes_at (file_of s) (pos_of s) n)) =? n) = false)
    by (apply Z.eqb_neq; lia).
  rewrite Ne. reflexivity.
Qed.

(** *** Access to the results *)

Lemma lookup_key_inv {A} (key : string) (field : Results -> option A)
    (s s1 : State) (a : A) :
  lookup_key key field s = (Ret a, s1) -> field (results_of s) = Some a /\ s1 = s.
Proof.
  unfold lookup_key, get_results, bind, results_of.
  destruct (field (results (self s))) as [a0 |]; unfold ret, raise; intros H;
    inversion H; auto.
Qed.

Lemma lookup_key_eq {A} (key : string) (field : Results -> option A)
    (s : State) (a : A) :
  field (results_of s) = Some a -> lookup_key key field s = (Ret a, s).
Proof.
  unfold lookup_key, get_results, bind, results_of. intros ->. reflexivity.
Qed.

Lemma getitem_inv {V} (key : string) (d : dict V) (s s1 : State) (v : V) :
  getitem key d s = (Ret v, s1) -> dict_get key d = Some v /\ s1 = s.
Proof.
  unfold getitem. destruct (dict_get key d); unfold ret, raise; intros H;
    inversion H; auto.
Qed.

Lemma get_block_inv (bname : string) (s s1 : State) (ref : BlockDescriptor) :
  get_block bname s = (Ret ref, s1) ->
  exists blocks, r_blocks (results_of s) = Some blocks /\
                 dict_get bname blocks = Some ref /\ s1 = s.
Proof.
  unfold get_block. intros H. inv_bind H blocks s0 Hb.
  apply lookup_key_inv in Hb. destruct Hb as [Hb ->].
  apply getitem_inv in H. destruct H as [H ->]. eauto.
Qed.

Lemma get_block_eq (bname : string) (s : State) blocks (ref : BlockDescriptor) :
  r_blocks (results_of s) = Some blocks -> dict_get bname blocks = Some ref ->
  get_block bname s = (Ret ref, s).
Proof.
  intros Hb Hg. unfold get_block.
  rewrite (bind_ok _ _ _ _ _ (lookup_key_eq "blocks" r_blocks s blocks Hb)).
  unfold getitem. rewrite Hg. reflexivity.
Qed.

Lemma modify_results_inv (f : Results -> Results) (s s1 : State) (u : unit) :
  modify_results f s = (Ret u, s1) ->
  fh s1 = fh s /\ results_of s1 = f (results_of s) /\ trace_of s1 = trace_of s.
Proof.
  unfold modify_results, results_of, trace_of. intros H. inversion H. simpl. auto.
Qed.

Lemma set_item_inv (k : BlockKind) (key : string) (v : pyval) (s s1 : State) (u : unit) :
  set_item k key v s = (Ret u, s1) ->
  fh s1 = fh s /\ trace_of s1 = trace_of s /\
  results_of s1 =
    with_record k (dict_set key v (match record_of k (results_of s) with
                                   | Some d => d | None => [] end)) (results_of s).
Proof.
  unfold set_item. intros H. apply modify_results_inv in H. tauto.
Qed.

Lemma fh_file_pos (s s1 : State) :
  fh s1 = fh s -> file_of s1 = file_of s /\ pos_of s1 = pos_of s.
Proof. unfold file_of, pos_of. intros ->. auto. Qed.

Lemma self_results_trace (s s1 : State) :
  self s1 = self s -> results_of s1 = results_of s /\ trace_of s1 = trace_of s.
Proof. unfold results_of, trace_of. intros ->. auto. Qed.

(** The record fields that [with_record] leaves alone. *)
Lemma with_record_blocks k d r : r_blocks (with_record k d r) = r_blocks r.
Proof. destruct r, k; reflexivity. Qed.

Lemma with_record_format k d r : r_format (with_record k d r) = r_format r.
Proof. destruct r, k; reflexivity. Qed.

Lemma record_of_with_record k d r : record_of k (with_record k d r) = Some d.
Proof. destruct r, k; reflexivity. Qed.

Lemma record_of_with_other k k' d r :
  k <> k' -> record_of k (with_record k' d r) = record_of k r.
Proof. destruct r, k, k'; intros H; try reflexivity; contradiction. Qed.

(** *** Entering a block *)

Lemma enter_block_inv (k : BlockKind) (s s1 : State) (r : option BlockDescriptor) :
  enter_block k s = (Ret r, s1) ->
  exists blocks ref fmt,
    r_blocks (results_of s) = Some blocks /\
    dict_get (block_name k) blocks = Some ref /\
    r_format (results_of s) = Some fmt /\
    0 <= b_pos ref /\
    file_of s1 = file_of s /\ trace_of s1 = trace_of s /\
    match r with
    | Some ref' =>
        ref' = ref /\
        results_of s1 = with_record k [] (results_of s) /\
        pos_of s1 = b_pos ref + header_size fmt k /\
        (fmt = 2 ->
         bytes_at (file_of s) (b_pos ref) (header_size 2 k) = tag_of k)
    | None =>
        fmt = 2 /\ results_of s1 = results_of s /\
        bytes_at (file_of s) (b_pos ref) (header_size 2 k) <> tag_of k
    end.
Proof.
  unfold enter_block. intros H.
  inv_bind H ref s2 Hb. apply get_block_inv in Hb.
  destruct Hb as (blocks & Hbl & Hg & ->).
  inv_bind H q s3 Hs. apply seek_inv in Hs. destruct Hs as (Hpos & Hself & Hfile & Hp).
  destruct (self_results_trace _ _ Hself) as [Hres Htr].
  inv_bind H fmt s4 Hf. apply lookup_key_inv in Hf. destruct Hf as [Hf ->].
  rewrite Hres in Hf.
  exists blocks, ref, fmt. repeat (split; [assumption |]).
  inv_bind H ok s5 Hok.
  assert (Hhdr :
    self s5 = self s3 /\ file_of s5 = file_of s3 /\
    (ok = true ->
       pos_of s5 = b_pos ref + header_size fmt k /\
       (fmt = 2 -> bytes_at (file_of s) (b_pos ref) (header_size 2 k) = tag_of k)) /\
    (ok = false ->
       fmt = 2 /\ bytes_at (file_of s) (b_pos ref) (header_size 2 k) <> tag_of k)).
  { unfold header_size. destruct (fmt =? 2) eqn:E2.
    - apply Z.eqb_eq in E2. subst fmt.
      inv_bind Hok raw s6 Hr. apply read_inv in Hr; [| lia].
      destruct Hr as (Hraw & Hs6 & Hf6 & Hp6).
      inv_bind Hok mystr s7 Hd. apply lift_inv in Hd. destruct Hd as [Hd ->].
      apply ret_inv in Hok. destruct Hok as [-> ->].
      unfold decode_ascii in Hd. destruct (ascii_error 0 raw); [discriminate |].
      inversion Hd as [Hm]. clear Hd. subst mystr.
      rewrite Hfile, Hp in Hraw. simpl (2 =? 2). cbv iota.
      split; [assumption |]. split; [assumption |]. split.
      + intros Heq. apply String.eqb_eq in Heq. apply str_of_bytes_inj in Heq. split.
        * rewrite Hp6, Hp. f_equal. rewrite Heq. destruct k; reflexivity.
        * intros _. rewrite <- Hraw. exact Heq.
      + intros Hne. apply String.eqb_neq in Hne. split; [reflexivity |].
        intros Eq. apply Hne. rewrite Hraw. unfold tag_of in Eq. rewrite Eq.
        unfold str_of_bytes, bytes_of_str. apply string_of_list_byte_of_string.
    - apply Z.eqb_neq in E2. apply ret_inv in Hok. destruct Hok as [-> ->].
      split; [reflexivity |]. split; [reflexivity |]. split.
      + intros _. split; [rewrite Z.add_0_r; exact Hp | intros ->; contradiction].
      + discriminate. }
  destruct Hhdr as (Hs5 & Hf5 & Htrue & Hfalse).
  destruct (self_results_trace _ _ Hs5) as [Hres5 Htr5].
  destruct ok.
  - inv_bind H u s6 Hm. apply modify_results_inv in Hm.
    destruct Hm as (Hfh & Hres6 & Htr6).
    destruct (fh_file_pos _ _ Hfh) as [Hf6 Hp6].
    apply ret_inv in H. destruct H as [-> ->].
    destruct (Htrue eq_refl) as [Hp5 Htag].
    repeat split; try congruence.
    exact Htag.
  - apply ret_inv in H. destruct H as [-> ->].
    destruct (Hfalse eq_refl) as [-> Hne].
    repeat split; try congruence.
Qed.

(** ** The data points decoder *)

Lemma range_length (n : Z) : List.length (range n) = Z.to_nat n.
Proof. unfold range. now rewrite length_map, length_seq. Qed.

(** The raw samples are the consecutive 16-bit fields under the cursor. *)
Lemma read_samples_inv (idx : list Z) (s s1 : State) (l : list Z) :
  read_samples idx s = (Ret l, s1) ->
  self s1 = self s /\ file_of s1 = file_of s /\
  pos_of s1 = pos_of s + 2 * Z.of_nat (List.length idx) /\
  l = map (fun j : nat => uint_at (file_of s) (pos_of s + 2 * Z.of_nat j) 2)
          (seq 0 (List.length idx)).
Proof.
  revert s l. induction idx as [| i idx IH]; intros s l H.
  - simpl in H. apply ret_inv in H. destruct H as [-> ->].
    simpl. repeat split; auto. lia.
  - simpl in H. inv_bind H x s2 Hx. inv_bind H xs s3 Hxs.
    apply ret_inv in H. destruct H as [-> ->].
    apply get_uint_inv in Hx. destruct Hx as (_ & Hv & Hs2 & Hf2 & Hp2).
    apply IH in Hxs. destruct Hxs as (Hs3 & Hf3 & Hp3 & Hl).
    split; [congruence |]. split; [congruence |]. split.
    + rewrite Hp3, Hp2. cbn [List.length]. lia.
    + cbn [List.length seq map]. f_equal.
      * rewrite Hv. f_equal. lia.
      * rewrite Hl, <- seq_shift, map_map. apply map_ext. intros j.
        rewrite Hf2, Hp2. f_equal. lia.
Qed.

Lemma for_each_append {A} (l : list A) (f : A -> string) (s : State) :
  exists s1, for_each l (fun i => append_trace (f i)) s = (Ret tt, s1) /\
             fh s1 = fh s /\ results_of s1 = results_of s /\
             trace_of s1 = trace_of s ++ map f l.
Proof.
  revert s. induction l as [| x l IH]; intros s.
  - exists s. simpl. unfold ret. rewrite app_nil_r. auto.
  - simpl.
    set (s0 := mkState (mkSorConverter (filename (self s)) (results (self s))
                                       (tracedata (self s) ++ [f x])) (fh s)).
    destruct (IH s0) as (s1 & E & Hfh & Hres & Htr).
    exists s1. split.
    + rewrite (bind_ok _ _ s s0 tt); [exact E | reflexivity].
    + rewrite Hfh, Hres, Htr. unfold s0, trace_of, results_of. simpl.
      rewrite <- app_assoc. auto.
Qed.

Lemma fold_max_spec (l : list Z) (x : Z) :
  let m := fold_left Z.max l x in
  (m = x \/ In m l) /\ x <= m /\ (forall y, In y l -> y <= m).
Proof.
  revert x. induction l as [| a l IH]; intros x; simpl.
  - split; [auto |]. split; [lia | tauto].
  - destruct (IH (Z.max x a)) as (Hin & Hle & Hall). split; [| split].
    + destruct Hin as [-> | Hin]; [| auto].
      destruct (Z.max_spec x a) as [[_ ->] | [_ ->]]; auto.
    + lia.
    + intros y [<- | Hy]; [lia | auto].
Qed.

(** [max(dlist)] is an element of the list that bounds all the others. *)
Lemma py_max_spec (l : list Z) (m : Z) :
  py_max l = inr m -> In m l /\ (forall y, In y l -> y <= m).
Proof.
  destruct l as [| x l]; simpl; intros H; [discriminate |].
  inversion H as [Hm]. destruct (fold_max_spec l x) as (Hin & Hle & Hall).
  split.
  - destruct Hin as [-> | Hin]; auto.
  - intros y [<- | Hy]; auto.
Qed.

(** A successful run of the data points decoder, in terms of the file: the
    declared count [N], the scaling code and the samples are the fields that
    follow the block tag; one line per sample is appended. *)
Lemma datapts_ok (s s' : State) :
  _process_datapts s = (Ret "ok"%string, s') ->
  exists blocks ref fmt fxd res resolution ymax ymin,
    r_blocks (results_of s) = Some blocks /\
    dict_get "DataPts" blocks = Some ref /\
    r_format (results_of s) = Some fmt /\
    r_FxdParams (results_of s) = Some fxd /\
    dict_get "resolution" fxd = Some res /\
    num_float res = inr resolution /\
    let c := file_of s in
    let base := b_pos ref + header_size fmt DataPts in
    let N := uint_at c base 4 in
    let code := uint_at c (base + 10) 2 in
    let dlist := map (fun j : nat => uint_at c (base + 12 + 2 * Z.of_nat j) 2)
                     (seq 0 (Z.to_nat N)) in
    py_max dlist = inr ymax /\ py_min dlist = inr ymin /\
    trace_of s' =
      trace_of s ++
      map (fun i => trace_line
                      (datapts_x (PrimFloat.div resolution 1000) 1 i)
                      (nth (Z.to_nat i)
                           (datapts_nlist "STV" ymax ymin
                              (PrimFloat.mul 0.001 (PrimFloat.div (z2f code) 1000))
                              dlist) PrimFloat.zero))
          (range N).
Proof.
  unfold _process_datapts. intros H.
  inv_bind H r s1 He. destruct r as [ref0 |];
    [| apply ret_inv in H; destruct H as [H _]; discriminate].
  apply enter_block_inv in He.
  destruct He as (blocks & ref & fmt & Hbl & Hg & Hfmt & Hpos & Hf1 & Ht1 & -> & Hr1 & Hp1 & _).
  inv_bind H u1 s2 Hm1. apply set_item_inv in Hm1. destruct Hm1 as (Hfh2 & Ht2 & Hr2).
  destruct (fh_file_pos _ _ Hfh2) as [Hf2 Hp2].
  inv_bind H N s3 HN. apply get_uint_inv in HN. destruct HN as (_ & HNv & Hs3 & Hf3 & Hp3).
  destruct (self_results_trace _ _ Hs3) as [Hr3 Ht3].
  inv_bind H u2 s4 Hm2. apply set_item_inv in Hm2. destruct Hm2 as (Hfh4 & Ht4 & Hr4).
  destruct (fh_file_pos _ _ Hfh4) as [Hf4 Hp4].
  inv_bind H nt s5 Hnt. apply get_signed_inv in Hnt. destruct Hnt as (Hs5 & Hf5 & Hp5).
  destruct (self_results_trace _ _ Hs5) as [Hr5 Ht5].
  inv_bind H u3 s6 Hm3. apply set_item_inv in Hm3. destruct Hm3 as (Hfh6 & Ht6 & Hr6).
  destruct (fh_file_pos _ _ Hfh6) as [Hf6 Hp6].
  inv_bind H n2 s7 Hn2. apply get_uint_inv in Hn2. destruct Hn2 as (_ & _ & Hs7 & Hf7 & Hp7).
  destruct (self_results_trace _ _ Hs7) as [Hr7 Ht7].
  inv_bind H code s8 Hc. apply get_uint_inv in Hc. destruct Hc as (_ & Hcv & Hs8 & Hf8 & Hp8).
  destruct (self_results_trace _ _ Hs8) as [Hr8 Ht8].
  inv_bind H u4 s9 Hm4. apply set_item_inv in Hm4. destruct Hm4 as (Hfh9 & Ht9 & Hr9).
  destruct (fh_file_pos _ _ Hfh9) as [Hf9 Hp9].
  inv_bind H dlist s10 Hd. apply read_samples_inv in Hd.
  destruct Hd as (Hs10 & Hf10 & Hp10 & Hdl).
  destruct (self_results_trace _ _ Hs10) as [Hr10 Ht10].
  inv_bind H ymax s11 Hmax. apply lift_inv in Hmax. destruct Hmax as [Hmax ->].
  inv_bind H ymin s12 Hmin. apply lift_inv in Hmin. destruct Hmin as [Hmin ->].
  inv_bind H fxd s13 Hfx. apply lookup_key_inv in Hfx. destruct Hfx as [Hfx ->].
  inv_bind H res s14 Hres. apply getitem_inv in Hres. destruct Hres as [Hres ->].
  inv_bind H resolution s15 Hrs. apply lift_inv in Hrs. destruct Hrs as [Hrs ->].
  inv_bind H u5 s16 Hfe. apply ret_inv in H. destruct H as [_ ->].
  match type of Hfe with
  | for_each ?l (fun i => append_trace (@?f i)) _ = _ =>
      destruct (for_each_append l f s10) as (sx & Ex & _ & _ & Htx)
  end.
  rewrite Ex in Hfe. inversion Hfe; subst sx. clear Hfe Ex.
  (* the fixed parameters are those of the initial state *)
  assert (HF : r_FxdParams (results_of s10) = r_FxdParams (results_of s)).
  { rewrite Hr10, Hr9, Hr8, Hr7, Hr6, Hr5, Hr4, Hr3, Hr2, Hr1.
    repeat (change r_FxdParams with (record_of FxdParams);
            rewrite record_of_with_other by discriminate).
    reflexivity. }
  (* positions of the fields *)
  assert (Hc0 : file_of s2 = file_of s) by congruence.
  assert (Hb0 : pos_of s2 = b_pos ref + header_size fmt DataPts) by congruence.
  assert (EN : N = uint_at (file_of s) (b_pos ref + header_size fmt DataPts) 4)
    by (rewrite HNv; congruence).
  assert (Ecode : code = uint_at (file_of s) (b_pos ref + header_size fmt DataPts + 10) 2).
  { rewrite Hcv. f_equal; [congruence | lia]. }
  assert (Edl : dlist =
                map (fun j : nat =>
                       uint_at (file_of s)
                         (b_pos ref + header_size fmt DataPts + 12 + 2 * Z.of_nat j) 2)
                    (seq 0 (Z.to_nat N))).
  { rewrite Hdl, range_length. apply map_ext. intros j. f_equal; [congruence | lia]. }
  exists blocks, ref, fmt, fxd, res, resolution, ymax, ymin.
  rewrite HF in Hfx.
  repeat (split; [assumption |]).
  cbv zeta. rewrite <- EN, <- Ecode, <- Edl.
  split; [assumption |]. split; [assumption |].
  rewrite Htx. f_equal. congruence.
Qed.

Lemma byte_val_nonneg (x : byte) : 0 <= byte_val x.
Proof. unfold byte_val. lia. Qed.

Lemma le_uint_nonneg (b : bytes) : 0 <= le_uint b.
Proof.
  induction b as [| x b IH]; cbn [le_uint]; [lia |].
  pose proof (byte_val_nonneg x). lia.
Qed.

Lemma uint_at_nonneg (c : bytes) (p n : Z) : 0 <= uint_at c p n.
Proof. apply le_uint_nonneg. Qed.

Lemma nth_map_seq {A} (f : nat -> A) (n i : nat) (d : A) :
  (i < n)%nat -> nth i (map f (seq 0 n)) d = f i.
Proof.
  intros Hi. rewrite (nth_indep _ d (f 0%nat)) by now rewrite length_map, length_seq.
  rewrite map_nth. now rewrite seq_nth.
Qed.

Lemma nth_range (n : Z) (i : nat) (d : Z) :
  (i < Z.to_nat n)%nat -> nth i (range n) d = Z.of_nat i.
Proof. intros Hi. unfold range. now apply nth_map_seq. Qed.

(** C8. For every successfully decoded DataPts block, the number of
    trace-point lines appended to the trace data is exactly the sample
    count N declared in the block (the 32-bit field that follows the tag). *)
Theorem C8_one_line_per_declared_sample (s s' : State) :
  _process_datapts s = (Ret "ok"%string, s') ->
  exists blocks ref fmt lines,
    r_blocks (results_of s) = Some blocks /\
    dict_get "DataPts" blocks = Some ref /\
    r_format (results_of s) = Some fmt /\
    trace_of s' = trace_of s ++ lines /\
    Z.of_nat (List.length lines) =
      uint_at (file_of s) (b_pos ref + header_size fmt DataPts) 4.
Proof.
  intros H. apply datapts_ok in H.
  destruct H as (blocks & ref & fmt & fxd & res & resolution & ymax & ymin &
                 Hbl & Hg & Hfmt & _ & _ & _ & H).
  cbv zeta in H. destruct H as (_ & _ & Htr).
  eexists blocks, ref, fmt, _. repeat (split; [eassumption |]).
  rewrite length_map, range_length. apply Z2Nat.id, uint_at_nonneg.
Qed.

Lemma C8_witness :
  let s := Sample.before_datapts in
  let s' := snd (_process_datapts s) in
  _process_datapts s = (Ret "ok"%string, s') /\
  exists blocks ref fmt lines,
    r_blocks (results_of s) = Some blocks /\
    dict_get "DataPts" blocks = Some ref /\
    r_format (results_of s) = Some fmt /\
    trace_of s' = trace_of s ++ lines /\
    Z.of_nat (List.length lines) =
      uint_at (file_of s) (b_pos ref + header_size fmt DataPts) 4.
Proof.
  intros s s'.
  assert (H : _process_datapts s = (Ret "ok"%string, s')) by (vm_compute; reflexivity).
  split; [exact H |].
  exact (C8_one_line_per_declared_sample s s' H).
Defined.

(** C3. Under the offset mode "STV" the loss written for sample [i] is
    (max_j d_j - d_i) * (0.001 * (c / 1000)), in binary64 arithmetic and
    printed with six decimals, where the d_j are the raw 16-bit samples of
    the block and c its scaling code; for the samples [100, 150, 50] with
    c = 1000 the losses are 0.050000, 0.000000, 0.100000. *)
Theorem C3_stv_loss :
  (forall s s' : State,
     _process_datapts s = (Ret "ok"%string, s') ->
     exists blocks ref fmt lines ymax,
       r_blocks (results_of s) = Some blocks /\
       dict_get "DataPts" blocks = Some ref /\
       r_format (results_of s) = Some fmt /\
       let c := file_of s in
       let base := b_pos ref + header_size fmt DataPts in
       let N := Z.to_nat (uint_at c base 4) in
       let code := uint_at c (base + 10) 2 in
       let d := fun j : nat => uint_at c (base + 12 + 2 * Z.of_nat j) 2 in
       trace_of s' = trace_of s ++ lines /\
       (exists j, (j < N)%nat /\ ymax = d j) /\
       (forall j, (j < N)%nat -> d j <= ymax) /\
       forall i, (i < N)%nat ->
         exists x,
           nth i lines ""%string =
           trace_line x
             (PrimFloat.mul (z2f (ymax - d i))
                (PrimFloat.mul 0.001 (PrimFloat.div (z2f code) 1000)))) /\
  option_map (map loss_column)
    (tracedata_in (Sample.parse (Sample.file1 0))) =
  Some ["0.050000"; "0.000000"; "0.100000"]%string.
Proof.
  split; [| vm_compute; reflexivity].
  intros s s' H. apply datapts_ok in H.
  destruct H as (blocks & ref & fmt & fxd & res & resolution & ymax & ymin &
                 Hbl & Hg & Hfmt & _ & _ & _ & H).
  cbv zeta in H. destruct H as (Hmax & _ & Htr).
  eexists blocks, ref, fmt, _, ymax.
  split; [exact Hbl |]. split; [exact Hg |]. split; [exact Hfmt |].
  cbv zeta. split; [exact Htr |].
  apply py_max_spec in Hmax. destruct Hmax as [Hin Hall].
  split; [| split].
  - apply in_map_iff in Hin. destruct Hin as (j & Hj & Hjn).
    apply in_seq in Hjn. exists j. split; [lia | now symmetry].
  - intros j Hj. apply Hall. apply in_map_iff. exists j. split; [reflexivity |].
    apply in_seq. lia.
  - intros i Hi.
    eexists.
    rewrite (nth_indep _ _ (trace_line PrimFloat.zero PrimFloat.zero))
      by now rewrite length_map, range_length.
    unfold range. rewrite map_map.
    rewrite nth_map_seq by exact Hi.
    rewrite Nat2Z.id. f_equal.
    unfold datapts_nlist. simpl String.eqb. cbv iota.
    rewrite (nth_indep _ _ (PrimFloat.mul (z2f (ymax - 0)) (PrimFloat.mul 0.001
               (PrimFloat.div (z2f (uint_at (file_of s)
                  (b_pos ref + header_size fmt DataPts + 10) 2)) 1000))))
      by now rewrite !length_map, length_seq.
    rewrite (map_nth (fun x => PrimFloat.mul (z2f (ymax - x)) _)).
    rewrite nth_map_seq by exact Hi. reflexivity.
Qed.

Lemma C3_witness :
  let s := Sample.before_datapts in
  let s' := snd (_process_datapts s) in
  _process_datapts s = (Ret "ok"%string, s') /\
  exists blocks ref fmt lines ymax,
    r_blocks (results_of s) = Some blocks /\
    dict_get "DataPts" blocks = Some ref /\
    r_format (results_of s) = Some fmt /\
    let c := file_of s in
    let base := b_pos ref + header_size fmt DataPts in
    let N := Z.to_nat (uint_at c base 4) in
    let code := uint_at c (base + 10) 2 in
    let d := fun j : nat => uint_at c (base + 12 + 2 * Z.of_nat j) 2 in
    trace_of s' = trace_of s ++ lines /\
    (exists j, (j < N)%nat /\ ymax = d j) /\
    (forall j, (j < N)%nat -> d j <= ymax) /\
    forall i, (i < N)%nat ->
      exists x,
        nth i lines ""%string =
        trace_line x
          (PrimFloat.mul (z2f (ymax - d i))
             (PrimFloat.mul 0.001 (PrimFloat.div (z2f code) 1000))).
Proof.
  intros s s'.
  assert (H : _process_datapts s = (Ret "ok"%string, s')) by (vm_compute; reflexivity).
  split; [exact H |].
  exact (proj1 C3_stv_loss s s' H).
Defined.

(** ** The distance column and the failure path, on the sample files *)

(** The distance the decoder writes for sample [i], for every successful
    run: with [resolution] the value stored by the fixed parameters decoder
    (in metres), it is ((resolution / 1000) * i * 1) / 1000. *)
Lemma datapts_distance (s s' : State) :
  _process_datapts s = (Ret "ok"%string, s') ->
  exists blocks ref fmt fxd res resolution lines,
    r_blocks (results_of s) = Some blocks /\
    dict_get "DataPts" blocks = Some ref /\
    r_format (results_of s) = Some fmt /\
    r_FxdParams (results_of s) = Some fxd /\
    dict_get "resolution" fxd = Some res /\
    num_float res = inr resolution /\
    trace_of s' = trace_of s ++ lines /\
    forall i : nat,
      (i < Z.to_nat (uint_at (file_of s) (b_pos ref + header_size fmt DataPts) 4))%nat ->
      exists y,
        nth i lines ""%string =
        trace_line
          (PrimFloat.div
             (PrimFloat.mul
                (PrimFloat.mul (PrimFloat.div resolution 1000) (z2f (Z.of_nat i)))
                (z2f 1)) 1000) y.
Proof.
  intros H. apply datapts_ok in H.
  destruct H as (blocks & ref & fmt & fxd & res & resolution & ymax & ymin &
                 Hbl & Hg & Hfmt & Hfx & Hres & Hnum & H).
  cbv zeta in H. destruct H as (_ & _ & Htr).
  eexists blocks, ref, fmt, fxd, res, resolution, _.
  split; [exact Hbl |]. split; [exact Hg |]. split; [exact Hfmt |].
  split; [exact Hfx |]. split; [exact Hres |]. split; [exact Hnum |].
  split; [exact Htr |].
  intros i Hi. eexists.
  rewrite (nth_indep _ _ (trace_line PrimFloat.zero PrimFloat.zero))
    by now rewrite length_map, range_length.
  unfold range. rewrite map_map. rewrite nth_map_seq by exact Hi.
  reflexivity.
Qed.


(** C1. On the format-1 sample file the fixed parameters give a resolution
    of 2.0421829564032694 m, that is 0.0020421829564032694 km per sample.
    The distances written are 0.000000, 0.000002, 0.000004: the resolution
    in km times the index, divided once more by 1000; resolution(km) x i
    would print as 0.000000, 0.002042, 0.004084. *)
Theorem C1_distance_divided_by_1000_twice :
  let r := Sample.parse (Sample.file1 0) in
  let resolution : float := 2.0421829564032694%float in
  status_of r = "ok"%string /\
  (exists res fxd,
     results_in r = Some res /\ r_FxdParams res = Some fxd /\
     dict_get "resolution" fxd = Some (VFloat resolution)) /\
  option_map (map distance_column) (tracedata_in r) =
    Some ["0.000000"; "0.000002"; "0.000004"]%string /\
  map (fun i => format_f 6 (PrimFloat.mul (PrimFloat.div resolution 1000) (z2f i)))
      [0; 1; 2] =
    ["0.000000"; "0.002042"; "0.004084"]%string.
Proof.
  cbv zeta. split; [vm_compute; reflexivity |]. split.
  - eexists _, _. split; [vm_compute; reflexivity |].
    split; [vm_compute; reflexivity |]. vm_compute. reflexivity.
  - split; vm_compute; reflexivity.
Qed.

(** C2. On the format-2 sample file whose key events block carries a
    wrong tag, the parse stops at that block (the checksum block is not
    visited) and the status is "nok", yet the caller receives the records
    of the blocks decoded before it and the three trace lines. *)
Theorem C2_nok_returns_partial_data :
  let r := Sample.parse (Sample.file2 "KeyEvenzz") in
  status_of r = "nok"%string /\
  (exists res,
     results_in r = Some res /\
     r_GenParams res <> None /\ r_SupParams res <> None /\
     r_FxdParams res <> None /\ r_DataPts res <> None /\
     r_KeyEvents res = None /\ r_Cksum res = None) /\
  option_map (@List.length string) (tracedata_in r) = Some 3%nat.
Proof.
  cbv zeta. split; [vm_compute; reflexivity |]. split.
  - eexists. split; [vm_compute; reflexivity |].
    repeat split; try (vm_compute; discriminate); vm_compute; reflexivity.
  - vm_compute. reflexivity.
Qed.

(** ** The checksum block *)

Lemma read_tracks (n : Z) (s s1 : State) (b log : bytes) :
  read n s = (Ret b, s1) -> tracks (fh s) log -> tracks (fh s1) (log ++ b).
Proof.
  unfold read. intros H T. pose proof (tracks_read n (fh s) log T) as R.
  destruct (FileHandler_read n (fh s)) as [buf h]. inversion H; subst. exact R.
Qed.

Lemma seek_tracks (p q : Z) (s s1 : State) (log : bytes) :
  seek p s = (Ret q, s1) -> tracks (fh s) log ->
  tracks (fh s1) (if p =? 0 then [] else log).
Proof.
  unfold seek. intros H T. pose proof (tracks_seek p (fh s) log T) as R.
  destruct (FileHandler_seek p (fh s)) as [r h]. inversion H; subst. exact R.
Qed.

Lemma digest_inv (s s1 : State) (v : Z) (log : bytes) :
  digest s = (Ret v, s1) -> tracks (fh s) log ->
  v = crc16_ccitt_false log /\ self s1 = self s /\
  file_of s1 = file_of s /\ pos_of s1 = pos_of s.
Proof.
  unfold digest. intros H T. pose proof (tracks_digest (fh s) log T) as R.
  unfold FileHandler_digest in *. inversion H; subst. simpl in R.
  unfold file_of, pos_of. simpl. auto.
Qed.

Lemma bytes_at_zero (c : bytes) (p : Z) : bytes_at c p 0 = [].
Proof. reflexivity. Qed.

(** What entering a block adds to the bytes the handler accounts for: a seek
    to position 0 forgets the earlier ones, and in format 2 the tag is read. *)
Lemma enter_block_tracks (k : BlockKind) (s s1 : State) (ref : BlockDescriptor)
    (fmt : Z) (log : bytes) :
  enter_block k s = (Ret (Some ref), s1) ->
  r_format (results_of s) = Some fmt ->
  tracks (fh s) log ->
  tracks (fh s1)
    ((if b_pos ref =? 0 then [] else log)
       ++ bytes_at (file_of s) (b_pos ref) (header_size fmt k)).
Proof.
  unfold enter_block. intros H Hfmt T.
  inv_bind H ref0 s2 Hb. apply get_block_inv in Hb.
  destruct Hb as (blocks & Hbl & Hg & ->).
  inv_bind H q s3 Hs. pose proof (seek_tracks _ _ _ _ _ Hs T) as T3.
  apply seek_inv in Hs. destruct Hs as (Hpos & Hself & Hfile & Hp).
  destruct (self_results_trace _ _ Hself) as [Hres Htr].
  inv_bind H fmt0 s4 Hf. apply lookup_key_inv in Hf. destruct Hf as [Hf ->].
  rewrite Hres, Hfmt in Hf. inversion Hf; subst fmt0. clear Hf.
  inv_bind H ok s5 Hok.
  assert (T5 : tracks (fh s5)
                 ((if b_pos ref0 =? 0 then [] else log)
                    ++ bytes_at (file_of s) (b_pos ref0) (header_size fmt k))).
  { unfold header_size. destruct (fmt =? 2).
    - inv_bind Hok raw s6 Hr. pose proof (read_tracks _ _ _ _ _ Hr T3) as T6.
      apply read_inv in Hr; [| lia]. destruct Hr as (Hraw & _).
      inv_bind Hok mystr s7 Hd. apply lift_inv in Hd. destruct Hd as [_ ->].
      apply ret_inv in Hok. destruct Hok as [_ ->].
      rewrite Hraw, Hfile, Hp in T6. exact T6.
    - apply ret_inv in Hok. destruct Hok as [_ ->].
      rewrite bytes_at_zero, app_nil_r. exact T3. }
  destruct ok.
  - inv_bind H u s6 Hm. apply modify_results_inv in Hm. destruct Hm as (Hfh & _).
    apply ret_inv in H. destruct H as [E ->]. inversion E; subst ref0.
    rewrite Hfh. exact T5.
  - apply ret_inv in H. destruct H as [E _]. discriminate.
Qed.

(** A successful run of the checksum decoder: the digest is taken after the
    tag and before the stored field is read. *)
Lemma cksum_ok (s s' : State) (log : bytes) :
  _process_cksum s = (Ret "ok"%string, s') ->
  tracks (fh s) log ->
  exists blocks ref fmt,
    r_blocks (results_of s) = Some blocks /\
    dict_get "Cksum" blocks = Some ref /\
    r_format (results_of s) = Some fmt /\
    let c := file_of s in
    let hdr := bytes_at c (b_pos ref) (header_size fmt Cksum) in
    let dg := crc16_ccitt_false ((if b_pos ref =? 0 then [] else log) ++ hdr) in
    let csum := uint_at c (b_pos ref + header_size fmt Cksum) 2 in
    r_Cksum (results_of s') =
      Some [("checksum_ours"%string, VInt dg); ("checksum"%string, VInt csum);
            ("match"%string, VBool (dg =? csum))] /\
    trace_of s' = trace_of s.
Proof.
  unfold _process_cksum. intros H T.
  inv_bind H r s1 He. destruct r as [ref0 |];
    [| apply ret_inv in H; destruct H as [H _]; discriminate].
  pose proof He as He'.
  apply enter_block_inv in He.
  destruct He as (blocks & ref & fmt & Hbl & Hg & Hfmt & Hpos & Hf1 & Ht1 & -> & Hr1 & Hp1 & _).
  pose proof (enter_block_tracks _ _ _ _ _ _ He' Hfmt T) as T1.
  inv_bind H dg s2 Hd. apply (digest_inv _ _ _ _ Hd) in T1.
  destruct T1 as (Hdg & Hs2 & Hf2 & Hp2).
  destruct (self_results_trace _ _ Hs2) as [Hr2 Ht2].
  inv_bind H csum s3 Hc. apply get_uint_inv in Hc. destruct Hc as (_ & Hcv & Hs3 & Hf3 & Hp3).
  destruct (self_results_trace _ _ Hs3) as [Hr3 Ht3].
  inv_bind H u1 s4 Hm1. apply set_item_inv in Hm1. destruct Hm1 as (_ & Ht4 & Hr4).
  inv_bind H u2 s5 Hm2. apply set_item_inv in Hm2. destruct Hm2 as (_ & Ht5 & Hr5).
  inv_bind H u3 s6 Hm3. apply set_item_inv in Hm3. destruct Hm3 as (_ & Ht6 & Hr6).
  apply ret_inv in H. destruct H as [_ ->].
  exists blocks, ref, fmt. repeat (split; [assumption |]). cbv zeta.
  split; [| congruence].
  rewrite Hr6, Hr5, Hr4, Hr3, Hr2, Hr1.
  change r_Cksum with (record_of Cksum).
  rewrite !record_of_with_record. simpl dict_set.
  rewrite Hdg, Hcv, Hf2, Hf1, Hp2, Hp1. reflexivity.
Qed.

(** C4. The digest of a handler reached from a fresh one by any sequence of
    reads, seeks and tells is the CRC-16/CCITT-FALSE of the bytes its reads
    returned since the last seek(0), whatever the flushes of the 2048-byte
    buffer were; and the checksum decoder, started from such a handler,
    records as checksum_ours the CRC of those bytes followed by the tag it
    reads (a seek to the block at position 0 restarts the account), the
    stored checksum being the 16-bit field that comes after and is no part
    of it. *)
Theorem C4_digest_is_crc_of_bytes_read :
  (forall (f : RawFile) (ops : list op),
     fst (FileHandler_digest (fst (run_logged ops f))) =
     crc16_ccitt_false (snd (run_logged ops f))) /\
  (forall (f : RawFile) (ops : list op) (me : SorConverter) (s' : State),
     let s := mkState me (fst (run_logged ops f)) in
     let log := snd (run_logged ops f) in
     _process_cksum s = (Ret "ok"%string, s') ->
     exists blocks ref fmt,
       r_blocks (results me) = Some blocks /\
       dict_get "Cksum" blocks = Some ref /\
       r_format (results me) = Some fmt /\
       let c := file_of s in
       let hdr := bytes_at c (b_pos ref) (header_size fmt Cksum) in
       let dg := crc16_ccitt_false ((if b_pos ref =? 0 then [] else log) ++ hdr) in
       let csum := uint_at c (b_pos ref + header_size fmt Cksum) 2 in
       r_Cksum (results_of s') =
         Some [("checksum_ours"%string, VInt dg); ("checksum"%string, VInt csum);
               ("match"%string, VBool (dg =? csum))]).
Proof.
  split.
  - intros f ops. apply tracks_digest, tracks_run_logged.
  - intros f ops me s' s log H.
    destruct (cksum_ok s s' log H (tracks_run_logged ops f))
      as (blocks & ref & fmt & Hbl & Hg & Hfmt & Hrec & _).
    exists blocks, ref, fmt. auto.
Qed.

Lemma C4_witness :
  let f := mkRawFile (Sample.file1 0) 0 in
  let ops := [OpRead 2; OpRead 4; OpTell; OpSeek 8; OpRead 300; OpSeek 1;
              OpRead 303; OpSeek 0; OpRead 2048; OpRead 1; OpSeek 2; OpRead 400;
              OpSeek 3; OpRead 400; OpSeek 4; OpRead 400; OpSeek 5; OpRead 400;
              OpSeek 6; OpRead 400; OpSeek 7; OpRead 400; OpSeek 8; OpRead 400;
              OpSeek 9; OpRead 400] in
  let me := self Sample.before_cksum in
  let s := mkState me (fst (run_logged ops f)) in
  let log := snd (run_logged ops f) in
  let s' := snd (_process_cksum s) in
  _process_cksum s = (Ret "ok"%string, s') /\
  exists blocks ref fmt,
    r_blocks (results me) = Some blocks /\
    dict_get "Cksum" blocks = Some ref /\
    r_format (results me) = Some fmt /\
    let c := file_of s in
    let hdr := bytes_at c (b_pos ref) (header_size fmt Cksum) in
    let dg := crc16_ccitt_false ((if b_pos ref =? 0 then [] else log) ++ hdr) in
    let csum := uint_at c (b_pos ref + header_size fmt Cksum) 2 in
    r_Cksum (results_of s') =
      Some [("checksum_ours"%string, VInt dg); ("checksum"%string, VInt csum);
            ("match"%string, VBool (dg =? csum))].
Proof.
  intros f ops me s log s'.
  assert (H : _process_cksum s = (Ret "ok"%string, s')) by (vm_compute; reflexivity).
  split; [exact H |].
  exact (proj2 C4_digest_is_crc_of_bytes_read f ops me s' H).
Defined.

Lemma digest_eq (s : State) :
  exists h, digest s = (Ret (Crc.update (crc16 (fh s)) (buffer (fh s))), mkState (self s) h) /\
            content (filehandle h) = file_of s /\ offset (filehandle h) = pos_of s.
Proof. unfold digest, FileHandler_digest. eexists. split; [reflexivity |]. auto. Qed.

Lemma decode_ascii_tag (k : BlockKind) :
  decode_ascii (tag_of k) = inr (block_name k ++ NUL)%string.
Proof. destruct k; reflexivity. Qed.

(** Entering a block succeeds when the map lists it at a valid position and,
    in format 2, its tag is the expected one. *)
Lemma enter_block_eq (k : BlockKind) (s : State) blocks (ref : BlockDescriptor) (fmt : Z) :
  r_blocks (results_of s) = Some blocks ->
  dict_get (block_name k) blocks = Some ref ->
  r_format (results_of s) = Some fmt ->
  0 <= b_pos ref ->
  (fmt = 2 -> bytes_at (file_of s) (b_pos ref) (header_size 2 k) = tag_of k) ->
  exists h,
    enter_block k s =
      (Ret (Some ref),
       mkState (mkSorConverter (filename (self s))
                  (with_record k [] (results (self s))) (tracedata (self s))) h) /\
    content (filehandle h) = file_of s /\
    offset (filehandle h) = b_pos ref + header_size fmt k.
Proof.
  intros Hbl Hg Hfmt Hpos Htag. unfold enter_block.
  rewrite (bind_ok _ _ _ _ _ (get_block_eq _ s blocks ref Hbl Hg)).
  destruct (seek_eq (b_pos ref) s Hpos) as (h1 & E1 & Hc1 & Ho1 & _).
  rewrite (bind_ok _ _ _ _ _ E1).
  unfold get_format.
  rewrite (bind_ok _ _ _ _ _
             (lookup_key_eq "format" r_format (mkState (self s) h1) fmt Hfmt)).
  unfold header_size. destruct (fmt =? 2) eqn:E2.
  - apply Z.eqb_eq in E2. specialize (Htag E2).
    set (hsize := Z.of_nat (String.length (block_name k)) + 1) in *.
    destruct (read_eq hsize (mkState (self s) h1)) as (h2 & E & Hc2 & Ho2); [unfold hsize; lia |].
    assert (Eb : bytes_at (file_of (mkState (self s) h1)) (pos_of (mkState (self s) h1)) hsize
                 = tag_of k).
    { unfold file_of, pos_of. simpl. rewrite Hc1, Ho1.
      unfold header_size in Htag. simpl (2 =? 2) in Htag. exact Htag. }
    rewrite Eb in E, Ho2.
    erewrite bind_ok; [| erewrite bind_ok; [| exact E];
                         rewrite decode_ascii_tag; simpl lift;
                         erewrite bind_ok; [| reflexivity]; reflexivity].
    rewrite String.eqb_refl.
    erewrite bind_ok; [| reflexivity]. unfold ret. simpl.
    exists h2. split; [reflexivity |]. split.
    + rewrite Hc2. unfold file_of. simpl. exact Hc1.
    + rewrite Ho2. unfold pos_of. simpl. rewrite Ho1. f_equal.
      unfold hsize. destruct k; reflexivity.
  - erewrite bind_ok; [| reflexivity]. cbv iota.
    erewrite bind_ok; [| reflexivity]. unfold ret. simpl.
    exists h1. split; [reflexivity |]. split; [exact Hc1 | lia].
Qed.

(** The checksum decoder returns "ok" whenever it can read the stored
    field, whatever that field holds; the comparison only sets [match]. *)
Lemma cksum_total (s : State) blocks (ref : BlockDescriptor) (fmt : Z) :
  r_blocks (results_of s) = Some blocks ->
  dict_get "Cksum" blocks = Some ref ->
  r_format (results_of s) = Some fmt ->
  0 <= b_pos ref ->
  (fmt = 2 -> bytes_at (file_of s) (b_pos ref) (header_size 2 Cksum) = tag_of Cksum) ->
  List.length (bytes_at (file_of s) (b_pos ref + header_size fmt Cksum) 2) = 2%nat ->
  let dg := fst (FileHandler_digest (fh (snd (enter_block Cksum s)))) in
  let csum := uint_at (file_of s) (b_pos ref + header_size fmt Cksum) 2 in
  exists s',
    _process_cksum s = (Ret "ok"%string, s') /\
    r_Cksum (results_of s') =
      Some [("checksum_ours"%string, VInt dg); ("checksum"%string, VInt csum);
            ("match"%string, VBool (dg =? csum))] /\
    trace_of s' = trace_of s.
Proof.
  intros Hbl Hg Hfmt Hpos Htag Hlen. unfold _process_cksum.
  destruct (enter_block_eq Cksum s blocks ref fmt Hbl Hg Hfmt Hpos Htag)
    as (h1 & E1 & Hc1 & Ho1).
  rewrite (bind_ok _ _ _ _ _ E1). rewrite E1.
  match type of E1 with _ = (_, ?st) => set (s1 := st) in * end.
  destruct (digest_eq s1) as (h2 & E2 & Hc2 & Ho2).
  rewrite (bind_ok _ _ _ _ _ E2).
  match type of E2 with _ = (_, ?st) => set (s2 := st) in * end.
  destruct (get_uint_eq 2 s2) as (h3 & E3 & Hc3 & Ho3); [auto | |].
  - unfold file_of, pos_of, s2. simpl. rewrite Hc2, Ho2.
    unfold file_of, pos_of, s1. simpl. rewrite Hc1, Ho1, Hlen. reflexivity.
  - rewrite (bind_ok _ _ _ _ _ E3).
    eexists. split; [reflexivity |].
    unfold results_of, trace_of. cbn [snd self fh results tracedata s1 s2].
    change r_Cksum with (record_of Cksum). rewrite !record_of_with_record.
    split; [| reflexivity].
    assert (Ef : file_of s2 = file_of s).
    { unfold file_of, s2. cbn [fh]. rewrite Hc2. unfold file_of, s1. cbn [fh]. exact Hc1. }
    assert (Ep : pos_of s2 = b_pos ref + header_size fmt Cksum).
    { unfold pos_of, s2. cbn [fh]. rewrite Ho2. unfold pos_of, s1. cbn [fh]. exact Ho1. }
    rewrite Ef, Ep. reflexivity.
Qed.

(** C5. When the checksum decoder can read the stored 16-bit checksum (the
    block is listed at a valid position, its tag is right in format 2 and two
    bytes follow), it returns "ok" and records match = (digest == stored),
    false on a mismatch, leaving the trace data as it is; the block loop goes
    on with status "ok".  On the format-1 sample file, whose stored checksum
    0 differs from the digest, the parse returns "ok" with match = false and
    the three trace lines, and the CSV file is written. *)
Theorem C5_checksum_mismatch_is_not_fatal :
  (forall (s : State) blocks (ref : BlockDescriptor) (fmt : Z),
     r_blocks (results_of s) = Some blocks ->
     dict_get "Cksum" blocks = Some ref ->
     r_format (results_of s) = Some fmt ->
     0 <= b_pos ref ->
     (fmt = 2 ->
      bytes_at (file_of s) (b_pos ref) (header_size 2 Cksum) = tag_of Cksum) ->
     List.length (bytes_at (file_of s) (b_pos ref + header_size fmt Cksum) 2) = 2%nat ->
     let dg := fst (FileHandler_digest (fh (snd (enter_block Cksum s)))) in
     let csum := uint_at (file_of s) (b_pos ref + header_size fmt Cksum) 2 in
     exists s',
       _process_cksum s = (Ret "ok"%string, s') /\
       r_Cksum (results_of s') =
         Some [("checksum_ours"%string, VInt dg); ("checksum"%string, VInt csum);
               ("match"%string, VBool (dg =? csum))] /\
       trace_of s' = trace_of s /\
       (b_name ref = "Cksum"%string ->
        forall rest st,
          sorparse_loop ("Cksum"%string :: rest) st s = sorparse_loop rest "ok" s')) /\
  (let r := Sample.parse (Sample.file1 0) in
   status_of r = "ok"%string /\
   (exists res ck,
      results_in r = Some res /\ r_Cksum res = Some ck /\
      dict_get "checksum_ours" ck = Some (VInt 14019) /\
      dict_get "checksum" ck = Some (VInt 0) /\
      dict_get "match" ck = Some (VBool false)) /\
   option_map (@List.length string) (tracedata_in r) = Some 3%nat /\
   fst (convert_to_csv (Sample.disk (Sample.file1 0)) None Sample.converter) =
     (true,
      Some ("trace.csv"%string,
            ("Distance (km),Loss (dB)" ++ LF ++
             "0.000000,0.050000" ++ LF ++
             "0.000002,0.000000" ++ LF ++
             "0.000004,0.100000" ++ LF)%string))).
Proof.
  split.
  - intros s blocks ref fmt Hbl Hg Hfmt Hpos Htag Hlen dg csum.
    destruct (cksum_total s blocks ref fmt Hbl Hg Hfmt Hpos Htag Hlen)
      as (s' & E & Hrec & Htr).
    exists s'. repeat (split; [assumption |]).
    intros Hname rest st. cbn [sorparse_loop].
    rewrite (bind_ok _ _ _ _ _ (get_block_eq _ s blocks ref Hbl Hg)).
    rewrite Hname. unfold dispatch. simpl String.eqb. cbv iota.
    rewrite (bind_ok _ _ _ _ _ E). reflexivity.
  - cbv zeta. split; [vm_compute; reflexivity |]. split.
    + eexists _, _. split; [vm_compute; reflexivity |].
      split; [vm_compute; reflexivity |].
      repeat split; vm_compute; reflexivity.
    + split; vm_compute; reflexivity.
Qed.

Lemma C5_witness :
  let s := Sample.before_cksum in
  let blocks := match r_blocks (results_of s) with Some b => b | None => [] end in
  let ref := match dict_get "Cksum" blocks with
             | Some r => r | None => mkBlock "" "" 0 0 0 end in
  (r_blocks (results_of s) = Some blocks /\
   dict_get "Cksum" blocks = Some ref /\
   r_format (results_of s) = Some 1 /\
   0 <= b_pos ref /\
   List.length (bytes_at (file_of s) (b_pos ref + header_size 1 Cksum) 2) = 2%nat) /\
  let dg := fst (FileHandler_digest (fh (snd (enter_block Cksum s)))) in
  let csum := uint_at (file_of s) (b_pos ref + header_size 1 Cksum) 2 in
  exists s',
    _process_cksum s = (Ret "ok"%string, s') /\
    r_Cksum (results_of s') =
      Some [("checksum_ours"%string, VInt dg); ("checksum"%string, VInt csum);
            ("match"%string, VBool (dg =? csum))] /\
    trace_of s' = trace_of s /\
    (b_name ref = "Cksum"%string ->
     forall rest st,
       sorparse_loop ("Cksum"%string :: rest) st s = sorparse_loop rest "ok" s').
Proof.
  intros s blocks ref.
  assert (H1 : r_blocks (results_of s) = Some blocks) by (vm_compute; reflexivity).
  assert (H2 : dict_get "Cksum" blocks = Some ref) by (vm_compute; reflexivity).
  assert (H3 : r_format (results_of s) = Some 1) by (vm_compute; reflexivity).
  assert (H4 : 0 <= b_pos ref) by (apply Z.leb_le; vm_compute; reflexivity).
  assert (H5 : List.length (bytes_at (file_of s) (b_pos ref + header_size 1 Cksum) 2)
               = 2%nat) by (vm_compute; reflexivity).
  split; [repeat split; assumption |].
  refine (proj1 C5_checksum_mismatch_is_not_fatal s blocks ref 1 H1 H2 H3 H4 _ H5).
  intros H. discriminate H.
Defined.

(** ** Exceptions *)

(** Follow a successful computation to its final [ret]. *)
Ltac run_to_end H :=
  repeat first
    [ apply ret_inv in H; destruct H as [H _]
    | apply bind_inv in H; destruct H as (? & ? & _ & H); cbv beta zeta in H ].

Lemma datapts_status (s s' : State) (st : string) :
  _process_datapts s = (Ret st, s') ->
  st = "nok"%string \/ (st = "ok"%string /\ r_FxdParams (results_of s) <> None).
Proof.
  intros H.
  assert (D : st = "nok"%string \/ st = "ok"%string).
  { unfold _process_datapts in H. apply bind_inv in H.
    destruct H as ([ref |] & s1 & _ & H); cbv beta zeta in H.
    - right. run_to_end H. exact H.
    - left. run_to_end H. exact H. }
  destruct D as [-> | ->]; [now left | right].
  split; [reflexivity |].
  apply datapts_ok in H.
  destruct H as (blocks & ref & fmt & fxd & res & resolution & ymax & ymin &
                 _ & _ & _ & Hf & _).
  rewrite Hf. discriminate.
Qed.

Lemma keyevents_status (s s' : State) (st : string) :
  _process_keyevents s = (Ret st, s') ->
  st = "nok"%string \/ (st = "ok"%string /\ r_FxdParams (results_of s) <> None).
Proof.
  unfold _process_keyevents. intros H.
  inv_bind H r s1 He. destruct r as [ref0 |].
  - right.
    apply enter_block_inv in He.
    destruct He as (blocks & ref & fmt & _ & _ & _ & _ & _ & _ & _ & Hr1 & _).
    inv_bind H nev s2 Hn. apply get_uint_inv in Hn. destruct Hn as (_ & _ & Hs2 & _).
    destruct (self_results_trace _ _ Hs2) as [Hr2 _].
    inv_bind H u s3 Hm. apply set_item_inv in Hm. destruct Hm as (_ & _ & Hr3).
    inv_bind H fxd s4 Hf. apply lookup_key_inv in Hf. destruct Hf as [Hf ->].
    split.
    + run_to_end H. exact H.
    + rewrite Hr3, Hr2, Hr1 in Hf.
      change r_FxdParams with (record_of FxdParams) in *.
      rewrite !record_of_with_other in Hf by discriminate.
      rewrite Hf. discriminate.
  - left. apply ret_inv in H. tauto.
Qed.

(** C10. When the file cannot be opened or the body of [sorparse] raises,
    [sorparse] returns a status that starts with "Error: " and None for both
    results and trace data.  Two ways to get there: with no FxdParams record
    the data points and key events decoders cannot return "ok" (they raise,
    or answer "nok" on a wrong tag); and an integer read that finds fewer
    bytes than its width raises struct.error. *)
Theorem C10_exceptions_become_error_status :
  (forall (disk : Disk) (fname : string) (me : SorConverter),
     (disk fname = None \/
      exists c e s,
        disk fname = Some c /\
        sorparse_body (basename fname)
          (mkState me (FileHandler_init (mkRawFile c 0))) = (Raise e, s)) ->
     let r := fst (sorparse disk fname me) in
     starts_with "Error: " (status_of r) /\
     results_in r = None /\ tracedata_in r = None) /\
  (forall s : State,
     r_FxdParams (results_of s) = None ->
     fails (fst (_process_datapts s)) /\ fails (fst (_process_keyevents s))) /\
  (forall (n : Z) (s : State),
     n = 2 \/ n = 4 \/ n = 8 ->
     Z.of_nat (List.length (bytes_at (file_of s) (pos_of s) n)) < n ->
     fst (_get_uint n s) = Raise (StructError n)).
Proof.
  split; [| split].
  - intros disk fname me H r. subst r. unfold sorparse.
    destruct H as [Hn | (c & e & s & Hc & Hb)].
    + rewrite Hn. cbn [fst status_of results_in tracedata_in snd].
      split; [eexists; reflexivity | auto].
    + rewrite Hc, Hb. cbn [fst status_of results_in tracedata_in snd].
      split; [eexists; reflexivity | auto].
  - intros s Hnone. split.
    + destruct (_process_datapts s) as [[st | e] s'] eqn:E; cbn [fst fails]; [| exact I].
      apply datapts_status in E. destruct E as [-> | [_ Hne]]; [reflexivity |].
      contradiction.
    + destruct (_process_keyevents s) as [[st | e] s'] eqn:E; cbn [fst fails]; [| exact I].
      apply keyevents_status in E. destruct E as [-> | [_ Hne]]; [reflexivity |].
      contradiction.
  - intros n s W L. apply get_uint_short; assumption.
Qed.

Lemma C10_witness :
  let disk := Sample.disk Sample.file_datapts_first in
  let fname := "dir/trace.sor"%string in
  let me := Sample.converter in
  let s0 := mkState me (FileHandler_init (mkRawFile Sample.file_datapts_first 0)) in
  sorparse_body (basename fname) s0
    = (Raise (KeyError "FxdParams"), snd (sorparse_body (basename fname) s0)) /\
  let r := fst (sorparse disk fname me) in
  starts_with "Error: " (status_of r) /\
  results_in r = None /\ tracedata_in r = None.
Proof.
  intros disk fname me s0.
  assert (H : sorparse_body (basename fname) s0
              = (Raise (KeyError "FxdParams"), snd (sorparse_body (basename fname) s0)))
    by (vm_compute; reflexivity).
  split; [exact H |].
  apply (proj1 C10_exceptions_become_error_status disk fname me).
  right. exists Sample.file_datapts_first, (KeyError "FxdParams"),
           (snd (sorparse_body (basename fname) s0)).
  split; [reflexivity | exact H].
Defined.

(** ** Reading NUL-terminated strings *)

Lemma state_eta (s : State) : mkState (self s) (fh s) = s.
Proof. destruct s; reflexivity. Qed.

Lemma drop_Z_add (p : Z) (k : nat) (c : bytes) :
  0 <= p -> drop_Z (p + Z.of_nat k) c = skipn k (drop_Z p c).
Proof.
  intros Hp. rewrite !drop_Z_skipn, skipn_skipn. f_equal. lia.
Qed.

(** The loop of [_get_string], entered with the byte just read and the rest
    of the file after the cursor. *)
Lemma get_string_loop_eq (fuel : nat) :
  forall (mystr byte : bytes) (s : State),
    0 <= pos_of s ->
    let rest := drop_Z (pos_of s) (file_of s) in
    (List.length rest <= fuel)%nat ->
    (List.length byte <= 1)%nat ->
    (byte = [] -> rest = []) ->
    exists h,
      get_string_loop fuel mystr byte s =
        (Ret (mystr ++ cstring (byte ++ rest)), mkState (self s) h) /\
      content (filehandle h) = file_of s /\
      offset (filehandle h) + Z.of_nat (List.length byte) =
        pos_of s + Z.of_nat (cstring_span (byte ++ rest)).
Proof.
  induction fuel as [| fuel IH]; intros mystr byte s Hp rest Hfuel Hb He.
  - assert (Hr : rest = []) by (destruct rest; [reflexivity | simpl in Hfuel; lia]).
    rewrite Hr, app_nil_r.
    destruct byte as [| x [| y byte]]; [| | simpl in Hb; lia].
    + exists (fh s). cbn [get_string_loop cstring cstring_span List.length].
      unfold ret. rewrite app_nil_r, state_eta.
      split; [reflexivity |]. split; [reflexivity | unfold pos_of; lia].
    + exists (fh s). cbn [get_string_loop cstring cstring_span List.length].
      rewrite state_eta.
      destruct (is_nul x); unfold ret; [rewrite app_nil_r |];
        (split; [reflexivity |]; split; [reflexivity | unfold pos_of; lia]).
  - destruct byte as [| x [| y byte]]; [| | simpl in Hb; lia].
    + rewrite (He eq_refl). exists (fh s).
      cbn [get_string_loop cstring cstring_span List.length app].
      unfold ret. rewrite app_nil_r, state_eta.
      split; [reflexivity |]. split; [reflexivity | unfold pos_of; lia].
    + cbn [get_string_loop app cstring cstring_span]. destruct (is_nul x) eqn:Ex.
      * exists (fh s). unfold ret. rewrite app_nil_r, state_eta.
        split; [reflexivity |]. split; [reflexivity | unfold pos_of; cbn [List.length]; lia].
      * destruct (read_eq 1 s) as (h1 & E1 & Hc1 & Ho1); [lia |].
        rewrite (bind_ok _ _ _ _ _ E1).
        set (s1 := mkState (self s) h1) in *.
        set (byte' := bytes_at (file_of s) (pos_of s) 1) in *.
        assert (Hb' : byte' = firstn 1 rest) by reflexivity.
        assert (Hf1 : file_of s1 = file_of s) by exact Hc1.
        assert (Hp1 : pos_of s1 = pos_of s + Z.of_nat (List.length byte')) by exact Ho1.
        assert (Hrest1 : drop_Z (pos_of s1) (file_of s1) = skipn (List.length byte') rest).
        { rewrite Hf1, Hp1. now apply drop_Z_add. }
        destruct (IH (mystr ++ [x]) byte' s1) as (h2 & E2 & Hc2 & Ho2).
        -- rewrite Hp1. lia.
        -- rewrite Hrest1, length_skipn. rewrite Hb'.
           destruct rest as [| z rest']; simpl in *; lia.
        -- rewrite Hb', length_firstn. lia.
        -- intros Hnil. rewrite Hrest1. rewrite Hb' in *.
           destruct rest as [| z rest']; [reflexivity | discriminate].
        -- exists h2. rewrite Hrest1 in E2, Ho2.
           assert (Hjoin : byte' ++ skipn (List.length byte') rest = rest).
           { rewrite Hb'. destruct rest as [| z rest']; reflexivity. }
           rewrite Hjoin in E2, Ho2.
           split; [| split].
           ++ rewrite E2. rewrite <- app_assoc. reflexivity.
           ++ rewrite Hc2. exact Hf1.
           ++ rewrite Hp1 in Ho2. cbn [List.length]. lia.
Qed.

(** [_get_string] returns the bytes up to the first NUL, decoded, and leaves
    the cursor after that NUL (or at the end of the file). *)
Lemma get_string_eq (s : State) :
  0 <= pos_of s ->
  let rest := drop_Z (pos_of s) (file_of s) in
  exists h,
    _get_string s =
      (match decode_utf8 (cstring rest) with
       | inl e => Raise e
       | inr t => Ret t
       end, mkState (self s) h) /\
    content (filehandle h) = file_of s /\
    offset (filehandle h) = pos_of s + Z.of_nat (cstring_span rest).
Proof.
  intros Hp rest. unfold _get_string.
  destruct (read_eq 1 s) as (h1 & E1 & Hc1 & Ho1); [lia |].
  rewrite (bind_ok _ _ _ _ _ E1).
  set (s1 := mkState (self s) h1) in *.
  set (byte := bytes_at (file_of s) (pos_of s) 1) in *.
  assert (Hb : byte = firstn 1 rest) by reflexivity.
  assert (Hf1 : file_of s1 = file_of s) by exact Hc1.
  assert (Hp1 : pos_of s1 = pos_of s + Z.of_nat (List.length byte)) by exact Ho1.
  assert (Hrest1 : drop_Z (pos_of s1) (file_of s1) = skipn (List.length byte) rest).
  { rewrite Hf1, Hp1. now apply drop_Z_add. }
  erewrite bind_ok; [| reflexivity]. cbn [fh s1 filehandle].
  destruct (get_string_loop_eq (List.length (content (filehandle h1))) [] byte s1)
    as (h2 & E2 & Hc2 & Ho2).
  - rewrite Hp1. lia.
  - rewrite Hrest1, length_skipn. rewrite Hc1. unfold rest.
    rewrite drop_Z_skipn, length_skipn. lia.
  - rewrite Hb, length_firstn. lia.
  - intros Hnil. rewrite Hrest1. rewrite Hb in *.
    destruct rest as [| z rest']; [reflexivity | discriminate].
  - rewrite Hrest1 in E2, Ho2.
    assert (Hjoin : byte ++ skipn (List.length byte) rest = rest).
    { rewrite Hb. destruct rest as [| z rest']; reflexivity. }
    rewrite Hjoin in E2, Ho2. cbn [app] in E2.
    rewrite (bind_ok _ _ _ _ _ E2).
    exists h2. split; [| split].
    + destruct (decode_utf8 (cstring rest)); reflexivity.
    + rewrite Hc2. exact Hf1.
    + rewrite Hp1 in Ho2. lia.
Qed.

(** ** What the decoders leave alone *)

Section Keeps.
Context {X : Type} (g : Results -> X).

Lemma keeps_ret {A} (a : A) : keeps g (ret a).
Proof. intros s. reflexivity. Qed.

Lemma keeps_raise {A} (e : exn) : keeps g (@raise A e).
Proof. intros s. reflexivity. Qed.

Lemma keeps_lift {A} (x : exn + A) : keeps g (lift x).
Proof. destruct x; [apply keeps_raise | apply keeps_ret]. Qed.

Lemma keeps_bind {A B} (m : M A) (k : A -> M B) :
  keeps g m -> (forall a, keeps g (k a)) -> keeps g (bind m k).
Proof.
  intros Hm Hk s. unfold bind. specialize (Hm s).
  destruct (m s) as [[a | e] s1]; simpl in *.
  - rewrite Hk. exact Hm.
  - exact Hm.
Qed.

Lemma keeps_read (n : Z) : keeps g (read n).
Proof.
  intros s. unfold read, FileHandler_read, raw_read, frame, file_of, results_of.
  reflexivity.
Qed.

Lemma keeps_seek (p : Z) : keeps g (seek p).
Proof.
  intros s. unfold seek, FileHandler_seek, frame, file_of, results_of.
  destruct (p =? 0); destruct (p <? 0); reflexivity.
Qed.

Lemma keeps_digest : keeps g digest.
Proof. intros s. reflexivity. Qed.

Lemma keeps_get_results : keeps g get_results.
Proof. intros s. reflexivity. Qed.

Lemma keeps_get_tracedata : keeps g get_tracedata.
Proof. intros s. reflexivity. Qed.

Lemma keeps_file_length : keeps g file_length.
Proof. intros s. reflexivity. Qed.

Lemma keeps_append_trace (line : string) : keeps g (append_trace line).
Proof. intros s. reflexivity. Qed.

Lemma keeps_modify (f : Results -> Results) :
  (forall r, g (f r) = g r) -> keeps g (modify_results f).
Proof.
  intros Hf s. unfold modify_results, frame, file_of, results_of. simpl.
  now rewrite Hf.
Qed.

Lemma keeps_for_each {A} (l : list A) (body : A -> M unit) :
  (forall x, keeps g (body x)) -> keeps g (for_each l body).
Proof.
  intros Hb. induction l as [| x l IH]; simpl.
  - apply keeps_ret.
  - apply keeps_bind; [apply Hb | intros _; exact IH].
Qed.

Lemma keeps_lookup_key {A} (key : string) (field : Results -> option A) :
  keeps g (lookup_key key field).
Proof.
  unfold lookup_key. apply keeps_bind; [apply keeps_get_results |].
  intros r. destruct (field r); [apply keeps_ret | apply keeps_raise].
Qed.

Lemma keeps_getitem {V} (key : string) (d : dict V) : keeps g (getitem key d).
Proof. unfold getitem. destruct (dict_get key d); [apply keeps_ret | apply keeps_raise]. Qed.

Lemma keeps_get_string_loop (fuel : nat) (mystr byte : bytes) :
  keeps g (get_string_loop fuel mystr byte).
Proof.
  revert mystr byte. induction fuel as [| fuel IH]; intros mystr byte;
    destruct byte as [| c byte]; simpl; try apply keeps_ret;
    destruct (is_nul c); try apply keeps_ret.
  apply keeps_bind; [apply keeps_read | intros b; apply IH].
Qed.

Lemma keeps_get_string : keeps g _get_string.
Proof.
  unfold _get_string.
  apply keeps_bind; [apply keeps_read | intros byte].
  apply keeps_bind; [apply keeps_file_length | intros fuel].
  apply keeps_bind; [apply keeps_get_string_loop | intros mystr].
  apply keeps_lift.
Qed.

Lemma keeps_get_uint (n : Z) : keeps g (_get_uint n).
Proof.
  unfold _get_uint. apply keeps_bind; [apply keeps_read | intros w].
  destruct ((n =? 2) || (n =? 4) || (n =? 8)); [apply keeps_lift | apply keeps_raise].
Qed.

Lemma keeps_get_signed (n : Z) : keeps g (_get_signed n).
Proof.
  unfold _get_signed. apply keeps_bind; [apply keeps_read | intros w].
  destruct ((n =? 2) || (n =? 4) || (n =? 8)); [apply keeps_lift | apply keeps_raise].
Qed.

Lemma keeps_read_samples (idx : list Z) : keeps g (read_samples idx).
Proof.
  induction idx as [| i idx IH]; simpl; [apply keeps_ret |].
  apply keeps_bind; [apply keeps_get_uint | intros x].
  apply keeps_bind; [exact IH | intros xs; apply keeps_ret].
Qed.

(** The view is one that the block records do not show through. *)
Hypothesis g_with_record : forall k d r, g (with_record k d r) = g r.

Lemma keeps_set_item (k : BlockKind) (key : string) (v : pyval) :
  keeps g (set_item k key v).
Proof. unfold set_item. apply keeps_modify. intros r. apply g_with_record. Qed.

Lemma keeps_new_record (k : BlockKind) : keeps g (modify_results (with_record k [])).
Proof. apply keeps_modify. intros r. apply g_with_record. Qed.

End Keeps.

(** Decompose a [keeps] goal along the structure of the computation. *)
Ltac keeps_tac :=
  repeat first
    [ apply keeps_ret | apply keeps_raise | apply keeps_lift
    | apply keeps_read | apply keeps_seek | apply keeps_digest
    | apply keeps_get_results | apply keeps_get_tracedata
    | apply keeps_append_trace | apply keeps_lookup_key | apply keeps_getitem
    | apply keeps_get_string | apply keeps_get_uint | apply keeps_get_signed
    | apply keeps_read_samples
    | apply keeps_set_item; assumption
    | apply keeps_new_record; assumption
    | apply keeps_for_each; intros ?
    | apply keeps_bind; [| intros ?]
    | match goal with
      | |- keeps _ (if ?b then _ else _) => destruct b
      | |- keeps _ (match ?x with _ => _ end) => destruct x
      end ].

Section KeepsDecoders.
Context {X : Type} (g : Results -> X).
Hypothesis g_with_record : forall k d r, g (with_record k d r) = g r.

Lemma keeps_enter_block (k : BlockKind) : keeps g (enter_block k).
Proof. unfold enter_block, get_block, get_format. keeps_tac. Qed.

Lemma keeps_genparams : keeps g _process_genparams.
Proof.
  unfold _process_genparams, genparams_field, get_format.
  apply keeps_bind; [apply keeps_enter_block | intros r]. keeps_tac.
Qed.

Lemma keeps_supparams : keeps g _process_supparams.
Proof.
  unfold _process_supparams.
  apply keeps_bind; [apply keeps_enter_block | intros r]. keeps_tac.
Qed.

Lemma keeps_fxdparams_field ref field val : keeps g (fxdparams_field ref field val).
Proof. unfold fxdparams_field. keeps_tac. Qed.

Lemma keeps_fxdparams_loop ref plist val : keeps g (fxdparams_loop ref plist val).
Proof.
  revert val. induction plist as [| f plist IH]; intros val; simpl; [apply keeps_ret |].
  apply keeps_bind; [apply keeps_fxdparams_field | intros v; apply IH].
Qed.

Lemma keeps_fxdparams : keeps g _process_fxdparams.
Proof.
  unfold _process_fxdparams, get_format.
  apply keeps_bind; [apply keeps_enter_block | intros r].
  destruct r; [| apply keeps_ret].
  apply keeps_bind; [apply keeps_lookup_key | intros fmt].
  apply keeps_bind; [apply keeps_fxdparams_loop | intros u]. keeps_tac.
Qed.

Lemma keeps_datapts : keeps g _process_datapts.
Proof.
  unfold _process_datapts.
  apply keeps_bind; [apply keeps_enter_block | intros r]. keeps_tac.
Qed.

Lemma keeps_keyevents : keeps g _process_keyevents.
Proof.
  unfold _process_keyevents, keyevents_event, rounded, get_format.
  apply keeps_bind; [apply keeps_enter_block | intros r]. keeps_tac.
Qed.

Lemma keeps_cksum : keeps g _process_cksum.
Proof.
  unfold _process_cksum.
  apply keeps_bind; [apply keeps_enter_block | intros r]. keeps_tac.
Qed.

Lemma keeps_dispatch (bname status : string) : keeps g (dispatch bname status).
Proof.
  unfold dispatch.
  repeat match goal with
         | |- keeps _ (if ?b then _ else _) => destruct b
         end;
    auto using keeps_genparams, keeps_supparams, keeps_fxdparams, keeps_datapts,
               keeps_keyevents, keeps_cksum, keeps_ret.
Qed.

End KeepsDecoders.

(** ** The format probe of the map block *)

Lemma keeps_format_mapblock_loop (idx : list Z) (startpos : Z) :
  keeps r_format (mapblock_loop idx startpos).
Proof.
  revert startpos. induction idx as [| i idx IH]; intros startpos; simpl;
    [apply keeps_ret |].
  unfold add_block. keeps_tac; try apply IH.
  apply keeps_modify. intros r. destruct r; reflexivity.
Qed.

Lemma keeps_format_mapblock_table : keeps r_format mapblock_table.
Proof.
  unfold mapblock_table. keeps_tac;
    try apply keeps_format_mapblock_loop;
    apply keeps_modify; intros r; destruct r; reflexivity.
Qed.

Lemma drop_Z_0 (c : bytes) : drop_Z 0 c = c.
Proof. now rewrite drop_Z_skipn. Qed.

Lemma decode_utf8_inr (b : bytes) (t : string) :
  decode_utf8 b = inr t -> t = str_of_bytes b.
Proof. unfold decode_utf8. destruct (utf8_error 0 b); intros H; inversion H; auto. Qed.

Lemma str_of_bytes_eq_iff (b : bytes) (t : string) :
  str_of_bytes b = t <-> b = bytes_of_str t.
Proof.
  split.
  - apply str_of_bytes_inj.
  - intros ->. apply string_of_list_byte_of_string.
Qed.

(** The probe, run from any state: the leading string decides. *)
Lemma probe_eq (s : State) (t : string) :
  decode_utf8 (cstring (file_of s)) = inr t ->
  exists h,
    mapblock_probe s =
      (Ret tt,
       mkState (mkSorConverter (filename (self s))
                  (with_format (if String.eqb t "Map" then 2 else 1) (results (self s)))
                  (tracedata (self s))) h) /\
    content (filehandle h) = file_of s /\
    offset (filehandle h) =
      map_start (file_of s) (if String.eqb t "Map" then 2 else 1) /\
    (String.eqb t "Map" = false ->
     offset (filehandle h) = 0 /\ buffer h = [] /\
     spaceleft h = bufsize h /\ crc16 h = Crc.init).
Proof.
  intros Hd. unfold mapblock_probe.
  destruct (seek_eq 0 s) as (h1 & E1 & Hc1 & Ho1 & _); [lia |].
  rewrite (bind_ok _ _ _ _ _ E1).
  set (s1 := mkState (self s) h1) in *.
  destruct (get_string_eq s1) as (h2 & E2 & Hc2 & Ho2).
  { unfold pos_of, s1. simpl. lia. }
  assert (Hrest : drop_Z (pos_of s1) (file_of s1) = file_of s).
  { unfold pos_of, file_of, s1. cbn [fh]. rewrite Ho1, Hc1. apply drop_Z_0. }
  rewrite Hrest in Ho2. rewrite Hrest, Hd in E2.
  rewrite (bind_ok _ _ _ _ _ E2).
  cbn [self s1].
  destruct (String.eqb t "Map") eqn:Et.
  - exists h2. split; [reflexivity |]. split; [| split].
    + rewrite Hc2. unfold file_of, s1. cbn [fh]. exact Hc1.
    + rewrite Ho2. unfold pos_of, s1. cbn [fh]. rewrite Ho1. reflexivity.
    + discriminate.
  - erewrite bind_ok; [| reflexivity].
    match goal with
    | |- context [bind (seek 0) _ ?st] =>
        destruct (seek_eq 0 st) as (h3 & E3 & Hc3 & Ho3 & Hb3 & Hz3 & _); [lia |];
        rewrite (bind_ok _ _ _ _ _ E3)
    end.
    destruct (Hz3 eq_refl) as (Hbuf & Hsp & Hcrc).
    exists h3. split; [reflexivity |]. split; [| split].
    + rewrite Hc3. unfold file_of. cbn [fh]. rewrite Hc2. unfold file_of, s1.
      cbn [fh]. exact Hc1.
    + exact Ho3.
    + intros _. repeat split; auto. rewrite Hsp, Hb3. reflexivity.
Qed.

(** C9 (as amended). The leading string of the file is what precedes its
    first NUL byte, or the whole file when it has none.  When that string is
    valid UTF-8 the probe sets format = 2 exactly when it is "Map", and
    otherwise sets format = 1 and rewinds: cursor at 0, empty buffer, full
    space left, fresh CRC.  In particular a file that begins with the four
    bytes "Map\0" is given format 2.  A seek to 0 puts any handler in that
    reset state, and the rest of the map parser does not touch the format. *)
Theorem C9_format_probe :
  (forall (s : State) (t : string),
     let lead := cstring (file_of s) in
     decode_utf8 lead = inr t ->
     exists s',
       mapblock_probe s = (Ret tt, s') /\
       file_of s' = file_of s /\
       (r_format (results_of s') = Some 2 <-> lead = bytes_of_str "Map") /\
       (lead <> bytes_of_str "Map" ->
        r_format (results_of s') = Some 1 /\ pos_of s' = 0 /\
        buffer (fh s') = [] /\ spaceleft (fh s') = bufsize (fh s') /\
        crc16 (fh s') = Crc.init)) /\
  (forall (s : State) (rest : bytes),
     file_of s = bytes_of_str "Map" ++ x00 :: rest ->
     exists s', mapblock_probe s = (Ret tt, s') /\
                r_format (results_of s') = Some 2) /\
  (forall h : FileHandler,
     let h' := snd (FileHandler_seek 0 h) in
     offset (filehandle h') = 0 /\ buffer h' = [] /\
     spaceleft h' = bufsize h' /\ crc16 h' = Crc.init /\
     content (filehandle h') = content (filehandle h)) /\
  (forall s : State,
     r_format (results_of (snd (_process_mapblock s))) =
     r_format (results_of (snd (mapblock_probe s)))).
Proof.
  assert (P1 : forall (s : State) (t : string),
     let lead := cstring (file_of s) in
     decode_utf8 lead = inr t ->
     exists s',
       mapblock_probe s = (Ret tt, s') /\
       file_of s' = file_of s /\
       (r_format (results_of s') = Some 2 <-> lead = bytes_of_str "Map") /\
       (lead <> bytes_of_str "Map" ->
        r_format (results_of s') = Some 1 /\ pos_of s' = 0 /\
        buffer (fh s') = [] /\ spaceleft (fh s') = bufsize (fh s') /\
        crc16 (fh s') = Crc.init)).
  { intros s t lead Hd.
    destruct (probe_eq s t Hd) as (h & E & Hc & _ & Hreset).
    pose proof (decode_utf8_inr _ _ Hd) as Ht.
    eexists. split; [exact E |]. split; [exact Hc |].
    unfold results_of, pos_of. cbn [self fh results].
    assert (Hf : forall z r, r_format (with_format z r) = Some z)
      by (intros z r; destruct r; reflexivity).
    rewrite Hf.
    destruct (String.eqb t "Map") eqn:Et.
    - apply String.eqb_eq in Et. rewrite Et in Ht. symmetry in Ht.
      apply str_of_bytes_eq_iff in Ht. split; [tauto |]. intros Hne. contradiction.
    - apply String.eqb_neq in Et.
      assert (Hne : lead <> bytes_of_str "Map").
      { intros Heq. apply Et. rewrite Ht. now apply str_of_bytes_eq_iff. }
      split.
      + split; [discriminate | intros Heq; contradiction].
      + intros _. destruct (Hreset eq_refl) as (Ho & Hb & Hs & Hcr). auto. }
  split; [exact P1 |]. split; [| split].
  - intros s rest Hfile.
    destruct (P1 s "Map"%string) as (s' & E & _ & Hiff & _).
    + rewrite Hfile. reflexivity.
    + exists s'. split; [exact E |]. apply Hiff. rewrite Hfile. reflexivity.
  - intros h. unfold FileHandler_seek. simpl. auto.
  - intros s. unfold _process_mapblock, bind.
    destruct (mapblock_probe s) as [[u | e] s1]; [| reflexivity].
    pose proof (keeps_format_mapblock_table s1) as K. unfold frame in K.
    cbn [snd]. now inversion K.
Qed.

Lemma C9_witness :
  let s := mkState Sample.converter
             (FileHandler_init (mkRawFile (Sample.file1 0) 0)) in
  let lead := cstring (file_of s) in
  (decode_utf8 lead = inr "d"%string /\ lead <> bytes_of_str "Map") /\
  exists s',
    mapblock_probe s = (Ret tt, s') /\
    file_of s' = file_of s /\
    (r_format (results_of s') = Some 2 <-> lead = bytes_of_str "Map") /\
    (lead <> bytes_of_str "Map" ->
     r_format (results_of s') = Some 1 /\ pos_of s' = 0 /\
     buffer (fh s') = [] /\ spaceleft (fh s') = bufsize (fh s') /\
     crc16 (fh s') = Crc.init).
Proof.
  intros s lead.
  assert (H : decode_utf8 lead = inr "d"%string) by (vm_compute; reflexivity).
  split.
  - split; [exact H |]. vm_compute. discriminate.
  - exact (proj1 C9_format_probe s "d"%string H).
Defined.

(** The claim as first stated fails on two files.  The three bytes "Map"
    with no NUL after them do not begin with "Map\0", yet the map parser
    sets format = 2 (and then fails on the missing version field).  A file
    whose first byte is 0xC8 followed by NUL does not begin with "Map\0"
    either, yet no format is set and the cursor is not rewound: decoding the
    leading string raises. *)
Lemma C9_counterexample :
  (let c := bytes_of_str "Map" in
   let s' := snd (_process_mapblock
                    (mkState Sample.converter (FileHandler_init (mkRawFile c 0)))) in
   firstn 4 c <> bytes_of_str "Map" ++ [x00] /\
   r_format (results_of s') = Some 2) /\
  (let c := [xc8; x00; x01; x00; x00; x00] in
   let r := _process_mapblock
              (mkState Sample.converter (FileHandler_init (mkRawFile c 0))) in
   firstn 4 c <> bytes_of_str "Map" ++ [x00] /\
   (exists e, fst r = Raise e) /\
   r_format (results_of (snd r)) = None /\ pos_of (snd r) = 2 /\
   status_of (Sample.parse c) <> "ok"%string).
Proof.
  split.
  - cbv zeta. split; [vm_compute; discriminate | vm_compute; reflexivity].
  - cbv zeta. split; [vm_compute; discriminate |].
    split; [eexists; vm_compute; reflexivity |].
    split; [vm_compute; reflexivity |].
    split; [vm_compute; reflexivity | vm_compute; discriminate].
Qed.

(** ** The block table of the map *)

Lemma get_string_inv (s s1 : State) (t : string) :
  _get_string s = (Ret t, s1) -> 0 <= pos_of s ->
  let rest := drop_Z (pos_of s) (file_of s) in
  t = str_of_bytes (cstring rest) /\ self s1 = self s /\
  file_of s1 = file_of s /\ pos_of s1 = pos_of s + Z.of_nat (cstring_span rest).
Proof.
  intros H Hp rest. destruct (get_string_eq s Hp) as (h & E & Hc & Ho).
  fold rest in E, Ho. rewrite E in H.
  destruct (decode_utf8 (cstring rest)) as [e | t0] eqn:Hd; [discriminate |].
  inversion H; subst. apply decode_utf8_inr in Hd.
  unfold file_of, pos_of in *. simpl. auto.
Qed.

Lemma dict_get_set {V} (k k' : string) (v : V) (d : dict V) :
  dict_get k (dict_set k' v d) = if String.eqb k k' then Some v else dict_get k d.
Proof.
  induction d as [| [k0 v0] d IH]; simpl.
  - destruct (String.eqb k k'); reflexivity.
  - destruct (String.eqb k' k0) eqn:E0; simpl.
    + apply String.eqb_eq in E0. subst k0.
      destruct (String.eqb k k'); reflexivity.
    + destruct (String.eqb k k0) eqn:E1.
      * apply String.eqb_eq in E1. subst k0.
        rewrite String.eqb_sym in E0. rewrite E0. reflexivity.
      * exact IH.
Qed.

Lemma with_blocks_fields (b : dict BlockDescriptor) (r : Results) :
  r_blocks (with_blocks b r) = Some b /\
  r_mapblock (with_blocks b r) = r_mapblock r /\
  r_format (with_blocks b r) = r_format r.
Proof. destruct r; auto. Qed.

(** The table loop, started at row [i0] with running offset [startpos]: every
    entry of the resulting dictionary is either an earlier one or comes from
    one of the rows laid out under the cursor. *)
Lemma mapblock_loop_inv (n : nat) :
  forall (i0 : nat) (startpos : Z) (s s' : State) (u : unit) blocks0,
    mapblock_loop (map Z.of_nat (seq i0 n)) startpos s = (Ret u, s') ->
    0 <= pos_of s ->
    r_blocks (results_of s) = Some blocks0 ->
    let rows := table_rows n (drop_Z (pos_of s) (file_of s)) in
    exists blocks,
      r_blocks (results_of s') = Some blocks /\
      r_mapblock (results_of s') = r_mapblock (results_of s) /\
      r_format (results_of s') = r_format (results_of s) /\
      file_of s' = file_of s /\
      forall key d,
        dict_get key blocks = Some d ->
        dict_get key blocks0 = Some d \/
        exists j, b_order d = Z.of_nat (i0 + j) /\
                  nth_error rows j = Some (key, b_size d) /\
                  b_name d = key /\
                  b_pos d = startpos + Zsum (map snd (firstn j rows)).
Proof.
  induction n as [| n IH]; intros i0 startpos s s' u blocks0 H Hp Hb rows.
  - simpl in H. apply ret_inv in H. destruct H as [_ ->].
    exists blocks0. repeat split; auto.
  - cbn [seq map mapblock_loop] in H.
    inv_bind H bname s1 Hn. apply get_string_inv in Hn; [| exact Hp].
    destruct Hn as (Hname & Hs1 & Hf1 & Hp1).
    inv_bind H v s2 Hv. apply get_uint_inv in Hv. destruct Hv as (_ & _ & Hs2 & Hf2 & Hp2).
    inv_bind H bsize s3 Hz. apply get_uint_inv in Hz. destruct Hz as (_ & Hsz & Hs3 & Hf3 & Hp3).
    inv_bind H u1 s4 Ha. unfold add_block in Ha.
    inv_bind Ha bl s5 Hl. apply lookup_key_inv in Hl. destruct Hl as [Hl ->].
    apply modify_results_inv in Ha. destruct Ha as (Hfh4 & Hr4 & _).
    destruct (fh_file_pos _ _ Hfh4) as [Hf4 Hp4].
    destruct (self_results_trace _ _ Hs1) as [Hr1 _].
    destruct (self_results_trace _ _ Hs2) as [Hr2 _].
    destruct (self_results_trace _ _ Hs3) as [Hr3 _].
    assert (Ebl : bl = blocks0) by congruence. subst bl.
    cbn [b_name] in Hr4.
    set (ref := mkBlock bname (hundredths v) bsize startpos (Z.of_nat i0)) in *.
    destruct (with_blocks_fields (dict_set bname ref blocks0) (results_of s3))
      as (Wb & Wm & Wf).
    rewrite <- Hr4 in Wb, Wm, Wf.
    set (R := drop_Z (pos_of s) (file_of s)) in *.
    set (sp := cstring_span R) in *.
    assert (Hpos4 : pos_of s4 = pos_of s + Z.of_nat sp + 6) by lia.
    assert (Hfile4 : file_of s4 = file_of s) by congruence.
    apply (IH (S i0) (startpos + bsize) s4 s' u (dict_set bname ref blocks0)) in H;
      [| lia | exact Wb].
    destruct H as (blocks & Hbl & Hmb & Hfm & Hfl & Hall).
    assert (Hrows' : drop_Z (pos_of s4) (file_of s4) = skipn 6 (skipn sp R)).
    { rewrite Hpos4, Hfile4.
      replace (pos_of s + Z.of_nat sp + 6) with (pos_of s + Z.of_nat sp + Z.of_nat 6) by lia.
      rewrite drop_Z_add by lia. rewrite drop_Z_add by lia. reflexivity. }
    assert (Hsize : bsize = le_uint (firstn 4 (skipn 2 (skipn sp R)))).
    { rewrite Hsz, Hf2, Hf1, Hp2, Hp1. unfold uint_at, bytes_at.
      replace (pos_of s + Z.of_nat sp + 2)
        with (pos_of s + Z.of_nat sp + Z.of_nat 2) by lia.
      rewrite drop_Z_add by lia. rewrite drop_Z_add by lia. reflexivity. }
    assert (Hrows : rows = (bname, bsize) :: table_rows n (skipn 6 (skipn sp R))).
    { unfold rows. cbn [table_rows]. fold R. fold sp. rewrite Hname, Hsize. reflexivity. }
    rewrite Hrows' in Hall.
    exists blocks. split; [exact Hbl |]. split; [congruence |].
    split; [congruence |]. split; [congruence |].
    intros key d Hd. rewrite Hrows.
    destruct (Hall key d Hd) as [Hin | (j & Ho & Hnth & Hnm & Hps)].
    + rewrite dict_get_set in Hin. destruct (String.eqb key bname) eqn:Ek.
      * apply String.eqb_eq in Ek. inversion Hin; subst d key.
        right. exists 0%nat. cbn. unfold ref. cbn.
        repeat split; auto; lia.
      * left. exact Hin.
    + right. exists (S j). cbn [nth_error firstn map Zsum fold_right snd].
      repeat split; auto.
      * rewrite Ho. f_equal. lia.
      * rewrite Hps. unfold Zsum. lia.
Qed.

Lemma probe_raise (s : State) (e : exn) :
  decode_utf8 (cstring (file_of s)) = inl e ->
  exists s1, mapblock_probe s = (Raise e, s1).
Proof.
  intros Hd. unfold mapblock_probe.
  destruct (seek_eq 0 s) as (h1 & E1 & Hc1 & Ho1 & _); [lia |].
  rewrite (bind_ok _ _ _ _ _ E1).
  set (s1 := mkState (self s) h1) in *.
  destruct (get_string_eq s1) as (h2 & E2 & Hc2 & Ho2).
  { unfold pos_of, s1. simpl. lia. }
  assert (Hrest : drop_Z (pos_of s1) (file_of s1) = file_of s).
  { unfold pos_of, file_of, s1. cbn [fh]. rewrite Ho1, Hc1. apply drop_Z_0. }
  rewrite Hrest, Hd in E2.
  rewrite (bind_raise _ _ _ _ _ E2). eexists. reflexivity.
Qed.

Lemma probe_inv (s s1 : State) (u : unit) :
  mapblock_probe s = (Ret u, s1) ->
  exists t,
    decode_utf8 (cstring (file_of s)) = inr t /\
    let fmt := if String.eqb t "Map" then 2 else 1 in
    results_of s1 = with_format fmt (results_of s) /\
    file_of s1 = file_of s /\
    pos_of s1 = map_start (file_of s) fmt /\
    trace_of s1 = trace_of s.
Proof.
  intros H. destruct (decode_utf8 (cstring (file_of s))) as [e | t] eqn:Hd.
  - destruct (probe_raise s e Hd) as (s2 & E). rewrite E in H. discriminate.
  - exists t. split; [reflexivity |].
    destruct (probe_eq s t Hd) as (h & E & Hc & Ho & _).
    rewrite E in H. inversion H; subst s1.
    unfold results_of, file_of, pos_of, trace_of. cbn [self fh results tracedata].
    auto.
Qed.

Lemma map_start_nonneg (c : bytes) (fmt : Z) : 0 <= map_start c fmt.
Proof. unfold map_start. destruct (fmt =? 2); lia. Qed.

(** A successful run of the map parser, in terms of the file. *)
Lemma mapblock_ok (s s' : State) (st : string) :
  _process_mapblock s = (Ret st, s') ->
  exists fmt mb blocks,
    st = "ok"%string /\
    r_format (results_of s') = Some fmt /\
    r_mapblock (results_of s') = Some mb /\
    r_blocks (results_of s') = Some blocks /\
    file_of s' = file_of s /\
    let c := file_of s in
    let start := map_start c fmt in
    nbytes mb = uint_at c (start + 2) 4 /\
    nblocks mb = uint_at c (start + 6) 2 - 1 /\
    let rows := table_rows (Z.to_nat (nblocks mb)) (drop_Z (start + 8) c) in
    forall key d,
      dict_get key blocks = Some d ->
      exists j, b_order d = Z.of_nat j /\
                nth_error rows j = Some (key, b_size d) /\
                b_name d = key /\
                b_pos d = nbytes mb + Zsum (map snd (firstn j rows)).
Proof.
  unfold _process_mapblock. intros H.
  inv_bind H u0 s1 Hpr. apply probe_inv in Hpr.
  destruct Hpr as (t & Hd & Hr1 & Hf1 & Hp1 & _).
  set (fmt := if String.eqb t "Map" then 2 else 1) in *.
  unfold mapblock_table in H.
  inv_bind H v s2 Hv. apply get_uint_inv in Hv. destruct Hv as (_ & _ & Hs2 & Hf2 & Hp2).
  destruct (self_results_trace _ _ Hs2) as [Hr2 _].
  inv_bind H u1 s3 Hm1. apply modify_results_inv in Hm1. destruct Hm1 as (Hfh3 & Hr3 & _).
  destruct (fh_file_pos _ _ Hfh3) as [Hf3 Hp3].
  inv_bind H nb s4 Hnb. apply get_uint_inv in Hnb. destruct Hnb as (_ & Hnbv & Hs4 & Hf4 & Hp4).
  destruct (self_results_trace _ _ Hs4) as [Hr4 _].
  inv_bind H n s5 Hn. apply get_uint_inv in Hn. destruct Hn as (_ & Hnv & Hs5 & Hf5 & Hp5).
  destruct (self_results_trace _ _ Hs5) as [Hr5 _].
  inv_bind H u2 s6 Hm2. apply modify_results_inv in Hm2. destruct Hm2 as (Hfh6 & Hr6 & _).
  destruct (fh_file_pos _ _ Hfh6) as [Hf6 Hp6].
  inv_bind H u3 s7 Hm3. apply modify_results_inv in Hm3. destruct Hm3 as (Hfh7 & Hr7 & _).
  destruct (fh_file_pos _ _ Hfh7) as [Hf7 Hp7].
  inv_bind H mb s8 Hl. apply lookup_key_inv in Hl. destruct Hl as [Hmb ->].
  inv_bind H u4 s9 Hloop. apply ret_inv in H. destruct H as [-> ->].
  assert (Hres7 : results_of s7 =
                  with_blocks [] (with_mapblock (mkMapBlock nb (n - 1))
                    (with_version (hundredths v) (with_format fmt (results_of s))))).
  { rewrite Hr7, Hr6, Hr5, Hr4, Hr3, Hr2, Hr1. reflexivity. }
  assert (Emb : mb = mkMapBlock nb (n - 1)).
  { rewrite Hres7 in Hmb. destruct (results_of s); simpl in Hmb. congruence. }
  assert (Hbl7 : r_blocks (results_of s7) = Some []).
  { rewrite Hres7. destruct (results_of s); reflexivity. }
  assert (Hfm7 : r_format (results_of s7) = Some fmt).
  { rewrite Hres7. destruct (results_of s); reflexivity. }
  assert (Hfile7 : file_of s7 = file_of s) by congruence.
  assert (Hpos7 : pos_of s7 = map_start (file_of s) fmt + 8) by lia.
  pose proof (map_start_nonneg (file_of s) fmt) as Hnn.
  unfold range in Hloop.
  apply (mapblock_loop_inv _ 0%nat _ _ _ _ [] ) in Hloop; [| lia | exact Hbl7].
  destruct Hloop as (blocks & Hbl & Hmb9 & Hfm9 & Hfl9 & Hall).
  exists fmt, mb, blocks.
  split; [reflexivity |]. split; [congruence |]. split; [congruence |].
  split; [exact Hbl |]. split; [congruence |].
  cbv zeta. rewrite Emb. cbn [nbytes nblocks].
  split; [rewrite Hnbv; f_equal; [congruence | lia] |].
  split; [rewrite Hnv; f_equal; f_equal; [congruence | lia] |].
  intros key d Hd'.
  rewrite Emb in Hall. cbn [nbytes nblocks] in Hall.
  rewrite Hpos7, Hfile7 in Hall.
  destruct (Hall key d Hd') as [Hin | (j & Ho & Hnth & Hnm & Hps)]; [discriminate |].
  exists j. auto.
Qed.

Lemma Zsum_firstn_mono (l : list Z) (i j : nat) :
  (forall x, In x l -> 0 <= x) -> (i <= j)%nat ->
  Zsum (firstn i l) <= Zsum (firstn j l).
Proof.
  revert i j. induction l as [| x l IH]; intros i j Hnn Hij.
  - rewrite !firstn_nil. lia.
  - destruct i as [| i]; destruct j as [| j]; try lia; cbn [firstn Zsum fold_right].
    + assert (Hx : 0 <= x) by (apply Hnn; now left).
      assert (H0 : 0 <= Zsum (firstn j l)).
      { specialize (IH 0%nat j (fun y Hy => Hnn y (or_intror Hy)) (Nat.le_0_l j)).
        cbn in IH. exact IH. }
      unfold Zsum in H0. lia.
    + specialize (IH i j (fun y Hy => Hnn y (or_intror Hy))). unfold Zsum in IH. lia.
Qed.

Lemma table_rows_sizes_nonneg (n : nat) (rest : bytes) (x : Z) :
  In x (map snd (table_rows n rest)) -> 0 <= x.
Proof.
  revert rest. induction n as [| n IH]; intros rest; cbn [table_rows map In snd].
  - tauto.
  - intros [<- | Hin]; [apply le_uint_nonneg | eapply IH; exact Hin].
Qed.

Lemma table_rows_length (n : nat) (rest : bytes) :
  List.length (table_rows n rest) = n.
Proof.
  revert rest. induction n as [| n IH]; intros rest; cbn [table_rows List.length];
    [reflexivity | now rewrite IH].
Qed.

(** The table loop from the rows to the dictionary: every row leaves an
    entry under its name, made by that row or by a later one of the same
    name, and the entries that were there stay unless a row replaces
    them. *)
Lemma mapblock_loop_rows (n : nat) :
  forall (i0 : nat) (startpos : Z) (s s' : State) (u : unit) blocks0,
    mapblock_loop (map Z.of_nat (seq i0 n)) startpos s = (Ret u, s') ->
    0 <= pos_of s ->
    r_blocks (results_of s) = Some blocks0 ->
    let rows := table_rows n (drop_Z (pos_of s) (file_of s)) in
    exists blocks,
      r_blocks (results_of s') = Some blocks /\
      (forall key d0, dict_get key blocks0 = Some d0 ->
         exists d, dict_get key blocks = Some d /\
                   (d = d0 \/ Z.of_nat i0 <= b_order d)) /\
      (forall j key size, nth_error rows j = Some (key, size) ->
         exists d, dict_get key blocks = Some d /\ Z.of_nat (i0 + j) <= b_order d).
Proof.
  induction n as [| n IH]; intros i0 startpos s s' u blocks0 H Hp Hb rows.
  - cbn in H. apply ret_inv in H. destruct H as [_ ->].
    exists blocks0. split; [exact Hb |]. split.
    + intros key d0 Hd. exists d0. auto.
    + intros j key size Hj. destruct j; discriminate Hj.
  - cbn [seq map mapblock_loop] in H.
    inv_bind H bname s1 Hn. apply get_string_inv in Hn; [| exact Hp].
    destruct Hn as (Hname & Hs1 & Hf1 & Hp1).
    inv_bind H v s2 Hv. apply get_uint_inv in Hv. destruct Hv as (_ & _ & Hs2 & Hf2 & Hp2).
    inv_bind H bsize s3 Hz. apply get_uint_inv in Hz. destruct Hz as (_ & Hsz & Hs3 & Hf3 & Hp3).
    inv_bind H u1 s4 Ha. unfold add_block in Ha.
    inv_bind Ha bl s5 Hl. apply lookup_key_inv in Hl. destruct Hl as [Hl ->].
    apply modify_results_inv in Ha. destruct Ha as (Hfh4 & Hr4 & _).
    destruct (fh_file_pos _ _ Hfh4) as [Hf4 Hp4].
    destruct (self_results_trace _ _ Hs1) as [Hr1 _].
    destruct (self_results_trace _ _ Hs2) as [Hr2 _].
    destruct (self_results_trace _ _ Hs3) as [Hr3 _].
    assert (Ebl : bl = blocks0) by congruence. subst bl.
    cbn [b_name] in Hr4.
    set (ref := mkBlock bname (hundredths v) bsize startpos (Z.of_nat i0)) in *.
    destruct (with_blocks_fields (dict_set bname ref blocks0) (results_of s3))
      as (Wb & _ & _).
    rewrite <- Hr4 in Wb.
    set (R := drop_Z (pos_of s) (file_of s)) in *.
    set (sp := cstring_span R) in *.
    assert (Hpos4 : pos_of s4 = pos_of s + Z.of_nat sp + 6) by lia.
    assert (Hfile4 : file_of s4 = file_of s) by congruence.
    apply (IH (S i0) (startpos + bsize) s4 s' u (dict_set bname ref blocks0)) in H;
      [| lia | exact Wb].
    destruct H as (blocks & Hbl & Hkeep & Hrow).
    assert (Hrows' : drop_Z (pos_of s4) (file_of s4) = skipn 6 (skipn sp R)).
    { rewrite Hpos4, Hfile4.
      replace (pos_of s + Z.of_nat sp + 6) with (pos_of s + Z.of_nat sp + Z.of_nat 6) by lia.
      rewrite drop_Z_add by lia. rewrite drop_Z_add by lia. reflexivity. }
    assert (Hrows : exists size0,
               rows = (bname, size0) :: table_rows n (skipn 6 (skipn sp R))).
    { unfold rows. cbn [table_rows]. fold R. fold sp. rewrite Hname. eauto. }
    destruct Hrows as (size0 & Hrows).
    rewrite Hrows' in Hrow.
    exists blocks. split; [exact Hbl |]. split.
    + intros key d0 Hd.
      destruct (Hkeep key (if String.eqb key bname then ref else d0)) as (d & Hg & Hor).
      { rewrite dict_get_set. destruct (String.eqb key bname); [reflexivity | exact Hd]. }
      exists d. split; [exact Hg |].
      destruct Hor as [-> | Hle]; [| right; lia].
      destruct (String.eqb key bname); [right; unfold ref; cbn; lia | now left].
    + intros j key size Hj. rewrite Hrows in Hj. destruct j as [| j].
      * cbn in Hj. inversion Hj; subst key size0.
        destruct (Hkeep bname ref) as (d & Hg & Hor).
        { rewrite dict_get_set, String.eqb_refl. reflexivity. }
        exists d. split; [exact Hg |].
        destruct Hor as [-> | Hle]; [unfold ref; cbn; lia | lia].
      * cbn [nth_error] in Hj. destruct (Hrow j key size Hj) as (d & Hg & Hle).
        exists d. split; [exact Hg | lia].
Qed.

(** A successful run of the map parser, from the rows of the table to the
    dictionary. *)
Lemma mapblock_rows (s s' : State) (st : string) :
  _process_mapblock s = (Ret st, s') ->
  exists fmt mb blocks,
    r_format (results_of s') = Some fmt /\
    r_mapblock (results_of s') = Some mb /\
    r_blocks (results_of s') = Some blocks /\
    let rows := table_rows (Z.to_nat (nblocks mb))
                  (drop_Z (map_start (file_of s) fmt + 8) (file_of s)) in
    forall j key size, nth_error rows j = Some (key, size) ->
      exists d, dict_get key blocks = Some d /\ Z.of_nat j <= b_order d.
Proof.
  intros H. pose proof (mapblock_ok _ _ _ H) as M.
  destruct M as (fmt0 & mb0 & blocks0 & _ & Hfm0 & Hmb0 & Hbl0 & _).
  unfold _process_mapblock in H.
  inv_bind H u0 s1 Hpr. apply probe_inv in Hpr.
  destruct Hpr as (t & Hd & Hr1 & Hf1 & Hp1 & _).
  set (fmt := if String.eqb t "Map" then 2 else 1) in *.
  unfold mapblock_table in H.
  inv_bind H v s2 Hv. apply get_uint_inv in Hv. destruct Hv as (_ & _ & Hs2 & Hf2 & Hp2).
  destruct (self_results_trace _ _ Hs2) as [Hr2 _].
  inv_bind H u1 s3 Hm1. apply modify_results_inv in Hm1. destruct Hm1 as (Hfh3 & Hr3 & _).
  destruct (fh_file_pos _ _ Hfh3) as [Hf3 Hp3].
  inv_bind H nb s4 Hnb. apply get_uint_inv in Hnb. destruct Hnb as (_ & Hnbv & Hs4 & Hf4 & Hp4).
  destruct (self_results_trace _ _ Hs4) as [Hr4 _].
  inv_bind H n s5 Hn. apply get_uint_inv in Hn. destruct Hn as (_ & Hnv & Hs5 & Hf5 & Hp5).
  destruct (self_results_trace _ _ Hs5) as [Hr5 _].
  inv_bind H u2 s6 Hm2. apply modify_results_inv in Hm2. destruct Hm2 as (Hfh6 & Hr6 & _).
  destruct (fh_file_pos _ _ Hfh6) as [Hf6 Hp6].
  inv_bind H u3 s7 Hm3. apply modify_results_inv in Hm3. destruct Hm3 as (Hfh7 & Hr7 & _).
  destruct (fh_file_pos _ _ Hfh7) as [Hf7 Hp7].
  inv_bind H mb s8 Hl. apply lookup_key_inv in Hl. destruct Hl as [Hmb ->].
  inv_bind H u4 s9 Hloop. apply ret_inv in H. destruct H as [-> ->].
  assert (Hres7 : results_of s7 =
                  with_blocks [] (with_mapblock (mkMapBlock nb (n - 1))
                    (with_version (hundredths v) (with_format fmt (results_of s))))).
  { rewrite Hr7, Hr6, Hr5, Hr4, Hr3, Hr2, Hr1. reflexivity. }
  assert (Hbl7 : r_blocks (results_of s7) = Some []).
  { rewrite Hres7. destruct (results_of s); reflexivity. }
  assert (Hfm7 : r_format (results_of s7) = Some fmt).
  { rewrite Hres7. destruct (results_of s); reflexivity. }
  assert (Hfile7 : file_of s7 = file_of s) by congruence.
  assert (Hpos7 : pos_of s7 = map_start (file_of s) fmt + 8) by lia.
  pose proof (map_start_nonneg (file_of s) fmt) as Hnn.
  pose proof Hloop as Hloop'.
  unfold range in Hloop.
  apply (mapblock_loop_inv _ 0%nat _ _ _ _ []) in Hloop'; [| lia | exact Hbl7].
  destruct Hloop' as (blocks1 & _ & Hmb9 & Hfm9 & _).
  apply (mapblock_loop_rows _ 0%nat _ _ _ _ []) in Hloop; [| lia | exact Hbl7].
  destruct Hloop as (blocks & Hbl & _ & Hrow).
  rewrite Hpos7, Hfile7 in Hrow.
  assert (fmt0 = fmt) by congruence. subst fmt0.
  assert (mb0 = mb) by congruence. subst mb0.
  exists fmt, mb, blocks.
  split; [exact Hfm0 |]. split; [exact Hmb0 |]. split; [exact Hbl |].
  intros rows j key size Hj. destruct (Hrow j key size Hj) as (d & Hg & Hle).
  exists d. split; [exact Hg | exact Hle].
Qed.

(** C7. After the map block is parsed, the block dictionary and the block
    table of the file determine each other.  The table has as many rows as
    the map declares blocks.  Every block descriptor stems from a row: its
    order is the row's index, its name and size are the row's, and its
    offset is the map block's declared byte size plus the sum of the sizes
    declared by the rows before it.  Every row has a descriptor under its
    name, and unless a later row repeats the name that descriptor is the
    one of this row, with that offset.  Hence the offsets do not decrease
    along the declaration order. *)
Theorem C7_block_offsets_are_cumulative (s s' : State) (st : string) :
  _process_mapblock s = (Ret st, s') ->
  exists fmt mb blocks,
    r_format (results_of s') = Some fmt /\
    r_mapblock (results_of s') = Some mb /\
    r_blocks (results_of s') = Some blocks /\
    let c := file_of s in
    let start := map_start c fmt in
    nbytes mb = uint_at c (start + 2) 4 /\
    nblocks mb = uint_at c (start + 6) 2 - 1 /\
    let rows := table_rows (Z.to_nat (nblocks mb)) (drop_Z (start + 8) c) in
    List.length rows = Z.to_nat (nblocks mb) /\
    (forall key d,
       dict_get key blocks = Some d ->
       exists j, b_order d = Z.of_nat j /\
                 nth_error rows j = Some (key, b_size d) /\
                 b_name d = key /\
                 b_pos d = nbytes mb + Zsum (map snd (firstn j rows))) /\
    (forall j key size,
       nth_error rows j = Some (key, size) ->
       exists d,
         dict_get key blocks = Some d /\ Z.of_nat j <= b_order d /\
         ((forall j' size', (j < j')%nat -> nth_error rows j' <> Some (key, size')) ->
          b_order d = Z.of_nat j /\ b_size d = size /\ b_name d = key /\
          b_pos d = nbytes mb + Zsum (map snd (firstn j rows)))) /\
    (forall k1 d1 k2 d2,
       dict_get k1 blocks = Some d1 -> dict_get k2 blocks = Some d2 ->
       b_order d1 <= b_order d2 -> b_pos d1 <= b_pos d2).
Proof.
  intros H. pose proof (mapblock_rows _ _ _ H) as R. apply mapblock_ok in H.
  destruct H as (fmt & mb & blocks & _ & Hfm & Hmb & Hbl & _ & H).
  destruct R as (fmt' & mb' & blocks' & Hfm' & Hmb' & Hbl' & Hrow).
  assert (fmt' = fmt) by congruence. subst fmt'.
  assert (mb' = mb) by congruence. subst mb'.
  assert (blocks' = blocks) by congruence. subst blocks'.
  cbv zeta in H, Hrow. destruct H as (Hnb & Hn & Hall).
  exists fmt, mb, blocks.
  split; [exact Hfm |]. split; [exact Hmb |]. split; [exact Hbl |]. cbv zeta.
  split; [exact Hnb |]. split; [exact Hn |].
  split; [apply table_rows_length |]. split; [exact Hall |]. split.
  - intros j key size Hj. destruct (Hrow j key size Hj) as (d & Hg & Hle).
    exists d. split; [exact Hg |]. split; [exact Hle |].
    intros Hlast. destruct (Hall key d Hg) as (j2 & Ho & Hnth & Hnm & Hps).
    assert (j2 = j).
    { destruct (Nat.eq_dec j2 j) as [E | Hne]; [exact E |].
      exfalso. apply (Hlast j2 (b_size d)); [lia | exact Hnth]. }
    subst j2. rewrite Hnth in Hj. inversion Hj. auto.
  - intros k1 d1 k2 d2 H1 H2 Hle.
    destruct (Hall k1 d1 H1) as (j1 & Ho1 & _ & _ & Hp1).
    destruct (Hall k2 d2 H2) as (j2 & Ho2 & _ & _ & Hp2).
    rewrite Hp1, Hp2. rewrite <- !firstn_map.
    apply Z.add_le_mono_l. apply Zsum_firstn_mono.
    + intros x. apply table_rows_sizes_nonneg.
    + lia.
Qed.

Lemma C7_witness :
  let s := mkState Sample.converter
             (FileHandler_init (mkRawFile (Sample.file2 "KeyEvents") 0)) in
  let s' := snd (_process_mapblock s) in
  _process_mapblock s = (Ret "ok"%string, s') /\
  exists fmt mb blocks,
    r_format (results_of s') = Some fmt /\
    r_mapblock (results_of s') = Some mb /\
    r_blocks (results_of s') = Some blocks /\
    let c := file_of s in
    let start := map_start c fmt in
    nbytes mb = uint_at c (start + 2) 4 /\
    nblocks mb = uint_at c (start + 6) 2 - 1 /\
    let rows := table_rows (Z.to_nat (nblocks mb)) (drop_Z (start + 8) c) in
    List.length rows = Z.to_nat (nblocks mb) /\
    (forall key d,
       dict_get key blocks = Some d ->
       exists j, b_order d = Z.of_nat j /\
                 nth_error rows j = Some (key, b_size d) /\
                 b_name d = key /\
                 b_pos d = nbytes mb + Zsum (map snd (firstn j rows))) /\
    (forall j key size,
       nth_error rows j = Some (key, size) ->
       exists d,
         dict_get key blocks = Some d /\ Z.of_nat j <= b_order d /\
         ((forall j' size', (j < j')%nat -> nth_error rows j' <> Some (key, size')) ->
          b_order d = Z.of_nat j /\ b_size d = size /\ b_name d = key /\
          b_pos d = nbytes mb + Zsum (map snd (firstn j rows)))) /\
    (forall k1 d1 k2 d2,
       dict_get k1 blocks = Some d1 -> dict_get k2 blocks = Some d2 ->
       b_order d1 <= b_order d2 -> b_pos d1 <= b_pos d2).
Proof.
  intros s s'.
  assert (H : _process_mapblock s = (Ret "ok"%string, s')) by (vm_compute; reflexivity).
  split; [exact H |].
  exact (C7_block_offsets_are_cumulative s s' "ok"%string H).
Defined.

(** ** A wrong tag in format 2 *)

Lemma map_view_with_record k d r : map_view (with_record k d r) = map_view r.
Proof. unfold map_view. now rewrite with_record_blocks, with_record_format. Qed.

Lemma In_insert_by {A} (key : A -> Z) (x y : A) (l : list A) :
  In y (insert_by key x l) <-> y = x \/ In y l.
Proof.
  induction l as [| z l IH]; simpl.
  - intuition.
  - destruct (key x <? key z); simpl; rewrite ?IH; intuition.
Qed.

Lemma In_sorted {A} (key : A -> Z) (y : A) (l : list A) :
  In y (sorted key l) <-> In y l.
Proof.
  unfold sorted.
  assert (G : forall acc, In y (fold_left (fun acc x => insert_by key x acc) l acc)
                          <-> In y l \/ In y acc).
  { induction l as [| x l IH]; intros acc; simpl.
    - intuition.
    - rewrite IH, In_insert_by. intuition. }
  rewrite G. simpl. intuition.
Qed.

Lemma dict_get_In {V} (k : string) (v : V) (d : dict V) :
  dict_get k d = Some v -> In (k, v) d.
Proof.
  induction d as [| [k0 v0] d IH]; simpl; [discriminate |].
  destruct (String.eqb k k0) eqn:E.
  - apply String.eqb_eq in E. intros H. inversion H; subst. now left.
  - intros H. right. auto.
Qed.

Lemma block_order_In (k : string) (ref : BlockDescriptor) blocks :
  dict_get k blocks = Some ref -> In k (block_order blocks).
Proof.
  intros H. unfold block_order. apply in_map_iff. exists (k, ref).
  split; [reflexivity |]. apply In_sorted. now apply dict_get_In.
Qed.

Lemma get_block_none (bname : string) (s : State) blocks :
  r_blocks (results_of s) = Some blocks -> dict_get bname blocks = None ->
  get_block bname s = (Raise (KeyError bname), s).
Proof.
  intros Hb Hg. unfold get_block.
  rewrite (bind_ok _ _ _ _ _ (lookup_key_eq "blocks" r_blocks s blocks Hb)).
  unfold getitem. rewrite Hg. reflexivity.
Qed.

Lemma dispatch_known (k : BlockKind) (st : string) :
  dispatch (block_name k) st =
  match k with
  | GenParams => _process_genparams | SupParams => _process_supparams
  | FxdParams => _process_fxdparams | DataPts => _process_datapts
  | KeyEvents => _process_keyevents | Cksum => _process_cksum
  end.
Proof. destruct k; reflexivity. Qed.

(** The decoder of a block whose tag is wrong answers "nok" if it answers. *)
Lemma tag_mismatch_nok (k : BlockKind) (s s' : State) (st st' : string)
    blocks (ref : BlockDescriptor) :
  r_blocks (results_of s) = Some blocks ->
  dict_get (block_name k) blocks = Some ref ->
  r_format (results_of s) = Some 2 ->
  bytes_at (file_of s) (b_pos ref) (header_size 2 k) <> tag_of k ->
  dispatch (block_name k) st s = (Ret st', s') ->
  st' = "nok"%string.
Proof.
  intros Hbl Hg Hfm Hne H. rewrite dispatch_known in H.
  assert (G : forall K : option BlockDescriptor -> M string,
             (forall r, r = None -> K r = ret "nok"%string) ->
             bind (enter_block k) K s = (Ret st', s') -> st' = "nok"%string).
  { intros K HK HB. inv_bind HB r s1 He. apply enter_block_inv in He.
    destruct He as (blocks' & ref' & fmt & Hbl' & Hg' & Hfm' & _ & _ & _ & Hr).
    assert (blocks' = blocks) by congruence. subst blocks'.
    assert (ref' = ref) by congruence. subst ref'.
    assert (fmt = 2) by congruence. subst fmt.
    destruct r as [r0 |].
    - destruct Hr as (_ & _ & _ & Htag). exfalso. apply Hne. now apply Htag.
    - rewrite (HK None eq_refl) in HB. apply ret_inv in HB. tauto. }
  destruct k; (eapply G; [| exact H]); intros r ->; reflexivity.
Qed.

(** The block loop cannot end with "ok" when a block that is still to be
    visited carries a wrong tag. *)
Lemma loop_stops_at_wrong_tag (k : BlockKind) (c : bytes) blocks
    (ref : BlockDescriptor) :
  (forall key d, dict_get key blocks = Some d -> b_name d = key) ->
  dict_get (block_name k) blocks = Some ref ->
  bytes_at c (b_pos ref) (header_size 2 k) <> tag_of k ->
  forall (klist : list string) (st : string) (s : State),
    In (block_name k) klist ->
    frame map_view s = (c, (Some blocks, Some 2)) ->
    match fst (sorparse_loop klist st s) with
    | Ret st' => st' <> "ok"%string
    | Raise _ => True
    end.
Proof.
  intros Hnames Hg Hne klist.
  induction klist as [| bname klist IH]; intros st s Hin Hfr; [destruct Hin |].
  unfold frame, map_view in Hfr. inversion Hfr as [[Hc Hbl Hfm]].
  cbn [sorparse_loop].
  destruct (dict_get bname blocks) as [ref0 |] eqn:Hg0.
  - rewrite (bind_ok _ _ _ _ _ (get_block_eq bname s blocks ref0 Hbl Hg0)).
    rewrite (Hnames _ _ Hg0).
    destruct (dispatch bname st s) as [[st' | e] s2] eqn:Hd.
    + rewrite (bind_ok _ _ _ _ _ Hd).
      destruct (String.eqb st' "ok") eqn:Eok.
      * apply String.eqb_eq in Eok. subst st'.
        assert (Hnk : bname <> block_name k).
        { intros ->. rewrite <- Hc in Hne.
          pose proof (tag_mismatch_nok k s s2 st "ok"%string blocks ref Hbl Hg Hfm Hne Hd).
          discriminate. }
        apply IH.
        -- destruct Hin as [Heq | Hin]; [contradiction | exact Hin].
        -- pose proof (keeps_dispatch map_view map_view_with_record bname st s) as K.
           rewrite Hd in K. cbn [snd] in K. rewrite K. exact Hfr.
      * cbn [fst ret]. apply String.eqb_neq in Eok. exact Eok.
    + rewrite (bind_raise _ _ _ _ _ Hd). exact I.
  - rewrite (bind_raise _ _ _ _ _ (get_block_none bname s blocks Hbl Hg0)). exact I.
Qed.

(** C6. In a format-2 parse, when the map lists one of the six known blocks
    and the bytes at its offset are not its tag "<name>\0", the status
    returned by [sorparse] is not "ok", whatever was decoded before, and
    [convert_to_csv] returns False without writing a file. *)
Theorem C6_wrong_tag_fails_the_parse
    (disk : Disk) (fname : string) (me : SorConverter) (c : bytes)
    (st : string) (s1 : State) (k : BlockKind) blocks (ref : BlockDescriptor) :
  disk fname = Some c ->
  after_mapblock c fname me = (Ret st, s1) ->
  r_format (results_of s1) = Some 2 ->
  r_blocks (results_of s1) = Some blocks ->
  dict_get (block_name k) blocks = Some ref ->
  bytes_at c (b_pos ref) (header_size 2 k) <> tag_of k ->
  status_of (fst (sorparse disk fname me)) <> "ok"%string /\
  (fname = filename me ->
   forall output_file, fst (convert_to_csv disk output_file me) = (false, None)).
Proof.
  intros Hdisk Hmap Hfm Hbl Hg Hne.
  assert (Hstatus : status_of (fst (sorparse disk fname me)) <> "ok"%string).
  { unfold after_mapblock in Hmap. inv_bind Hmap u0 s0 Hm0.
    pose proof Hmap as Hmap'.
    apply mapblock_ok in Hmap.
    destruct Hmap as (fmt & mb & blocks' & -> & _ & _ & Hbl' & Hfile & Hrows).
    cbv zeta in Hrows. destruct Hrows as (_ & _ & Hall).
    assert (blocks' = blocks) by congruence. subst blocks'.
    assert (Hnames : forall key d, dict_get key blocks = Some d -> b_name d = key).
    { intros key d Hd. destruct (Hall key d Hd) as (j & _ & _ & Hn & _). exact Hn. }
    assert (Hc : file_of s1 = c).
    { rewrite Hfile. apply modify_results_inv in Hm0. destruct Hm0 as (Hfh & _).
      unfold file_of. rewrite Hfh. reflexivity. }
    pose proof (loop_stops_at_wrong_tag k c blocks ref Hnames Hg Hne
                  (block_order blocks) "ok"%string s1
                  (block_order_In _ _ _ Hg)) as L.
    assert (Hfr : frame map_view s1 = (c, (Some blocks, Some 2))).
    { unfold frame, map_view. now rewrite Hc, Hbl, Hfm. }
    specialize (L Hfr).
    unfold sorparse. rewrite Hdisk. unfold sorparse_body.
    rewrite (bind_ok _ _ _ _ _ Hm0), (bind_ok _ _ _ _ _ Hmap').
    change (negb ("ok" =? "ok")%string) with false. cbv iota.
    rewrite (bind_ok _ _ _ _ _ (lookup_key_eq "blocks" r_blocks s1 blocks Hbl)).
    destruct (sorparse_loop (block_order blocks) "ok" s1) as [[st' | e] s2] eqn:El;
      cbn [fst] in L.
    - rewrite (bind_ok _ _ _ _ _ El).
      unfold get_results, get_tracedata, bind, ret. cbn [fst status_of]. exact L.
    - rewrite (bind_raise _ _ _ _ _ El). cbn [fst status_of].
      change ("Error: " ++ exn_str e)%string
        with (String "E" ("rror: " ++ exn_str e))%string.
      discriminate. }
  split; [exact Hstatus |].
  intros -> output_file. unfold convert_to_csv.
  destruct (sorparse disk (filename me) me) as [[[status r] td] me'].
  cbn [fst status_of] in Hstatus. apply String.eqb_neq in Hstatus.
  rewrite Hstatus. reflexivity.
Qed.

Lemma C6_witness :
  let c := Sample.file2 "KeyEvenzz" in
  let disk := Sample.disk c in
  let fname := "dir/trace.sor"%string in
  let me := Sample.converter in
  let s1 := snd (after_mapblock c fname me) in
  let blocks := match r_blocks (results_of s1) with Some b => b | None => [] end in
  let ref := match dict_get "KeyEvents" blocks with
             | Some r => r | None => mkBlock "" "" 0 0 0 end in
  (after_mapblock c fname me = (Ret "ok"%string, s1) /\
   r_format (results_of s1) = Some 2 /\
   dict_get "KeyEvents" blocks = Some ref /\
   bytes_at c (b_pos ref) (header_size 2 KeyEvents) <> tag_of KeyEvents) /\
  status_of (fst (sorparse disk fname me)) <> "ok"%string /\
  (fname = filename me ->
   forall output_file, fst (convert_to_csv disk output_file me) = (false, None)).
Proof.
  intros c disk fname me s1 blocks ref.
  assert (H0 : disk fname = Some c) by reflexivity.
  assert (H1 : after_mapblock c fname me = (Ret "ok"%string, s1))
    by (vm_compute; reflexivity).
  assert (H2 : r_format (results_of s1) = Some 2) by (vm_compute; reflexivity).
  assert (H3 : r_blocks (results_of s1) = Some blocks) by (vm_compute; reflexivity).
  assert (H4 : dict_get (block_name KeyEvents) blocks = Some ref)
    by (vm_compute; reflexivity).
  assert (H5 : bytes_at c (b_pos ref) (header_size 2 KeyEvents) <> tag_of KeyEvents)
    by (vm_compute; discriminate).
  split; [exact (conj H1 (conj H2 (conj H4 H5))) |].
  exact (C6_wrong_tag_fails_the_parse disk fname me c "ok"%string s1 KeyEvents
           blocks ref H0 H1 H2 H3 H4 H5).
Defined.

(* ------------------------------------------------------------------ *)
(** * Part 6. Further properties of the converter                       *)
(* ------------------------------------------------------------------ *)

(** ** The basic readers *)

(** [cstring] and [cstring_span] split a byte string at its first NUL. *)
Lemma cstring_split (b : bytes) :
  exists tail,
    b = cstring b ++ tail /\
    Forall (fun x => is_nul x = false) (cstring b) /\
    (tail = [] \/ exists x t, tail = x :: t /\ is_nul x = true) /\
    cstring_span b =
      (List.length (cstring b) + match tail with [] => 0 | _ => 1 end)%nat.
Proof.
  induction b as [| x b IH].
  - exists []. cbn. auto.
  - cbn [cstring cstring_span]. destruct (is_nul x) eqn:Ex.
    + exists (x :: b). cbn. repeat split; auto. right. eauto.
    + destruct IH as (tail & Hb & Hall & Ht & Hs). exists tail.
      split; [cbn; f_equal; exact Hb |].
      split; [constructor; assumption |].
      split; [exact Ht |]. cbn [List.length]. rewrite Hs. reflexivity.
Qed.

(** X1. [_get_string] returns the bytes between the cursor and the first NUL
    byte after it, decoded as UTF-8, and leaves the cursor just behind that
    NUL.  When no NUL follows, it returns everything up to the end of the
    file without an error and leaves the cursor at the end.  Neither the
    converter nor the file content changes. *)
Theorem X1_get_string_stops_at_first_nul (s : State) :
  0 <= pos_of s ->
  exists str tail,
    drop_Z (pos_of s) (file_of s) = str ++ tail /\
    Forall (fun x => is_nul x = false) str /\
    (tail = [] \/ exists x t, tail = x :: t /\ is_nul x = true) /\
    fst (_get_string s) =
      match decode_utf8 str with inl e => Raise e | inr t => Ret t end /\
    self (snd (_get_string s)) = self s /\
    file_of (snd (_get_string s)) = file_of s /\
    pos_of (snd (_get_string s)) =
      pos_of s + Z.of_nat (List.length str) + match tail with [] => 0 | _ => 1 end.
Proof.
  intros Hp. destruct (get_string_eq s Hp) as (h & E & Hc & Ho). cbv zeta in E, Ho.
  destruct (cstring_split (drop_Z (pos_of s) (file_of s))) as (tail & Hb & Hall & Ht & Hs).
  exists (cstring (drop_Z (pos_of s) (file_of s))), tail.
  split; [exact Hb |]. split; [exact Hall |]. split; [exact Ht |].
  rewrite E. cbn [fst snd self].
  change (file_of (mkState (self s) h)) with (content (filehandle h)).
  change (pos_of (mkState (self s) h)) with (offset (filehandle h)).
  split; [reflexivity |]. split; [reflexivity |]. split; [exact Hc |].
  rewrite Ho, Hs. destruct tail; lia.
Qed.

Lemma X1_witness :
  let s := mkState Sample.converter
             (FileHandler_init (mkRawFile (Sample.file2 "KeyEvents") 0)) in
  0 <= pos_of s /\
  exists str tail,
    drop_Z (pos_of s) (file_of s) = str ++ tail /\
    Forall (fun x => is_nul x = false) str /\
    (tail = [] \/ exists x t, tail = x :: t /\ is_nul x = true) /\
    fst (_get_string s) =
      match decode_utf8 str with inl e => Raise e | inr t => Ret t end /\
    self (snd (_get_string s)) = self s /\
    file_of (snd (_get_string s)) = file_of s /\
    pos_of (snd (_get_string s)) =
      pos_of s + Z.of_nat (List.length str) + match tail with [] => 0 | _ => 1 end.
Proof.
  intros s.
  assert (H : 0 <= pos_of s) by (vm_compute; discriminate).
  split; [exact H |]. exact (X1_get_string_stops_at_first_nul s H).
Defined.

Lemma byte_val_lt_256 (x : byte) : byte_val x < 256.
Proof. destruct x; vm_compute; reflexivity. Qed.

Lemma le_uint_bound (b : bytes) : le_uint b < 256 ^ Z.of_nat (List.length b).
Proof.
  induction b as [| x b IH].
  - cbn. lia.
  - cbn [le_uint List.length]. rewrite Nat2Z.inj_succ, Z.pow_succ_r by lia.
    pose proof (byte_val_lt_256 x). pose proof (byte_val_nonneg x).
    pose proof (le_uint_nonneg b). lia.
Qed.

(** X2. The integer readers decode the same [n] bytes: when [_get_uint]
    returns [v], that value lies in [0, 2^(8n)), and [_get_signed] run from
    the same state ends in the same state with the two's complement reading
    of [v], which lies in [-2^(8n-1), 2^(8n-1)). *)
Theorem X2_signed_is_twos_complement_of_unsigned (n v : Z) (s s1 : State) :
  _get_uint n s = (Ret v, s1) ->
  0 <= v < 2 ^ (8 * n) /\
  exists w,
    _get_signed n s = (Ret w, s1) /\
    w = (if v <? 2 ^ (8 * n - 1) then v else v - 2 ^ (8 * n)) /\
    - 2 ^ (8 * n - 1) <= w < 2 ^ (8 * n - 1).
Proof.
  unfold _get_uint, _get_signed. intros H. inv_bind H word s0 Hr. rewrite (bind_ok _ _ _ _ _ Hr).
  destruct ((n =? 2) || (n =? 4) || (n =? 8)) eqn:W; [| discriminate].
  apply width_cases in W.
  apply lift_inv in H. destruct H as [H ->].
  unfold unpack_uint in H. unfold unpack_signed.
  destruct (Z.of_nat (List.length word) =? n) eqn:L; [| discriminate].
  apply Z.eqb_eq in L. inversion H; subst v. clear H.
  pose proof (le_uint_bound word) as Hb. pose proof (le_uint_nonneg word) as Hn.
  rewrite L in Hb.
  assert (E256 : 256 ^ n = 2 ^ (8 * n)).
  { change 256 with (2 ^ 8). rewrite <- Z.pow_mul_r by lia. reflexivity. }
  rewrite E256 in Hb.
  assert (Ehalf : 2 ^ (8 * n) = 2 * 2 ^ (8 * n - 1)).
  { rewrite <- Z.pow_succ_r by lia. f_equal. lia. }
  split; [lia |].
  eexists. split; [reflexivity |]. split; [reflexivity |].
  destruct (Z.ltb_spec (le_uint word) (2 ^ (8 * n - 1))); lia.
Qed.

Lemma X2_witness :
  let s := mkState Sample.converter
             (FileHandler_init (mkRawFile [xfe; xff; x00; x00] 0)) in
  let s1 := snd (_get_uint 2 s) in
  _get_uint 2 s = (Ret 65534, s1) /\
  0 <= 65534 < 2 ^ (8 * 2) /\
  exists w,
    _get_signed 2 s = (Ret w, s1) /\
    w = (if 65534 <? 2 ^ (8 * 2 - 1) then 65534 else 65534 - 2 ^ (8 * 2)) /\
    - 2 ^ (8 * 2 - 1) <= w < 2 ^ (8 * 2 - 1).
Proof.
  intros s s1.
  assert (H : _get_uint 2 s = (Ret 65534, s1)) by (vm_compute; reflexivity).
  split; [exact H |].
  exact (X2_signed_is_twos_complement_of_unsigned 2 65534 s s1 H).
Defined.

(** X3. The integer readers read before they check.  With a width other
    than 2, 4 or 8 they raise ValueError, and with fewer than [n] bytes left
    they raise struct.error; in both cases the bytes that could be read are
    consumed: the handler is left as [read n] leaves it. *)
Theorem X3_integer_readers_fail_after_reading (n : Z) (s : State) :
  (n <> 2 -> n <> 4 -> n <> 8 ->
   let e := ValueError ("Invalid number of bytes " ++ str_int n)%string in
   _get_uint n s = (Raise e, snd (read n s)) /\
   _get_signed n s = (Raise e, snd (read n s))) /\
  (n = 2 \/ n = 4 \/ n = 8 ->
   Z.of_nat (List.length (drop_Z (pos_of s) (file_of s))) < n ->
   _get_uint n s = (Raise (StructError n), snd (read n s)) /\
   _get_signed n s = (Raise (StructError n), snd (read n s)) /\
   pos_of (snd (read n s)) =
     pos_of s + Z.of_nat (List.length (drop_Z (pos_of s) (file_of s)))).
Proof.
  split.
  - intros H2 H4 H8 e. unfold _get_uint, _get_signed, bind.
    destruct (read n s) as [[w | e0] s1] eqn:Hr;
      [| unfold read in Hr; destruct (FileHandler_read n (fh s)); discriminate].
    assert (W : (n =? 2) || (n =? 4) || (n =? 8) = false).
    { apply orb_false_iff. split; [apply orb_false_iff; split |]; now apply Z.eqb_neq. }
    rewrite W. split; reflexivity.
  - intros W L. destruct (read_eq n s) as (h & E & Hc & Ho); [lia |].
    assert (Hlen : bytes_at (file_of s) (pos_of s) n = drop_Z (pos_of s) (file_of s)).
    { unfold bytes_at. apply firstn_all2. lia. }
    unfold _get_uint, _get_signed. rewrite !(bind_ok _ _ _ _ _ E). rewrite E. cbn [snd].
    assert (Wb : (n =? 2) || (n =? 4) || (n =? 8) = true).
    { destruct W as [-> | [-> | ->]]; reflexivity. }
    rewrite Wb. unfold unpack_uint, unpack_signed. rewrite Hlen.
    assert (Ne : (Z.of_nat (List.length (drop_Z (pos_of s) (file_of s))) =? n) = false)
      by (apply Z.eqb_neq; lia).
    rewrite Ne. split; [reflexivity |]. split; [reflexivity |].
    change (pos_of (mkState (self s) h)) with (offset (filehandle h)).
    rewrite Ho, Hlen. reflexivity.
Qed.

Lemma X3_witness :
  let s := mkState Sample.converter (FileHandler_init (mkRawFile [x01; x02; x03] 0)) in
  ((3 <> 2 /\ 3 <> 4 /\ 3 <> 8) /\
   let e := ValueError ("Invalid number of bytes " ++ str_int 3)%string in
   _get_uint 3 s = (Raise e, snd (read 3 s)) /\
   _get_signed 3 s = (Raise e, snd (read 3 s))) /\
  (Z.of_nat (List.length (drop_Z (pos_of s) (file_of s))) < 4 /\
   _get_uint 4 s = (Raise (StructError 4), snd (read 4 s)) /\
   _get_signed 4 s = (Raise (StructError 4), snd (read 4 s)) /\
   pos_of (snd (read 4 s)) =
     pos_of s + Z.of_nat (List.length (drop_Z (pos_of s) (file_of s)))).
Proof.
  intros s.
  assert (H2 : 3 <> 2) by discriminate.
  assert (H4 : 3 <> 4) by discriminate.
  assert (H8 : 3 <> 8) by discriminate.
  assert (L : Z.of_nat (List.length (drop_Z (pos_of s) (file_of s))) < 4)
    by (vm_compute; reflexivity).
  split.
  - split; [exact (conj H2 (conj H4 H8)) |].
    exact (proj1 (X3_integer_readers_fail_after_reading 3 s) H2 H4 H8).
  - split; [exact L |].
    exact (proj2 (X3_integer_readers_fail_after_reading 4 s)
             (or_intror (or_introl eq_refl)) L).
Defined.

(** ** The checksummed reader, continued *)

(** What the handler holds after a sequence of operations, in terms of the
    log of the bytes read since the last rewind. *)
Lemma handler_invariant (ops : list op) :
  forall (h : FileHandler) (log : bytes),
    spaceleft h = bufsize h - Z.of_nat (List.length (buffer h)) ->
    (exists pre, log = pre ++ buffer h /\ crc16 h = crc16_ccitt_false pre) ->
    let h' := fst (fold_left step_logged ops (h, log)) in
    let log' := snd (fold_left step_logged ops (h, log)) in
    bufsize h' = bufsize h /\
    content (filehandle h') = content (filehandle h) /\
    spaceleft h' = bufsize h' - Z.of_nat (List.length (buffer h')) /\
    (exists pre, log' = pre ++ buffer h' /\ crc16 h' = crc16_ccitt_false pre) /\
    (Z.of_nat (List.length (buffer h)) <= bufsize h ->
     Forall (fun o => match o with
                      | OpRead n => 0 <= n <= bufsize h
                      | _ => True
                      end) ops ->
     Z.of_nat (List.length (buffer h')) <= bufsize h).
Proof.
  induction ops as [| o ops IH]; intros h log Hsp (pre & Hlog & Hcrc).
  - cbn. repeat split; eauto.
  - cbn [fold_left].
    assert (Step :
      let h1 := fst (step_logged (h, log) o) in
      let log1 := snd (step_logged (h, log) o) in
      bufsize h1 = bufsize h /\
      content (filehandle h1) = content (filehandle h) /\
      spaceleft h1 = bufsize h1 - Z.of_nat (List.length (buffer h1)) /\
      (exists pre1, log1 = pre1 ++ buffer h1 /\ crc16 h1 = crc16_ccitt_false pre1) /\
      (Z.of_nat (List.length (buffer h)) <= bufsize h ->
       match o with OpRead n => 0 <= n <= bufsize h | _ => True end ->
       Z.of_nat (List.length (buffer h1)) <= bufsize h)).
    { destruct o as [n | p |]; cbn [step_logged].
      - unfold FileHandler_read, raw_read.
        set (buf := if n <? 0 then _ else _).
        cbn [fst snd bufsize content filehandle spaceleft buffer crc16].
        split; [reflexivity |]. split; [reflexivity |].
        destruct (spaceleft h <? Z.of_nat (List.length buf)) eqn:Efl.
        + split; [cbn [app]; lia |]. split.
          * exists log. split; [reflexivity |].
            rewrite Hcrc, Hlog. unfold crc16_ccitt_false. symmetry. apply crc_update_app.
          * intros _ Hn. cbn [app]. unfold buf.
            assert (E : (n <? 0) = false) by (apply Z.ltb_ge; lia). rewrite E.
            rewrite length_firstn. lia.
        + apply Z.ltb_ge in Efl.
          split; [rewrite length_app; lia |]. split.
          * exists pre. split; [rewrite Hlog, app_assoc; reflexivity | exact Hcrc].
          * intros _ _. rewrite length_app. lia.
      - unfold FileHandler_seek.
        destruct (p =? 0) eqn:E0; destruct (p <? 0) eqn:E1;
          cbn [fst snd bufsize content filehandle spaceleft buffer crc16 List.length];
          (split; [reflexivity |]); (split; [reflexivity |]);
          (split; [try lia; exact Hsp |]);
          (split; [first [ exists []; split; reflexivity
                         | exists pre; split; assumption ] |]);
          intros; lia.
      - cbn [fst snd]. repeat split; eauto. }
    cbv zeta in Step. destruct (step_logged (h, log) o) as [h1 log1].
    cbn [fst snd] in Step. destruct Step as (Hb1 & Hc1 & Hs1 & Hpre1 & Hbound1).
    specialize (IH h1 log1 Hs1 Hpre1). cbv zeta in IH.
    destruct IH as (Hb' & Hc' & Hs' & Hpre' & Hbound').
    split; [congruence |]. split; [congruence |]. split; [exact Hs' |].
    split; [exact Hpre' |].
    intros Hle Hops. inversion Hops as [| o' ops' Ho Hrest]; subst.
    rewrite <- Hb1. apply Hbound'.
    + rewrite Hb1. now apply Hbound1.
    + rewrite Hb1. exact Hrest.
Qed.

(** X4. After any sequence of reads, seeks and tells on a fresh handler,
    the space left is 2048 minus the length of the buffer, the buffer holds
    the last bytes read since the last rewind and the running CRC covers
    exactly the bytes read before them, and the file content is untouched.
    When no read asks for more than 2048 bytes (or for the whole file), the
    buffer never holds more than 2048 bytes. *)
Theorem X4_handler_buffer_accounting (ops : list op) (f : RawFile) :
  let h := fst (run_logged ops f) in
  let log := snd (run_logged ops f) in
  content (filehandle h) = content f /\
  spaceleft h = 2048 - Z.of_nat (List.length (buffer h)) /\
  (exists flushed, log = flushed ++ buffer h /\
                   crc16 h = crc16_ccitt_false flushed) /\
  (Forall (fun o => match o with OpRead n => 0 <= n <= 2048 | _ => True end) ops ->
   Z.of_nat (List.length (buffer h)) <= 2048).
Proof.
  intros h log. subst h log. unfold run_logged.
  destruct (handler_invariant ops (FileHandler_init f) []) as (Hb & Hc & Hs & Hpre & Hbound).
  - reflexivity.
  - exists []. split; reflexivity.
  - cbn [FileHandler_init bufsize buffer List.length filehandle content] in *.
    split; [exact Hc |]. split; [etransitivity; [exact Hs | rewrite Hb; reflexivity] |].
    split; [exact Hpre |]. intros Hops. apply Hbound; [lia | exact Hops].
Qed.

Lemma X4_witness :
  let ops := [OpRead 4; OpSeek 2; OpRead 2048; OpTell] in
  let f := mkRawFile (Sample.file1 0) 0 in
  let h := fst (run_logged ops f) in
  Forall (fun o => match o with OpRead n => 0 <= n <= 2048 | _ => True end) ops /\
  Z.of_nat (List.length (buffer h)) <= 2048.
Proof.
  intros ops f h.
  assert (H : Forall (fun o => match o with OpRead n => 0 <= n <= 2048 | _ => True end)
                     ops).
  { repeat constructor; discriminate. }
  split; [exact H |].
  exact (proj2 (proj2 (proj2 (X4_handler_buffer_accounting ops f))) H).
Defined.

(** X5. [digest] folds the buffer into the CRC but does not empty it.  The
    first digest after a sequence of operations is the CRC of the bytes
    read since the last rewind; a second digest right after it is the CRC of
    those bytes followed once more by the buffered ones. *)
Theorem X5_digest_folds_buffer_again (ops : list op) (f : RawFile) :
  let h := fst (run_logged ops f) in
  let log := snd (run_logged ops f) in
  let h1 := snd (FileHandler_digest h) in
  fst (FileHandler_digest h) = crc16_ccitt_false log /\
  buffer h1 = buffer h /\ spaceleft h1 = spaceleft h /\
  filehandle h1 = filehandle h /\
  fst (FileHandler_digest h1) = crc16_ccitt_false (log ++ buffer h).
Proof.
  intros h log h1.
  pose proof (tracks_run_logged ops f) as T. fold h in T. fold log in T.
  unfold tracks in T. subst h1. unfold FileHandler_digest.
  cbn [fst snd buffer spaceleft filehandle crc16].
  split; [exact T |]. repeat (split; [reflexivity |]).
  rewrite T. unfold crc16_ccitt_false. symmetry. apply crc_update_app.
Qed.
(** The CRC register stays within 16 bits. *)
Lemma lxor_16 (a b : Z) :
  0 <= a < 65536 -> 0 <= b < 65536 -> 0 <= Z.lxor a b < 65536.
Proof.
  intros Ha Hb. split; [apply Z.lxor_nonneg; lia |].
  assert (E : Z.lxor a b = Z.lxor a b mod 2 ^ 16).
  { rewrite <- Z.land_ones by lia. apply Z.bits_inj'. intros n Hn.
    rewrite Z.land_spec, Z.lxor_spec.
    destruct (Z.ltb_spec n 16).
    - rewrite Z.ones_spec_low, andb_true_r by lia. reflexivity.
    - rewrite Z.ones_spec_high, andb_false_r by lia.
      rewrite <- (Z.mod_small a (2 ^ 16)), <- (Z.mod_small b (2 ^ 16)) by lia.
      rewrite !Z.mod_pow2_bits_high by lia. reflexivity. }
  rewrite E. apply Z.mod_pos_bound. lia.
Qed.

Lemma shift1_range (c : Z) : 0 <= Crc.shift1 c < 65536.
Proof.
  unfold Crc.shift1.
  assert (L : 0 <= Z.land (Z.shiftl c 1) 65535 < 65536).
  { change 65535 with (Z.ones 16). rewrite Z.land_ones by lia.
    apply Z.mod_pos_bound. lia. }
  destruct (Z.testbit c 15); [| exact L].
  apply lxor_16; [exact L | unfold Crc.poly; lia].
Qed.

Lemma crc_update_range (c : Z) (data : bytes) :
  0 <= c < 65536 -> 0 <= Crc.update c data < 65536.
Proof.
  unfold Crc.update. revert c. induction data as [| x data IH]; intros c Hc.
  - exact Hc.
  - cbn [fold_left]. apply IH. unfold Crc.update_byte. apply shift1_range.
Qed.

(** X6. The digest is a 16-bit value: after any sequence of operations on a
    fresh handler, [digest] returns a number in [0, 65535], so it can be
    compared with the 16-bit checksum stored in the file. *)
Theorem X6_digest_is_16_bit (ops : list op) (f : RawFile) :
  0 <= fst (FileHandler_digest (fst (run_logged ops f))) < 65536.
Proof.
  rewrite (tracks_digest _ _ (tracks_run_logged ops f)).
  unfold crc16_ccitt_false. apply crc_update_range. unfold Crc.init. lia.
Qed.

(** ** What a parse does to the trace data *)

#[local] Instance same_trace_stable : Stable same_trace.
Proof.
  split; unfold same_trace, trace_of.
  - auto.
  - intros a b c [H1 H2] [H3 H4]. split; congruence.
  - intros s h. cbn. auto.
  - intros s f. cbn. auto.
Qed.

#[local] Instance trace_grows_stable : Stable trace_grows.
Proof.
  split; unfold trace_grows, trace_of.
  - intros s. split; [reflexivity |]. exists []. now rewrite app_nil_r.
  - intros a b c [H1 (l1 & E1)] [H2 (l2 & E2)]. split; [congruence |].
    exists (l1 ++ l2). rewrite E2, E1. now rewrite app_assoc.
  - intros s h. cbn. split; [reflexivity |]. exists []. now rewrite app_nil_r.
  - intros s f. cbn. split; [reflexivity |]. exists []. now rewrite app_nil_r.
Qed.

#[local] Instance trace_grows_append : StableAppend trace_grows.
Proof.
  split. intros s line. unfold trace_grows, trace_of. cbn.
  split; [reflexivity |]. now exists [line].
Qed.

Section Preserves.
Context {R : State -> State -> Prop} {HR : Stable R}.

Lemma preserves_ret {A} (a : A) : preserves R (ret a).
Proof. intros s. apply stable_refl. Qed.

Lemma preserves_raise {A} (e : exn) : preserves R (@raise A e).
Proof. intros s. apply stable_refl. Qed.

Lemma preserves_lift {A} (x : exn + A) : preserves R (lift x).
Proof. destruct x; [apply preserves_raise | apply preserves_ret]. Qed.

Lemma preserves_bind {A B} (m : M A) (k : A -> M B) :
  preserves R m -> (forall a, preserves R (k a)) -> preserves R (bind m k).
Proof.
  intros Hm Hk s. unfold bind. specialize (Hm s).
  destruct (m s) as [[a | e] s1]; cbn [snd] in *.
  - eapply stable_trans; [exact Hm | apply Hk].
  - exact Hm.
Qed.

Lemma preserves_read (n : Z) : preserves R (read n).
Proof.
  intros s. unfold read. destruct (FileHandler_read n (fh s)) as [buf h].
  apply stable_handler.
Qed.

Lemma preserves_seek (p : Z) : preserves R (seek p).
Proof.
  intros s. unfold seek. destruct (FileHandler_seek p (fh s)) as [r h].
  apply stable_handler.
Qed.

Lemma preserves_digest : preserves R digest.
Proof. intros s. unfold digest. cbn [FileHandler_digest snd]. apply stable_handler. Qed.

Lemma preserves_get_results : preserves R get_results.
Proof. intros s. apply stable_refl. Qed.

Lemma preserves_get_tracedata : preserves R get_tracedata.
Proof. intros s. apply stable_refl. Qed.

Lemma preserves_file_length : preserves R file_length.
Proof. intros s. apply stable_refl. Qed.

Lemma preserves_modify (f : Results -> Results) : preserves R (modify_results f).
Proof. intros s. apply stable_results. Qed.

Lemma preserves_set_item (k : BlockKind) (key : string) (v : pyval) :
  preserves R (set_item k key v).
Proof. apply preserves_modify. Qed.

Lemma preserves_for_each {A} (l : list A) (body : A -> M unit) :
  (forall x, preserves R (body x)) -> preserves R (for_each l body).
Proof.
  intros Hb. induction l as [| x l IH]; cbn [for_each].
  - apply preserves_ret.
  - apply preserves_bind; [apply Hb | intros _; exact IH].
Qed.

Lemma preserves_lookup_key {A} (key : string) (field : Results -> option A) :
  preserves R (lookup_key key field).
Proof.
  unfold lookup_key. apply preserves_bind; [apply preserves_get_results |].
  intros r. destruct (field r); [apply preserves_ret | apply preserves_raise].
Qed.

Lemma preserves_getitem {V} (key : string) (d : dict V) : preserves R (getitem key d).
Proof.
  unfold getitem. destruct (dict_get key d); [apply preserves_ret | apply preserves_raise].
Qed.

Lemma preserves_get_string_loop (fuel : nat) (mystr byte : bytes) :
  preserves R (get_string_loop fuel mystr byte).
Proof.
  revert mystr byte. induction fuel as [| fuel IH]; intros mystr byte;
    destruct byte as [| c byte]; cbn [get_string_loop]; try apply preserves_ret;
    destruct (is_nul c); try apply preserves_ret.
  apply preserves_bind; [apply preserves_read | intros b; apply IH].
Qed.

Lemma preserves_get_string : preserves R _get_string.
Proof.
  unfold _get_string.
  apply preserves_bind; [apply preserves_read | intros byte].
  apply preserves_bind; [apply preserves_file_length | intros fuel].
  apply preserves_bind; [apply preserves_get_string_loop | intros mystr].
  apply preserves_lift.
Qed.

Lemma preserves_get_uint (n : Z) : preserves R (_get_uint n).
Proof.
  unfold _get_uint. apply preserves_bind; [apply preserves_read | intros w].
  destruct ((n =? 2) || (n =? 4) || (n =? 8)); [apply preserves_lift | apply preserves_raise].
Qed.

Lemma preserves_get_signed (n : Z) : preserves R (_get_signed n).
Proof.
  unfold _get_signed. apply preserves_bind; [apply preserves_read | intros w].
  destruct ((n =? 2) || (n =? 4) || (n =? 8)); [apply preserves_lift | apply preserves_raise].
Qed.

Lemma preserves_read_samples (idx : list Z) : preserves R (read_samples idx).
Proof.
  induction idx as [| i idx IH]; cbn [read_samples]; [apply preserves_ret |].
  apply preserves_bind; [apply preserves_get_uint | intros x].
  apply preserves_bind; [exact IH | intros xs; apply preserves_ret].
Qed.

End Preserves.

(** Decompose a [preserves] goal along the structure of the computation. *)
Ltac preserves_tac :=
  repeat first
    [ apply preserves_ret | apply preserves_raise | apply preserves_lift
    | apply preserves_read | apply preserves_seek | apply preserves_digest
    | apply preserves_get_results | apply preserves_get_tracedata
    | apply preserves_lookup_key | apply preserves_getitem
    | apply preserves_get_string | apply preserves_get_uint
    | apply preserves_get_signed | apply preserves_read_samples
    | apply preserves_set_item | apply preserves_modify
    | apply preserves_for_each; intros ?
    | apply preserves_bind; [| intros ?]
    | match goal with
      | |- preserves _ (if ?b then _ else _) => destruct b
      | |- preserves _ (match ?x with _ => _ end) => destruct x
      end ].

Section PreservesDecoders.
Context {R : State -> State -> Prop} {HR : Stable R}.

Lemma preserves_enter_block (k : BlockKind) : preserves R (enter_block k).
Proof. unfold enter_block, get_block, get_format. preserves_tac. Qed.

Lemma preserves_genparams : preserves R _process_genparams.
Proof.
  unfold _process_genparams, genparams_field, get_format.
  apply preserves_bind; [apply preserves_enter_block | intros r]. preserves_tac.
Qed.

Lemma preserves_supparams : preserves R _process_supparams.
Proof.
  unfold _process_supparams.
  apply preserves_bind; [apply preserves_enter_block | intros r]. preserves_tac.
Qed.

Lemma preserves_fxdparams_field ref field val :
  preserves R (fxdparams_field ref field val).
Proof. unfold fxdparams_field. preserves_tac. Qed.

Lemma preserves_fxdparams_loop ref plist val :
  preserves R (fxdparams_loop ref plist val).
Proof.
  revert val. induction plist as [| f plist IH]; intros val; cbn [fxdparams_loop];
    [apply preserves_ret |].
  apply preserves_bind; [apply preserves_fxdparams_field | intros v; apply IH].
Qed.

Lemma preserves_fxdparams : preserves R _process_fxdparams.
Proof.
  unfold _process_fxdparams, get_format.
  apply preserves_bind; [apply preserves_enter_block | intros r].
  destruct r; [| apply preserves_ret].
  apply preserves_bind; [apply preserves_lookup_key | intros fmt].
  apply preserves_bind; [apply preserves_fxdparams_loop | intros u]. preserves_tac.
Qed.

Lemma preserves_keyevents : preserves R _process_keyevents.
Proof.
  unfold _process_keyevents, keyevents_event, rounded, get_format.
  apply preserves_bind; [apply preserves_enter_block | intros r]. preserves_tac.
Qed.

Lemma preserves_cksum : preserves R _process_cksum.
Proof.
  unfold _process_cksum.
  apply preserves_bind; [apply preserves_enter_block | intros r]. preserves_tac.
Qed.

Lemma preserves_mapblock_loop (idx : list Z) (startpos : Z) :
  preserves R (mapblock_loop idx startpos).
Proof.
  revert startpos. induction idx as [| i idx IH]; intros startpos;
    cbn [mapblock_loop]; [apply preserves_ret |].
  unfold add_block. preserves_tac. apply IH.
Qed.

Lemma preserves_mapblock : preserves R _process_mapblock.
Proof.
  unfold _process_mapblock, mapblock_probe, mapblock_table.
  preserves_tac; apply preserves_mapblock_loop.
Qed.

(** The decoders other than the one of the data points. *)
Lemma preserves_dispatch_other (bname status : string) :
  bname <> "DataPts"%string -> preserves R (dispatch bname status).
Proof.
  intros Hne. unfold dispatch.
  destruct (String.eqb bname "DataPts") eqn:E;
    [apply String.eqb_eq in E; contradiction |].
  repeat match goal with
         | |- preserves _ (if ?b then _ else _) => destruct b
         end;
    auto using preserves_genparams, preserves_supparams, preserves_fxdparams,
               preserves_keyevents, preserves_cksum, preserves_ret.
Qed.

Context {HA : StableAppend R}.

Lemma preserves_append_trace (line : string) : preserves R (append_trace line).
Proof. intros s. apply stable_append. Qed.

Lemma preserves_datapts : preserves R _process_datapts.
Proof.
  unfold _process_datapts.
  apply preserves_bind; [apply preserves_enter_block | intros r].
  preserves_tac. apply preserves_append_trace.
Qed.

Lemma preserves_dispatch (bname status : string) : preserves R (dispatch bname status).
Proof.
  destruct (String.eqb bname "DataPts") eqn:E.
  - unfold dispatch. rewrite E.
    repeat match goal with
           | |- preserves _ (if ?b then _ else _) => destruct b
           end;
      auto using preserves_genparams, preserves_supparams, preserves_fxdparams,
                 preserves_datapts.
  - apply preserves_dispatch_other. now apply String.eqb_neq.
Qed.

Lemma preserves_sorparse_loop (klist : list string) (status : string) :
  preserves R (sorparse_loop klist status).
Proof.
  revert status. induction klist as [| bname klist IH]; intros status;
    cbn [sorparse_loop]; [apply preserves_ret |].
  unfold get_block.
  apply preserves_bind; [preserves_tac | intros ref].
  apply preserves_bind; [apply preserves_dispatch | intros st].
  destruct (String.eqb st "ok"); [apply IH | apply preserves_ret].
Qed.

Lemma preserves_sorparse_body (name : string) : preserves R (sorparse_body name).
Proof.
  unfold sorparse_body.
  apply preserves_bind; [apply preserves_modify | intros u].
  apply preserves_bind; [apply preserves_mapblock | intros st].
  destruct (negb (String.eqb st "ok")); [apply preserves_ret |].
  apply preserves_bind; [apply preserves_lookup_key | intros blocks].
  apply preserves_bind; [apply preserves_sorparse_loop | intros st'].
  preserves_tac.
Qed.

End PreservesDecoders.

(** X7. Only the data points decoder writes trace lines: parsing the map
    block, and decoding any block whose name is not "DataPts", leaves the
    trace data and the converter's file name as they were, whether the
    decoder returns "ok", returns "nok" or raises. *)
Theorem X7_only_datapts_appends_trace_lines :
  (forall s : State, same_trace s (snd (_process_mapblock s))) /\
  (forall (bname status : string) (s : State),
     bname <> "DataPts"%string -> same_trace s (snd (dispatch bname status s))).
Proof.
  split.
  - intros s. apply (preserves_mapblock (R := same_trace)).
  - intros bname status s Hne.
    now apply (preserves_dispatch_other (R := same_trace)).
Qed.

Lemma X7_witness :
  "KeyEvents"%string <> "DataPts"%string /\
  same_trace Sample.before_datapts
    (snd (dispatch "KeyEvents" "ok" Sample.before_datapts)).
Proof.
  assert (H : "KeyEvents"%string <> "DataPts"%string) by discriminate.
  split; [exact H |].
  exact (proj2 X7_only_datapts_appends_trace_lines "KeyEvents"%string "ok"%string
           Sample.before_datapts H).
Defined.

(** X8. A parse only ever appends to the converter's trace data and never
    changes its file name: whatever [sorparse] returns, the trace data of the
    converter afterwards starts with the trace data it had before.  A
    converter used for a second parse therefore keeps the lines of the
    first. *)
Theorem X8_sorparse_only_appends (disk : Disk) (fname : string) (me : SorConverter) :
  let me' := snd (sorparse disk fname me) in
  filename me' = filename me /\
  exists l, tracedata me' = tracedata me ++ l.
Proof.
  unfold sorparse. destruct (disk fname) as [c |].
  - pose proof (preserves_sorparse_body (R := trace_grows) (basename fname)
                  (mkState me (FileHandler_init (mkRawFile c 0)))) as P.
    destruct (sorparse_body (basename fname)
                (mkState me (FileHandler_init (mkRawFile c 0)))) as [[res | e] s];
      exact P.
  - cbn. split; [reflexivity |]. exists []. now rewrite app_nil_r.
Qed.
(** The block loop over a table that lists no data points block. *)
Lemma loop_without_datapts blocks :
  (forall key d, dict_get key blocks = Some d -> b_name d = key) ->
  dict_get "DataPts" blocks = None ->
  forall (klist : list string) (st : string) (s : State),
    r_blocks (results_of s) = Some blocks ->
    same_trace s (snd (sorparse_loop klist st s)).
Proof.
  intros Hnames Hnone klist.
  induction klist as [| bname klist IH]; intros st s Hbl.
  - apply (stable_refl (R := same_trace)).
  - cbn [sorparse_loop].
    destruct (dict_get bname blocks) as [ref |] eqn:Hg.
    + rewrite (bind_ok _ _ _ _ _ (get_block_eq bname s blocks ref Hbl Hg)).
      rewrite (Hnames _ _ Hg).
      assert (Hne : bname <> "DataPts"%string) by (intros ->; congruence).
      pose proof (preserves_dispatch_other (R := same_trace) bname st Hne s) as P.
      pose proof (keeps_dispatch map_view map_view_with_record bname st s) as K.
      destruct (dispatch bname st s) as [[st' | e] s2] eqn:Hd; cbn [snd] in P, K.
      * rewrite (bind_ok _ _ _ _ _ Hd).
        destruct (String.eqb st' "ok"); [| exact P].
        eapply (stable_trans (R := same_trace)); [exact P |].
        apply IH. unfold frame, map_view in K. inversion K as [[Hc Hb Hf]].
        rewrite Hb. exact Hbl.
      * rewrite (bind_raise _ _ _ _ _ Hd). exact P.
    + rewrite (bind_raise _ _ _ _ _ (get_block_none bname s blocks Hbl Hg)).
      apply (stable_refl (R := same_trace)).
Qed.

(** X9. A parse that meets no data points block adds no trace line.  When
    the block table read from the map has no entry "DataPts", the converter's
    trace data after [sorparse] is what it was before; if the status is "ok"
    that same trace data is returned, and [convert_to_csv] on a fresh
    converter reports success and writes a file that holds the header line
    only. *)
Theorem X9_no_datapts_block_no_rows
    (disk : Disk) (fname : string) (me : SorConverter) (c : bytes)
    (st : string) (s1 : State) blocks :
  disk fname = Some c ->
  after_mapblock c fname me = (Ret st, s1) ->
  r_blocks (results_of s1) = Some blocks ->
  dict_get "DataPts" blocks = None ->
  let r := sorparse disk fname me in
  tracedata (snd r) = tracedata me /\
  (status_of (fst r) = "ok"%string ->
   tracedata_in (fst r) = Some (tracedata me) /\
   (fname = filename me -> tracedata me = [] ->
    forall output_file,
      exists out,
        fst (convert_to_csv disk output_file me) =
          (true, Some (out, ("Distance (km),Loss (dB)" ++ LF)%string)))).
Proof.
  intros Hdisk Hmap Hbl Hnone r.
  unfold after_mapblock in Hmap. inv_bind Hmap u0 s0 Hm0.
  pose proof Hmap as Hmap'.
  apply mapblock_ok in Hmap.
  destruct Hmap as (fmt & mb & blocks' & -> & _ & _ & Hbl' & Hfile & Hrows).
  cbv zeta in Hrows. destruct Hrows as (_ & _ & Hall).
  assert (blocks' = blocks) by congruence. subst blocks'.
  assert (Hnames : forall key d, dict_get key blocks = Some d -> b_name d = key).
  { intros key d Hd. destruct (Hall key d Hd) as (j & _ & _ & Hn & _). exact Hn. }
  assert (T0 : trace_of s0 = tracedata me).
  { apply modify_results_inv in Hm0. destruct Hm0 as (_ & _ & Ht). exact Ht. }
  assert (T1 : trace_of s1 = tracedata me).
  { pose proof (preserves_mapblock (R := same_trace) s0) as P.
    rewrite Hmap' in P. destruct P as [P _]. cbn [snd] in P. congruence. }
  pose proof (loop_without_datapts blocks Hnames Hnone (block_order blocks)
                "ok"%string s1 Hbl) as [L _].
  assert (E : exists res s2,
             r = (res, self s2) /\ trace_of s2 = tracedata me /\
             (status_of res = "ok"%string -> tracedata_in res = Some (tracedata me))).
  { unfold r, sorparse. rewrite Hdisk. unfold sorparse_body.
    rewrite (bind_ok _ _ _ _ _ Hm0), (bind_ok _ _ _ _ _ Hmap').
    change (negb ("ok" =? "ok")%string) with false. cbv iota.
    rewrite (bind_ok _ _ _ _ _ (lookup_key_eq "blocks" r_blocks s1 blocks Hbl)).
    destruct (sorparse_loop (block_order blocks) "ok" s1) as [[st' | e] s2] eqn:El;
      cbn [snd] in L.
    - rewrite (bind_ok _ _ _ _ _ El).
      unfold get_results, get_tracedata, bind, ret.
      eexists _, s2. split; [reflexivity |]. split; [congruence |].
      intros _. unfold tracedata_in. cbn [snd]. unfold trace_of in L, T1.
      congruence.
    - rewrite (bind_raise _ _ _ _ _ El).
      eexists _, s2. split; [reflexivity |]. split; [congruence |].
      unfold status_of. cbn [fst].
      change ("Error: " ++ exn_str e)%string
        with (String "E" ("rror: " ++ exn_str e))%string.
      discriminate. }
  destruct E as (res & s2 & Er & Ht & Hok).
  rewrite Er. cbn [fst snd]. split; [exact Ht |].
  intros Hst. split; [exact (Hok Hst) |].
  intros Hf Hempty output_file. unfold convert_to_csv. rewrite <- Hf.
  fold r. rewrite Er.
  destruct res as [[status rs] td]. unfold status_of in Hst. cbn [fst] in Hst.
  specialize (Hok Hst). unfold tracedata_in in Hok. cbn [snd] in Hok.
  subst status td. change (negb ("ok" =? "ok")%string) with false. cbv iota.
  rewrite Hempty. eexists. reflexivity.
Qed.

Lemma X9_witness :
  let c := Sample.sor_file [] [Sample.v1 "SupParams" Sample.supparams] in
  let disk := Sample.disk c in
  let fname := "dir/trace.sor"%string in
  let me := Sample.converter in
  let s1 := snd (after_mapblock c fname me) in
  let blocks := match r_blocks (results_of s1) with Some b => b | None => [] end in
  (after_mapblock c fname me = (Ret "ok"%string, s1) /\
   dict_get "DataPts" blocks = None) /\
  let r := sorparse disk fname me in
  tracedata (snd r) = tracedata me /\
  (status_of (fst r) = "ok"%string ->
   tracedata_in (fst r) = Some (tracedata me) /\
   (fname = filename me -> tracedata me = [] ->
    forall output_file,
      exists out,
        fst (convert_to_csv disk output_file me) =
          (true, Some (out, ("Distance (km),Loss (dB)" ++ LF)%string)))).
Proof.
  intros c disk fname me s1 blocks.
  assert (H0 : disk fname = Some c) by reflexivity.
  assert (H1 : after_mapblock c fname me = (Ret "ok"%string, s1))
    by (vm_compute; reflexivity).
  assert (H2 : r_blocks (results_of s1) = Some blocks) by (vm_compute; reflexivity).
  assert (H3 : dict_get "DataPts" blocks = None) by (vm_compute; reflexivity).
  split; [exact (conj H1 H3) |].
  exact (X9_no_datapts_block_no_rows disk fname me c "ok"%string s1 blocks H0 H1 H2 H3).
Defined.

(** ** The CSV file *)

Lemma str_app_nil_r (s : string) : (s ++ "")%string = s.
Proof. induction s as [| c s IH]; cbn; [reflexivity | now rewrite IH]. Qed.

Lemma str_app_assoc (a b c : string) : ((a ++ b) ++ c)%string = (a ++ (b ++ c))%string.
Proof. induction a as [| x a IH]; cbn; [reflexivity | now rewrite IH]. Qed.

Lemma list_ascii_app (a b : string) :
  list_ascii_of_string (a ++ b) = list_ascii_of_string a ++ list_ascii_of_string b.
Proof. induction a as [| x a IH]; cbn; [reflexivity | now rewrite IH]. Qed.

Lemma spaceless_app (a b : string) :
  spaceless a -> spaceless b -> spaceless (a ++ b)%string.
Proof. unfold spaceless. intros Ha Hb. rewrite list_ascii_app. apply Forall_app. auto. Qed.

Lemma spaceless_repeat (n : nat) (c : ascii) :
  is_space c = false -> spaceless (repeat_char n c).
Proof. intros Hc. unfold spaceless. induction n as [| n IH]; cbn; constructor; auto. Qed.

Lemma spaceless_uint (d : Decimal.uint) : spaceless (NilEmpty.string_of_uint d).
Proof. unfold spaceless. induction d; cbn; constructor; auto. Qed.

Lemma spaceless_str_int (z : Z) : spaceless (str_int z) /\ str_int z <> ""%string.
Proof.
  unfold str_int, NilZero.string_of_int, NilZero.string_of_uint.
  assert (U : forall d, spaceless (match d with
                                   | Decimal.Nil => "0"%string
                                   | _ => NilEmpty.string_of_uint d
                                   end) /\
                        match d with
                        | Decimal.Nil => "0"%string
                        | _ => NilEmpty.string_of_uint d
                        end <> ""%string).
  { intros d. split.
    - destruct d; try apply spaceless_uint. cbn. constructor; auto.
    - destruct d; cbn; discriminate. }
  destruct (Z.to_int z) as [d | d].
  - apply U.
  - split; [| discriminate]. cbn. constructor; [reflexivity | apply U].
Qed.

Lemma app_nonempty_l (a b : string) : a <> ""%string -> (a ++ b)%string <> ""%string.
Proof. destruct a; [contradiction | discriminate]. Qed.

(** ["%.<d>f"] yields one word: no white space, at least one character. *)
Lemma format_f_word (d : nat) (x : float) :
  spaceless (format_f d x) /\ format_f d x <> ""%string.
Proof.
  unfold format_f.
  assert (Sign : forall s : bool, spaceless (if s then "-" else "")%string).
  { intros [|]; cbn; repeat constructor. }
  assert (Zeros : spaceless (match d with
                             | O => ""
                             | S _ => "." ++ repeat_char d "0"
                             end)%string).
  { destruct d; [constructor |].
    apply spaceless_app; [repeat constructor | now apply spaceless_repeat]. }
  destruct (Prim2SF x) as [s | s | | s m e].
  - split.
    + apply spaceless_app; [apply Sign |].
      apply spaceless_app; [repeat constructor | exact Zeros].
    + destruct s; discriminate.
  - destruct s; split; try discriminate; cbn; repeat constructor.
  - split; [cbn; repeat constructor | discriminate].
  - destruct (frac_of m e) as [n dn].
    set (r := round_half_even _ _). set (p := 10 ^ Z.of_nat d).
    destruct (spaceless_str_int (r / p)) as [Hs Hn].
    split.
    + apply spaceless_app; [apply Sign |].
      apply spaceless_app; [exact Hs |].
      destruct d; [constructor |].
      apply spaceless_app; [repeat constructor |].
      unfold zfill. apply spaceless_app; [now apply spaceless_repeat |].
      apply spaceless_str_int.
    + destruct s; cbn [append].
      * discriminate.
      * now apply app_nonempty_l.
Qed.

Lemma tabs_to_commas_app (a b : string) :
  tabs_to_commas (a ++ b) = (tabs_to_commas a ++ tabs_to_commas b)%string.
Proof. induction a as [| x a IH]; cbn; [reflexivity | now rewrite IH]. Qed.

Lemma tabs_to_commas_spaceless (a : string) : spaceless a -> tabs_to_commas a = a.
Proof.
  induction a as [| x a IH]; cbn; intros H; [reflexivity |].
  inversion H as [| ? ? Hx Ha]; subst. rewrite (IH Ha).
  match goal with |- context [if ?b then _ else _] => destruct b eqn:E end;
    [| reflexivity].
  apply Ascii.eqb_eq in E. subst x. discriminate.
Qed.

Lemma lstrip_word (a b : string) :
  spaceless a -> a <> ""%string -> lstrip (a ++ b) = (a ++ b)%string.
Proof.
  destruct a as [| x a]; [contradiction |]. intros H _.
  inversion H as [| ? ? Hx Ha]; subst. cbn. now rewrite Hx.
Qed.

Lemma rstrip_rev_word (pre l : list ascii) :
  Forall (fun c => is_space c = false) l -> l <> [] ->
  rstrip_rev (rev (pre ++ l)) = rev (pre ++ l).
Proof.
  intros H Hne. rewrite rev_app_distr.
  destruct (rev l) as [| x r] eqn:E.
  - apply (f_equal (@rev ascii)) in E. rewrite rev_involutive in E. contradiction.
  - assert (Hx : is_space x = false).
    { rewrite Forall_forall in H. apply H. apply in_rev. rewrite E. now left. }
    cbn. now rewrite Hx.
Qed.

(** What [_write_csv] makes of one trace line. *)
Lemma csv_line (x y : float) :
  tabs_to_commas (strip (trace_line x y)) = (format_f 6 x ++ "," ++ format_f 6 y)%string.
Proof.
  destruct (format_f_word 6 x) as [Hx Hxn]. destruct (format_f_word 6 y) as [Hy Hyn].
  assert (S : strip (trace_line x y) = (format_f 6 x ++ TAB ++ format_f 6 y)%string).
  { unfold strip, trace_line. rewrite lstrip_word by assumption.
    rewrite !list_ascii_app. change (list_ascii_of_string LF) with [ascii_of_nat 10].
    rewrite !app_assoc. rewrite rev_app_distr. cbn [rev app rstrip_rev].
    change (is_space (ascii_of_nat 10)) with true. cbv iota.
    destruct (list_ascii_of_string (format_f 6 y)) as [| c l] eqn:Ey.
    { exfalso. apply Hyn. rewrite <- (string_of_list_ascii_of_string (format_f 6 y)), Ey.
      reflexivity. }
    rewrite <- Ey. rewrite rstrip_rev_word; [| exact Hy | rewrite Ey; discriminate].
    rewrite rev_involutive, <- app_assoc, <- !list_ascii_app.
    apply string_of_list_ascii_of_string. }
  rewrite S, !tabs_to_commas_app.
  rewrite (tabs_to_commas_spaceless _ Hx), (tabs_to_commas_spaceless _ Hy).
  reflexivity.
Qed.

Lemma write_csv_fold (g : string -> string) (td : list string) (init : string) :
  fold_left (fun acc line => acc ++ g line)%string td init =
  (init ++ fold_right (fun line rest => g line ++ rest)%string ""%string td)%string.
Proof.
  revert init. induction td as [| l td IH]; intros init; cbn [fold_left fold_right].
  - now rewrite str_app_nil_r.
  - rewrite IH. now rewrite str_app_assoc.
Qed.

(** The rows written for trace lines made by the data points decoder. *)
Lemma csv_rows (pts : list (float * float)) :
  fold_right (fun line rest => (tabs_to_commas (strip line) ++ LF) ++ rest)%string
             ""%string (map (fun p => trace_line (fst p) (snd p)) pts) =
  fold_right (fun p rest => format_f 6 (fst p) ++ "," ++ format_f 6 (snd p) ++ LF ++ rest)%string
             ""%string pts.
Proof.
  induction pts as [| [x y] pts IH]; cbn [map fold_right fst snd]; [reflexivity |].
  rewrite IH, csv_line, !str_app_assoc. reflexivity.
Qed.

(** X10. The CSV text written for the lines that the data points decoder
    produces: the header line, then for every point one row made of the
    distance and the loss, each with six decimals, separated by a single
    comma and ended by a newline; the rows are in the order of the trace
    data and nothing else is written. *)
Theorem X10_csv_has_one_row_per_trace_line (pts : list (float * float)) :
  _write_csv (map (fun p => trace_line (fst p) (snd p)) pts) =
  ("Distance (km),Loss (dB)" ++ LF ++
   fold_right (fun p rest => format_f 6 (fst p) ++ "," ++ format_f 6 (snd p) ++ LF ++ rest)
              "" pts)%string.
Proof.
  unfold _write_csv.
  rewrite (write_csv_fold (fun line => tabs_to_commas (strip line) ++ LF)%string).
  rewrite str_app_assoc. do 2 f_equal.
  apply csv_rows.
Qed.

(** ** The parameter records *)

Lemma dict_set_fresh {V} (k : string) (v : V) (d : dict V) :
  dict_get k d = None -> dict_set k v d = d ++ [(k, v)].
Proof.
  induction d as [| [k0 v0] d IH]; cbn [dict_get dict_set app]; [reflexivity |].
  destruct (String.eqb k k0); [discriminate |].
  intros H. now rewrite IH.
Qed.

Lemma dict_get_app_none {V} (k : string) (d1 d2 : dict V) :
  dict_get k d1 = None -> dict_get k (d1 ++ d2) = dict_get k d2.
Proof.
  induction d1 as [| [k0 v0] d1 IH]; cbn; [reflexivity |].
  destruct (String.eqb k k0); [discriminate | exact IH].
Qed.

Lemma dict_get_app_some {V} (k : string) (v : V) (d1 d2 : dict V) :
  dict_get k d1 = Some v -> dict_get k (d1 ++ d2) = Some v.
Proof.
  induction d1 as [| [k0 v0] d1 IH]; cbn [dict_get app]; [discriminate |].
  destruct (String.eqb k k0); [auto | exact IH].
Qed.

Lemma dict_get_none_keys {V} (k : string) (d : dict V) :
  dict_get k d = None <-> ~ In k (dict_keys d).
Proof.
  induction d as [| [k0 v0] d IH]; cbn; [tauto |].
  destruct (String.eqb k k0) eqn:E.
  - apply String.eqb_eq in E. subst. split; [discriminate | intros H; exfalso; auto].
  - apply String.eqb_neq in E. rewrite IH. split.
    + intros H [H1 | H1]; [congruence | contradiction].
    + intros H H1. apply H. now right.
Qed.

Lemma xref_of_set_item (k : BlockKind) (key : string) (v : pyval) (s s1 : State) (u : unit) :
  set_item k key v s = (Ret u, s1) ->
  record_of k (results_of s1) = Some (dict_set key v (xref_of k s)) /\
  file_of s1 = file_of s /\ pos_of s1 = pos_of s /\ trace_of s1 = trace_of s.
Proof.
  intros H. apply set_item_inv in H. destruct H as (Hfh & Ht & Hr).
  destruct (fh_file_pos _ _ Hfh) as [Hf Hp].
  rewrite Hr, record_of_with_record. auto.
Qed.

(** The supplier strings, read one after the other. *)
Lemma supparams_loop_inv (fields : list string) :
  forall (s s' : State) (u : unit) (d : dict pyval),
    for_each fields
      (fun field => x <- _get_string ;; set_item SupParams field (VStr x)) s
      = (Ret u, s') ->
    0 <= pos_of s ->
    r_SupParams (results_of s) = Some d ->
    NoDup fields ->
    (forall f, In f fields -> dict_get f d = None) ->
    r_SupParams (results_of s') =
      Some (d ++ combine fields
                   (map VStr (cstrings (List.length fields)
                                       (drop_Z (pos_of s) (file_of s))))) /\
    file_of s' = file_of s.
Proof.
  induction fields as [| f fields IH]; intros s s' u d H Hp Hd Hnd Hfresh.
  - cbn in H. apply ret_inv in H. destruct H as [_ ->].
    cbn. rewrite app_nil_r. auto.
  - cbn [for_each] in H. inv_bind H u1 s2 Hb.
    inv_bind Hb x s1 Hx. apply get_string_inv in Hx; [| exact Hp].
    cbv zeta in Hx. destruct Hx as (Hxv & Hs1 & Hf1 & Hp1).
    destruct (self_results_trace _ _ Hs1) as [Hr1 _].
    apply xref_of_set_item in Hb. destruct Hb as (Hrec & Hf2 & Hp2 & _).
    unfold xref_of in Hrec. cbn [record_of] in Hrec. rewrite Hr1, Hd in Hrec.
    rewrite dict_set_fresh in Hrec by (apply Hfresh; now left).
    inversion_clear Hnd as [| ? ? Hnotin Hnd'].
    apply (IH s2 s' u (d ++ [(f, VStr x)])) in H.
    + destruct H as (Hres & Hfile). split; [| congruence].
      rewrite Hres, <- app_assoc. cbn [app List.length cstrings map combine].
      rewrite Hxv, Hp2, Hf2, Hp1, Hf1, drop_Z_add by exact Hp. reflexivity.
    + rewrite Hp2, Hp1. lia.
    + exact Hrec.
    + exact Hnd'.
    + intros g Hg. rewrite dict_get_app_none by (apply Hfresh; now right).
      cbn. destruct (String.eqb g f) eqn:E; [| reflexivity].
      apply String.eqb_eq in E. subst g. contradiction.
Qed.

(** X11. A successful decode of the supplier block stores exactly the seven
    keys supplier, OTDR, OTDR S/N, module, module S/N, software and other, in
    that order, bound to the seven NUL-terminated strings that follow one
    another from the start of the block (after the tag in format 2). *)
Theorem X11_supparams_are_seven_consecutive_strings (s s' : State) :
  _process_supparams s = (Ret "ok"%string, s') ->
  exists blocks ref fmt,
    r_blocks (results_of s) = Some blocks /\
    dict_get "SupParams" blocks = Some ref /\
    r_format (results_of s) = Some fmt /\
    r_SupParams (results_of s') =
      Some (combine supparams_fields
              (map VStr (cstrings 7 (drop_Z (b_pos ref + header_size fmt SupParams)
                                            (file_of s))))).
Proof.
  unfold _process_supparams. intros H.
  inv_bind H r s1 He. destruct r as [ref0 |];
    [| apply ret_inv in H; destruct H as [H _]; discriminate].
  apply enter_block_inv in He.
  destruct He as (blocks & ref & fmt & Hbl & Hg & Hfmt & Hpos & Hf1 & Ht1 & -> & Hr1 & Hp1 & _).
  inv_bind H u s2 Hl. apply ret_inv in H. destruct H as [_ ->].
  apply (supparams_loop_inv _ _ _ _ []) in Hl.
  - destruct Hl as [Hres _]. exists blocks, ref, fmt.
    repeat (split; [assumption |]).
    rewrite Hres, Hp1, Hf1. reflexivity.
  - rewrite Hp1. unfold header_size. destruct (fmt =? 2); lia.
  - rewrite Hr1. change r_SupParams with (record_of SupParams).
    apply record_of_with_record.
  - unfold supparams_fields.
    repeat (constructor; [cbn; intuition discriminate |]). constructor.
  - reflexivity.
Qed.

Lemma X11_witness :
  let s := snd (_process_genparams (Sample.after_map (Sample.file2 "KeyEvents"))) in
  let s' := snd (_process_supparams s) in
  _process_supparams s = (Ret "ok"%string, s') /\
  exists blocks ref fmt,
    r_blocks (results_of s) = Some blocks /\
    dict_get "SupParams" blocks = Some ref /\
    r_format (results_of s) = Some fmt /\
    r_SupParams (results_of s') =
      Some (combine supparams_fields
              (map VStr (cstrings 7 (drop_Z (b_pos ref + header_size fmt SupParams)
                                            (file_of s))))).
Proof.
  intros s s'.
  assert (H : _process_supparams s = (Ret "ok"%string, s')) by (vm_compute; reflexivity).
  split; [exact H |]. exact (X11_supparams_are_seven_consecutive_strings s s' H).
Defined.

(** A loop that stores one value per element under the element's key. *)
Lemma for_each_set_keys {A} (k : BlockKind) (key : A -> string) (body : A -> M unit) :
  (forall x s s' u, body x s = (Ret u, s') ->
     exists v, record_of k (results_of s') = Some (dict_set (key x) v (xref_of k s))) ->
  forall (l : list A) (s s' : State) (u : unit),
    for_each l body s = (Ret u, s') ->
    NoDup (map key l) ->
    (forall x, In x l -> ~ In (key x) (dict_keys (xref_of k s))) ->
    dict_keys (xref_of k s') = dict_keys (xref_of k s) ++ map key l /\
    (forall name, ~ In name (map key l) ->
       dict_get name (xref_of k s') = dict_get name (xref_of k s)).
Proof.
  intros Hbody. induction l as [| x l IH]; intros s s' u H Hnd Hfresh.
  - cbn in H. apply ret_inv in H. destruct H as [_ ->]. cbn. rewrite app_nil_r. auto.
  - cbn [for_each] in H. inv_bind H u1 s1 Hb.
    destruct (Hbody _ _ _ _ Hb) as (v & Hrec).
    assert (Hx1 : xref_of k s1 = xref_of k s ++ [(key x, v)]).
    { unfold xref_of at 1. rewrite Hrec. apply dict_set_fresh.
      apply dict_get_none_keys. apply Hfresh. now left. }
    cbn [map] in Hnd. inversion_clear Hnd as [| ? ? Hnotin Hnd'].
    apply IH in H; [| exact Hnd' |].
    + destruct H as (Hkeys & Hget). split.
      * rewrite Hkeys, Hx1. unfold dict_keys. rewrite map_app, <- app_assoc. reflexivity.
      * intros name Hname. cbn [map In] in Hname.
        rewrite Hget by tauto.
        rewrite Hx1. destruct (dict_get name (xref_of k s)) as [v0 |] eqn:Eg.
        -- now apply dict_get_app_some.
        -- rewrite dict_get_app_none by exact Eg. cbn.
           destruct (String.eqb name (key x)) eqn:E; [| reflexivity].
           apply String.eqb_eq in E. subst name. tauto.
    + intros y Hy. rewrite Hx1. unfold dict_keys. rewrite map_app. cbn.
      intros Hin. apply in_app_or in Hin. destruct Hin as [Hin | [Heq | []]].
      * apply (Hfresh y); [now right | exact Hin].
      * apply Hnotin. rewrite Heq. now apply in_map.
Qed.

Lemma genparams_field_sets (f : string) (s s' : State) (u : unit) :
  genparams_field f s = (Ret u, s') ->
  exists v, record_of GenParams (results_of s') =
            Some (dict_set f v (xref_of GenParams s)).
Proof.
  unfold genparams_field. intros H.
  match type of H with
  | bind ?m _ _ = _ =>
      assert (K : keeps (fun r => r) m) by keeps_tac
  end.
  inv_bind H xstr s1 Hx.
  specialize (K s). rewrite Hx in K. cbn [snd] in K.
  unfold frame in K. inversion K as [[Hc Hr]].
  apply xref_of_set_item in H. destruct H as (Hrec & _).
  exists (VStr xstr). rewrite Hrec. unfold xref_of. rewrite Hr. reflexivity.
Qed.

(** X12. A successful decode of the general parameters stores the language
    code, the two bytes at the start of the block (after the tag in format
    2), under "language", followed by one entry per field of the format's
    field list, in the order of that list: ten fields in format 1, twelve
    otherwise. *)
Theorem X12_genparams_keys_follow_the_field_list (s s' : State) :
  _process_genparams s = (Ret "ok"%string, s') ->
  exists blocks ref fmt gp,
    r_blocks (results_of s) = Some blocks /\
    dict_get "GenParams" blocks = Some ref /\
    r_format (results_of s) = Some fmt /\
    r_GenParams (results_of s') = Some gp /\
    dict_keys gp = "language"%string :: genparams_fields fmt /\
    List.length (dict_keys gp) = (if fmt =? 1 then 11%nat else 13%nat) /\
    dict_get "language" gp =
      Some (VStr (str_of_bytes
                    (bytes_at (file_of s) (b_pos ref + header_size fmt GenParams) 2))).
Proof.
  unfold _process_genparams. intros H.
  inv_bind H r s1 He. destruct r as [ref0 |];
    [| apply ret_inv in H; destruct H as [H _]; discriminate].
  apply enter_block_inv in He.
  destruct He as (blocks & ref & fmt & Hbl & Hg & Hfmt & Hpos & Hf1 & Ht1 & -> & Hr1 & Hp1 & _).
  inv_bind H raw s2 Hraw. apply read_inv in Hraw; [| lia].
  destruct Hraw as (Hrawv & Hs2 & Hf2 & Hp2).
  destruct (self_results_trace _ _ Hs2) as [Hr2 _].
  inv_bind H lang s3 Hlang. apply lift_inv in Hlang. destruct Hlang as [Hlang ->].
  unfold decode_ascii in Hlang. destruct (ascii_error 0 raw); [discriminate |].
  inversion Hlang as [Hl]. clear Hlang.
  inv_bind H u1 s4 Hset. pose proof (set_item_inv _ _ _ _ _ _ Hset) as (_ & _ & Hr4).
  apply xref_of_set_item in Hset. destruct Hset as (Hrec4 & Hf4 & Hp4 & _).
  inv_bind H fmt' s5 Hfm. apply lookup_key_inv in Hfm. destruct Hfm as [Hfm ->].
  inv_bind H u2 s6 Hloop. apply ret_inv in H. destruct H as [_ ->].
  assert (Hx4 : xref_of GenParams s4 = [("language"%string, VStr lang)]).
  { unfold xref_of at 1. rewrite Hrec4. unfold xref_of.
    rewrite Hr2, Hr1, record_of_with_record. reflexivity. }
  assert (Efmt : fmt' = fmt).
  { rewrite Hr4, with_record_format, Hr2, Hr1, with_record_format in Hfm. congruence. }
  subst fmt'.
  assert (Hnd : NoDup (genparams_fields fmt)).
  { unfold genparams_fields. destruct (fmt =? 1);
      repeat (constructor; [cbn; intuition discriminate |]); constructor. }
  assert (Hfresh : forall f, In f (genparams_fields fmt) ->
                             ~ In f (dict_keys (xref_of GenParams s4))).
  { intros f Hin. rewrite Hx4. cbn. intros [<- | []].
    unfold genparams_fields in Hin. destruct (fmt =? 1); cbn in Hin;
      intuition discriminate. }
  destruct (for_each_set_keys GenParams (fun f => f) genparams_field
              genparams_field_sets _ _ _ _ Hloop) as (Hkeys & Hget);
    [now rewrite map_id | exact Hfresh |].
  rewrite map_id in Hkeys, Hget.
  exists blocks, ref, fmt, (xref_of GenParams s6).
  repeat (split; [assumption |]).
  assert (Hrec : r_GenParams (results_of s6) = Some (xref_of GenParams s6)).
  { unfold xref_of. cbn [record_of].
    destruct (r_GenParams (results_of s6)) as [d |] eqn:Ed; [reflexivity |].
    exfalso. rewrite Hx4 in Hkeys. unfold xref_of in Hkeys. cbn [record_of] in Hkeys.
    rewrite Ed in Hkeys. discriminate. }
  split; [exact Hrec |].
  rewrite Hkeys, Hx4. split; [reflexivity |]. split.
  - cbn [app List.length]. unfold genparams_fields. destruct (fmt =? 1); reflexivity.
  - rewrite Hget, Hx4.
    + cbn. rewrite <- Hl, Hrawv, Hf1, Hp1. reflexivity.
    + intros Hin. unfold genparams_fields in Hin. destruct (fmt =? 1); cbn in Hin;
        intuition discriminate.
Qed.

Lemma X12_witness :
  let s := Sample.after_map (Sample.file2 "KeyEvents") in
  let s' := snd (_process_genparams s) in
  _process_genparams s = (Ret "ok"%string, s') /\
  exists blocks ref fmt gp,
    r_blocks (results_of s) = Some blocks /\
    dict_get "GenParams" blocks = Some ref /\
    r_format (results_of s) = Some fmt /\
    r_GenParams (results_of s') = Some gp /\
    dict_keys gp = "language"%string :: genparams_fields fmt /\
    List.length (dict_keys gp) = (if fmt =? 1 then 11%nat else 13%nat) /\
    dict_get "language" gp =
      Some (VStr (str_of_bytes
                    (bytes_at (file_of s) (b_pos ref + header_size fmt GenParams) 2))).
Proof.
  intros s s'.
  assert (H : _process_genparams s = (Ret "ok"%string, s')) by (vm_compute; reflexivity).
  split; [exact H |]. exact (X12_genparams_keys_follow_the_field_list s s' H).
Defined.

(** ** The fixed parameters *)

(** Whatever its type, a field of the table changes nothing but its own
    entry of the record. *)
Lemma fxd_field_sets ref (f : Field) (val val' : pyval) (s s1 : State) :
  fxdparams_field ref f val s = (Ret val', s1) ->
  0 <= b_pos ref + f_pos f /\
  file_of s1 = file_of s /\
  exists text,
    record_of FxdParams (results_of s1) =
      Some (dict_set (f_name f) (VStr text) (xref_of FxdParams s)) /\
    (f_type f = "v"%string ->
     uint_field_text f (uint_at (file_of s) (b_pos ref + f_pos f) (f_size f)) = inr text).
Proof.
  unfold fxdparams_field. intros H.
  inv_bind H q s2 Hseek. apply seek_inv in Hseek.
  destruct Hseek as (Hpos & Hs2 & Hf2 & Hp2).
  destruct (self_results_trace _ _ Hs2) as [Hr2 _].
  match type of H with
  | bind ?m _ _ = _ => assert (K : keeps (fun r => r) m) by keeps_tac
  end.
  inv_bind H vx s3 Hvx.
  specialize (K s2). rewrite Hvx in K. cbn [snd] in K.
  unfold frame in K. inversion K as [[Hf3 Hr3]]. clear K.
  destruct vx as [val1 xstr].
  match type of H with
  | bind ?m _ _ = _ => assert (K : keeps (fun r => r) m) by keeps_tac
  end.
  inv_bind H xstr' s4 Hx.
  specialize (K s3). rewrite Hx in K. cbn [snd] in K.
  unfold frame in K. inversion K as [[Hf4 Hr4]]. clear K.
  inv_bind H u s5 Hset. apply ret_inv in H. destruct H as [_ ->].
  apply xref_of_set_item in Hset. destruct Hset as (Hrec & Hf5 & _).
  split; [exact Hpos |]. split; [congruence |].
  eexists. split.
  - rewrite Hrec. unfold xref_of. rewrite Hr4, Hr3, Hr2. reflexivity.
  - intros Ht. rewrite Ht in Hvx.
    change (String.eqb "v" "i") with false in Hvx.
    change (String.eqb "v" "v") with true in Hvx. cbv iota in Hvx.
    inv_bind Hvx v s6 Hv. apply get_uint_inv in Hv.
    destruct Hv as (_ & Hvv & Hs6 & _).
    rewrite Hf2, Hp2 in Hvv. subst v.
    set (v := uint_at (file_of s) (b_pos ref + f_pos f) (f_size f)) in *.
    unfold uint_field_text. fold (uint_field_value f v) in Hvx.
    destruct (truthy_dgt (f_dgt f)).
    + inv_bind Hvx x s7 Hnf. apply lift_inv in Hnf. destruct Hnf as [Hnf ->].
      apply ret_inv in Hvx. destruct Hvx as [Hvx _]. inversion Hvx; subst val1 xstr.
      rewrite Hnf.
      destruct (String.eqb (f_name f) "date/time").
      * inv_bind Hx t s8 Hts. apply lift_inv in Hts. destruct Hts as [Hts ->].
        apply ret_inv in Hx. destruct Hx as [-> _]. rewrite Hts. reflexivity.
      * destruct (String.eqb (f_name f) "unit");
          apply ret_inv in Hx; destruct Hx as [-> _]; reflexivity.
    + apply ret_inv in Hvx. destruct Hvx as [Hvx _]. inversion Hvx; subst val1 xstr.
      destruct (String.eqb (f_name f) "date/time").
      * inv_bind Hx t s8 Hts. apply lift_inv in Hts. destruct Hts as [Hts ->].
        apply ret_inv in Hx. destruct Hx as [-> _]. rewrite Hts. reflexivity.
      * destruct (String.eqb (f_name f) "unit");
          apply ret_inv in Hx; destruct Hx as [-> _]; reflexivity.
Qed.

Lemma dict_get_set_other {V} (k k' : string) (v : V) (d : dict V) :
  k <> k' -> dict_get k (dict_set k' v d) = dict_get k d.
Proof.
  intros Hne. rewrite dict_get_set.
  destruct (String.eqb k k') eqn:E; [apply String.eqb_eq in E; contradiction | reflexivity].
Qed.

Lemma dict_get_set_same {V} (k : string) (v : V) (d : dict V) :
  dict_get k (dict_set k v d) = Some v.
Proof. rewrite dict_get_set, String.eqb_refl. reflexivity. Qed.

(** The field loop: the entries of other names stay, and every field of
    type "v" ends up rendered from the integer at its place in the block. *)
Lemma fxd_loop_inv ref (plist : list Field) :
  forall (val : pyval) (s s' : State) (u : unit),
    fxdparams_loop ref plist val s = (Ret u, s') ->
    file_of s' = file_of s /\
    (forall key, ~ In key (map f_name plist) ->
       dict_get key (xref_of FxdParams s') = dict_get key (xref_of FxdParams s)) /\
    (NoDup (map f_name plist) ->
     forall f, In f plist ->
       0 <= b_pos ref + f_pos f /\
       (f_type f = "v"%string ->
        exists text,
          uint_field_text f (uint_at (file_of s) (b_pos ref + f_pos f) (f_size f))
            = inr text /\
          dict_get (f_name f) (xref_of FxdParams s') = Some (VStr text))).
Proof.
  induction plist as [| g plist IH]; intros val s s' u H.
  - cbn in H. apply ret_inv in H. destruct H as [_ ->].
    split; [reflexivity |]. split; [reflexivity |]. intros _ f [].
  - cbn [fxdparams_loop] in H. inv_bind H val1 s1 Hg.
    apply fxd_field_sets in Hg. destruct Hg as (Hpos & Hf1 & text & Hrec & Htext).
    assert (Hx1 : xref_of FxdParams s1 = dict_set (f_name g) (VStr text) (xref_of FxdParams s)).
    { unfold xref_of at 1. now rewrite Hrec. }
    apply IH in H. destruct H as (Hf' & Hother & Hfields).
    split; [congruence |]. split.
    + intros key Hkey. cbn [map In] in Hkey.
      rewrite Hother by tauto. rewrite Hx1. apply dict_get_set_other.
      intros ->. tauto.
    + intros Hnd f Hin. cbn [map] in Hnd. inversion_clear Hnd as [| ? ? Hnotin Hnd'].
      destruct Hin as [<- | Hin].
      * split; [exact Hpos |]. intros Ht. exists text. split; [now apply Htext |].
        rewrite Hother by exact Hnotin. rewrite Hx1. apply dict_get_set_same.
      * rewrite <- Hf1. now apply Hfields.
Qed.

Lemma fxdparams_names_nodup (fmt : Z) : NoDup (map f_name (fxdparams_plist fmt)).
Proof.
  unfold fxdparams_plist. destruct (fmt =? 1); cbn [map f_name];
    repeat (constructor; [cbn; intuition discriminate |]); constructor.
Qed.

(** A successful run of the fixed parameters decoder: the record after the
    field loop, and the two derived entries added to it. *)
Lemma fxdparams_ok (s s' : State) :
  _process_fxdparams s = (Ret "ok"%string, s') ->
  exists blocks ref fmt fxd0 index ior spacing word ss dx ndp n,
    r_blocks (results_of s) = Some blocks /\
    dict_get "FxdParams" blocks = Some ref /\
    r_format (results_of s) = Some fmt /\
    (fmt = 2 ->
     bytes_at (file_of s) (b_pos ref) (header_size 2 FxdParams) = tag_of FxdParams) /\
    (forall f, In f (fxdparams_plist fmt) ->
       0 <= b_pos ref + f_pos f /\
       (f_type f = "v"%string ->
        exists text,
          uint_field_text f (uint_at (file_of s) (b_pos ref + f_pos f) (f_size f))
            = inr text /\
          dict_get (f_name f) fxd0 = Some (VStr text))) /\
    dict_get "index" fxd0 = Some index /\ to_float index = inr ior /\
    dict_get "sample spacing" fxd0 = Some (VStr spacing) /\
    first_word spacing = inr word /\ to_float (VStr word) = inr ss /\
    py_div (PrimFloat.mul ss SOL) ior = inr dx /\
    dict_get "num data points" fxd0 = Some ndp /\ to_int ndp = inr n /\
    r_FxdParams (results_of s') =
      Some (dict_set "range" (VFloat (PrimFloat.mul dx (z2f n)))
              (dict_set "resolution" (VFloat (PrimFloat.mul dx 1000)) fxd0)).
Proof.
  unfold _process_fxdparams. intros H.
  inv_bind H r s1 He. destruct r as [ref0 |];
    [| apply ret_inv in H; destruct H as [H _]; discriminate].
  apply enter_block_inv in He.
  destruct He as (blocks & ref & fmt & Hbl & Hg & Hfmt & Hpos & Hf1 & Ht1 & -> & Hr1 & Hp1 & Htag).
  inv_bind H fmt' s2 Hfm. apply lookup_key_inv in Hfm. destruct Hfm as [Hfm ->].
  assert (fmt' = fmt) by (rewrite Hr1, with_record_format in Hfm; congruence). subst fmt'.
  inv_bind H u1 s3 Hloop. apply fxd_loop_inv in Hloop.
  destruct Hloop as (Hf3 & _ & Hfields). specialize (Hfields (fxdparams_names_nodup fmt)).
  inv_bind H xref s4 Hx. apply lookup_key_inv in Hx. destruct Hx as [Hx ->].
  inv_bind H index s5 Hi. apply getitem_inv in Hi. destruct Hi as [Hi ->].
  inv_bind H ior s6 Hior. apply lift_inv in Hior. destruct Hior as [Hior ->].
  inv_bind H spacing s7 Hsp. apply getitem_inv in Hsp. destruct Hsp as [Hsp ->].
  inv_bind H spacing_s s8 Hss. apply lift_inv in Hss. destruct Hss as [Hss ->].
  inv_bind H word s9 Hw. apply lift_inv in Hw. destruct Hw as [Hw ->].
  inv_bind H ss s10 Hfl. apply lift_inv in Hfl. destruct Hfl as [Hfl ->].
  inv_bind H dx s11 Hdx. apply lift_inv in Hdx. destruct Hdx as [Hdx ->].
  inv_bind H u2 s12 Hs1. pose proof (xref_of_set_item _ _ _ _ _ _ Hs1) as (Hrec12 & _).
  inv_bind H ndp s13 Hn. apply getitem_inv in Hn. destruct Hn as [Hn ->].
  inv_bind H n s14 Hni. apply lift_inv in Hni. destruct Hni as [Hni ->].
  inv_bind H u3 s15 Hs2. pose proof (xref_of_set_item _ _ _ _ _ _ Hs2) as (Hrec15 & _).
  apply ret_inv in H. destruct H as [_ ->].
  assert (Hx3 : xref_of FxdParams s3 = xref).
  { unfold xref_of. cbn [record_of]. now rewrite Hx. }
  destruct spacing as [| | sp | |]; try discriminate.
  inversion Hss; subst spacing_s.
  exists blocks, ref, fmt, xref, index, ior, sp, word, ss, dx, ndp, n.
  repeat (split; [assumption |]).
  split.
  { intros f Hin. destruct (Hfields f Hin) as [Hp Hv]. split; [exact Hp |].
    intros Ht. destruct (Hv Ht) as (text & E1 & E2). exists text.
    rewrite <- Hf1, <- Hx3. auto. }
  repeat (split; [assumption |]).
  change r_FxdParams with (record_of FxdParams).
  rewrite Hrec15. unfold xref_of at 1. rewrite Hrec12, Hx3. reflexivity.
Qed.

Lemma fxdparams_no_resolution (fmt : Z) (f : Field) :
  In f (fxdparams_plist fmt) -> f_name f <> "resolution"%string.
Proof.
  intros Hin Heq. apply (in_map f_name) in Hin. rewrite Heq in Hin.
  unfold fxdparams_plist in Hin. destruct (fmt =? 1); cbn in Hin; intuition discriminate.
Qed.

(** X13. The fixed parameters are read at fixed places counted from the
    start of the block as the map gives it: after a successful decode, every
    field of type "v" of the format's table (other than "range", which is
    overwritten) holds the text made from the unsigned integer of the
    field's size found at block position + field position.  The tag that
    opens the block in format 2 is not skipped in that count. *)
Theorem X13_fxdparams_fields_sit_at_block_offsets (s s' : State) :
  _process_fxdparams s = (Ret "ok"%string, s') ->
  exists blocks ref fmt fxd,
    r_blocks (results_of s) = Some blocks /\
    dict_get "FxdParams" blocks = Some ref /\
    r_format (results_of s) = Some fmt /\
    r_FxdParams (results_of s') = Some fxd /\
    forall f, In f (fxdparams_plist fmt) ->
      f_type f = "v"%string -> f_name f <> "range"%string ->
      exists text,
        uint_field_text f (uint_at (file_of s) (b_pos ref + f_pos f) (f_size f))
          = inr text /\
        dict_get (f_name f) fxd = Some (VStr text).
Proof.
  intros H. apply fxdparams_ok in H.
  destruct H as (blocks & ref & fmt & fxd0 & index & ior & spacing & word & ss & dx &
                 ndp & n & Hbl & Hg & Hfmt & _ & Hfields & _ & _ & _ & _ & _ & _ & _ & _ & Hres).
  eexists blocks, ref, fmt, _. repeat (split; [eassumption |]).
  intros f Hin Ht Hne. destruct (Hfields f Hin) as [_ Hv].
  destruct (Hv Ht) as (text & E1 & E2). exists text. split; [exact E1 |].
  rewrite !dict_get_set_other; [exact E2 | | exact Hne].
  now apply (fxdparams_no_resolution fmt).
Qed.

Lemma X13_witness :
  let s := snd (_process_supparams
                  (snd (_process_genparams (Sample.after_map (Sample.file1 0))))) in
  let s' := snd (_process_fxdparams s) in
  _process_fxdparams s = (Ret "ok"%string, s') /\
  exists blocks ref fmt fxd,
    r_blocks (results_of s) = Some blocks /\
    dict_get "FxdParams" blocks = Some ref /\
    r_format (results_of s) = Some fmt /\
    r_FxdParams (results_of s') = Some fxd /\
    forall f, In f (fxdparams_plist fmt) ->
      f_type f = "v"%string -> f_name f <> "range"%string ->
      exists text,
        uint_field_text f (uint_at (file_of s) (b_pos ref + f_pos f) (f_size f))
          = inr text /\
        dict_get (f_name f) fxd = Some (VStr text).
Proof.
  intros s s'.
  assert (H : _process_fxdparams s = (Ret "ok"%string, s')) by (vm_compute; reflexivity).
  split; [exact H |]. exact (X13_fxdparams_fields_sit_at_block_offsets s s' H).
Defined.

(** A field inside a stretch of the file whose bytes are known. *)
Lemma bytes_at_inside (c : bytes) (p m : Z) (a n : nat) (t : bytes) :
  0 <= p -> bytes_at c p m = t -> (a + n <= Z.to_nat m)%nat ->
  bytes_at c (p + Z.of_nat a) (Z.of_nat n) = firstn n (skipn a t).
Proof.
  intros Hp <- Hle. unfold bytes_at.
  rewrite drop_Z_add by exact Hp. rewrite Nat2Z.id.
  rewrite skipn_firstn_comm, firstn_firstn. f_equal. lia.
Qed.

(** X14. In format 2 the first fields of the table fall on the tag
    "FxdParams\0" itself: whatever the block holds, a successful decode
    reports the date and time 2012-09-27 16:01:10 (the bytes "FxdP" read as
    a timestamp) and the wavelength 2800.1 nm (the bytes "am"). *)
Theorem X14_format2_fields_are_read_from_the_tag (s s' : State) :
  _process_fxdparams s = (Ret "ok"%string, s') ->
  r_format (results_of s) = Some 2 ->
  exists fxd,
    r_FxdParams (results_of s') = Some fxd /\
    dict_get "date/time" fxd = Some (VStr "2012-09-27 16:01:10") /\
    dict_get "wavelength" fxd = Some (VStr "2800.1 nm").
Proof.
  intros H Hf2. apply fxdparams_ok in H.
  destruct H as (blocks & ref & fmt & fxd0 & index & ior & spacing & word & ss & dx &
                 ndp & n & Hbl & Hg & Hfmt & Htag & Hfields & _ & _ & _ & _ & _ & _ & _ & _ & Hres).
  assert (fmt = 2) by congruence. subst fmt. specialize (Htag eq_refl).
  eexists. split; [exact Hres |].
  rewrite !dict_get_set_other by discriminate.
  destruct (Hfields (mkField "date/time" 0 4 "v" None None "")) as [Hpos Hdt];
    [cbn; auto |].
  cbn [f_pos] in Hpos.
  destruct (Hfields (mkField "wavelength" 6 2 "v" (Some 0.1%float) (Some 1%nat) "nm"))
    as [_ Hwl]; [cbn; auto |].
  destruct (Hdt eq_refl) as (t1 & E1 & G1). destruct (Hwl eq_refl) as (t2 & E2 & G2).
  cbn [f_name f_pos f_size] in E1, E2, G1, G2.
  assert (U1 : uint_at (file_of s) (b_pos ref + 0) 4 = 1348761670).
  { unfold uint_at.
    pose proof (bytes_at_inside (file_of s) (b_pos ref) _ 0 4 _ ltac:(lia) Htag
                  ltac:(cbn; lia)) as B.
    change (Z.of_nat 0) with 0 in B. change (Z.of_nat 4) with 4 in B.
    rewrite B. reflexivity. }
  assert (U2 : uint_at (file_of s) (b_pos ref + 6) 2 = 28001).
  { unfold uint_at.
    pose proof (bytes_at_inside (file_of s) (b_pos ref) _ 6 2 _ ltac:(lia) Htag
                  ltac:(cbn; lia)) as B.
    change (Z.of_nat 6) with 6 in B. change (Z.of_nat 2) with 2 in B.
    rewrite B. reflexivity. }
  rewrite U1 in E1. rewrite U2 in E2.
  vm_compute in E1. vm_compute in E2.
  inversion E1; subst t1. inversion E2; subst t2. auto.
Qed.

Lemma X14_witness :
  let s := snd (_process_supparams
                  (snd (_process_genparams
                          (Sample.after_map (Sample.file2 "KeyEvents"))))) in
  let s' := snd (_process_fxdparams s) in
  (_process_fxdparams s = (Ret "ok"%string, s') /\
   r_format (results_of s) = Some 2) /\
  exists fxd,
    r_FxdParams (results_of s') = Some fxd /\
    dict_get "date/time" fxd = Some (VStr "2012-09-27 16:01:10") /\
    dict_get "wavelength" fxd = Some (VStr "2800.1 nm").
Proof.
  intros s s'.
  assert (H : _process_fxdparams s = (Ret "ok"%string, s')) by (vm_compute; reflexivity).
  assert (H2 : r_format (results_of s) = Some 2) by (vm_compute; reflexivity).
  split; [exact (conj H H2) |].
  exact (X14_format2_fields_are_read_from_the_tag s s' H H2).
Defined.

(** [int(str(n))] gives [n] back. *)
Lemma digits_val_uint_acc (d : Decimal.uint) :
  forall acc : positive,
    digits_val (Z.pos acc) (NilEmpty.string_of_uint d) = Some (Z.pos (Pos.of_uint_acc d acc)).
Proof.
  induction d; intros acc; cbn [NilEmpty.string_of_uint digits_val Pos.of_uint_acc];
    try reflexivity;
    match goal with
    | |- match digit_val ?c with _ => _ end = _ =>
        let v := eval vm_compute in (digit_val c) in
        change (digit_val c) with v; cbv beta iota
    end;
    rewrite <- IHd; f_equal; lia.
Qed.

Lemma digits_val_uint (d : Decimal.uint) :
  digits_val 0 (NilEmpty.string_of_uint d) = Some (Z.of_N (Pos.of_uint d)).
Proof.
  induction d; cbn [NilEmpty.string_of_uint digits_val Pos.of_uint];
    try reflexivity;
    match goal with
    | |- match digit_val ?c with _ => _ end = _ =>
        let v := eval vm_compute in (digit_val c) in
        change (digit_val c) with v; cbv beta iota
    end;
    first [ exact IHd | apply (digits_val_uint_acc d) ].
Qed.

Lemma int_of_str_int (z : Z) : 0 <= z -> int_of_str (str_int z) = Some z.
Proof.
  intros Hz. destruct z as [| p | p]; [reflexivity | | lia].
  unfold str_int. cbn [Z.to_int NilZero.string_of_int NilZero.string_of_uint].
  pose proof (digits_val_uint (Pos.to_uint p)) as D.
  rewrite DecimalPos.Unsigned.of_to in D. cbn [Z.of_N] in D.
  destruct (Pos.to_uint p) as [| d | d | d | d | d | d | d | d | d | d] eqn:E;
    [cbn in D; discriminate | ..]; exact D.
Qed.

Lemma text_index (p v : Z) :
  uint_field_text (mkField "index" p 4 "v" (Some 1e-5%float) (Some 6%nat) "") v =
  inr (format_f 6 (PrimFloat.mul (z2f v) 1e-5)).
Proof. reflexivity. Qed.

Lemma text_sample_spacing (p v : Z) :
  uint_field_text (mkField "sample spacing" p 4 "v" (Some 1e-8%float) None "usec") v =
  inr (repr_float (PrimFloat.mul (z2f v) 1e-8) ++ " usec")%string.
Proof. reflexivity. Qed.

Lemma text_num_data_points (p v : Z) :
  uint_field_text (mkField "num data points" p 4 "v" None None "") v = inr (str_int v).
Proof. reflexivity. Qed.

(** X15. The two derived entries of the fixed parameters.  With [index],
    [spacing] and [N] the 32-bit integers at block positions 24, 16 and 20
    (28, 20 and 24 in format 2), a successful decode has parsed the index of
    refraction back from its six-decimal text, found it different from
    zero, parsed the sample spacing back from its text, and stored
    resolution = dx * 1000 and range = dx * N for dx = spacing * SOL /
    index. *)
Theorem X15_resolution_and_range_from_dx (s s' : State) :
  _process_fxdparams s = (Ret "ok"%string, s') ->
  exists blocks ref fmt fxd ior word ss,
    r_blocks (results_of s) = Some blocks /\
    dict_get "FxdParams" blocks = Some ref /\
    r_format (results_of s) = Some fmt /\
    r_FxdParams (results_of s') = Some fxd /\
    let field p1 p2 :=
      uint_at (file_of s) (b_pos ref + (if fmt =? 1 then p1 else p2)) 4 in
    let index := field 24 28 in
    let spacing := field 16 20 in
    let N := field 20 24 in
    float_of_str (format_f 6 (PrimFloat.mul (z2f index) 1e-5)) = Some ior /\
    PrimFloat.eqb ior 0 = false /\
    first_word (repr_float (PrimFloat.mul (z2f spacing) 1e-8) ++ " usec")%string
      = inr word /\
    float_of_str word = Some ss /\
    let dx := PrimFloat.div (PrimFloat.mul ss SOL) ior in
    dict_get "resolution" fxd = Some (VFloat (PrimFloat.mul dx 1000)) /\
    dict_get "range" fxd = Some (VFloat (PrimFloat.mul dx (z2f N))).
Proof.
  intros H. apply fxdparams_ok in H.
  destruct H as (blocks & ref & fmt & fxd0 & index & ior & spacing & word & ss & dx &
                 ndp & n & Hbl & Hg & Hfmt & _ & Hfields & Hi & Hior & Hsp & Hw & Hss &
                 Hdx & Hn & Hni & Hres).
  assert (F : exists p1 p2 p3,
             (if fmt =? 1 then (24, 16, 20) else (28, 20, 24)) = (p1, p2, p3) /\
             In (mkField "index" p1 4 "v" (Some 1e-5%float) (Some 6%nat) "")
                (fxdparams_plist fmt) /\
             In (mkField "sample spacing" p2 4 "v" (Some 1e-8%float) None "usec")
                (fxdparams_plist fmt) /\
             In (mkField "num data points" p3 4 "v" None None "") (fxdparams_plist fmt)).
  { unfold fxdparams_plist. destruct (fmt =? 1); eexists _, _, _;
      (split; [reflexivity |]); cbn; tauto. }
  destruct F as (p1 & p2 & p3 & Ep & In1 & In2 & In3).
  destruct (Hfields _ In1) as [_ H1]. destruct (H1 eq_refl) as (t1 & E1 & G1).
  destruct (Hfields _ In2) as [_ H2]. destruct (H2 eq_refl) as (t2 & E2 & G2).
  destruct (Hfields _ In3) as [_ H3]. destruct (H3 eq_refl) as (t3 & E3 & G3).
  cbn [f_name f_pos f_size] in E1, E2, E3, G1, G2, G3.
  rewrite text_index in E1. rewrite text_sample_spacing in E2.
  rewrite text_num_data_points in E3.
  inversion E1; subst t1. inversion E2; subst t2. inversion E3; subst t3.
  clear E1 E2 E3 H1 H2 H3.
  rewrite G1 in Hi. inversion Hi; subst index. clear Hi.
  rewrite G2 in Hsp. inversion Hsp as [Esp]. clear Hsp.
  rewrite G3 in Hn. inversion Hn; subst ndp. clear Hn.
  cbn [to_float] in Hior, Hss. cbn [to_int] in Hni.
  rewrite int_of_str_int in Hni by apply uint_at_nonneg. inversion Hni; subst n. clear Hni.
  destruct (float_of_str (format_f 6 _)) as [ior' |] eqn:Eior in Hior; [| discriminate].
  inversion Hior; subst ior'. clear Hior.
  destruct (float_of_str word) as [ss' |] eqn:Ess; [| discriminate].
  inversion Hss; subst ss'. clear Hss.
  unfold py_div in Hdx. destruct (PrimFloat.eqb ior 0) eqn:Ez; [discriminate |].
  inversion Hdx; subst dx. clear Hdx.
  eexists blocks, ref, fmt, _, ior, word, ss.
  repeat (split; [eassumption |]).
  assert (P1 : p1 = if fmt =? 1 then 24 else 28) by (destruct (fmt =? 1); congruence).
  assert (P2 : p2 = if fmt =? 1 then 16 else 20) by (destruct (fmt =? 1); congruence).
  assert (P3 : p3 = if fmt =? 1 then 20 else 24) by (destruct (fmt =? 1); congruence).
  subst p1 p2 p3. cbv zeta.
  split; [exact Eior |]. split; [exact Ez |].
  split; [rewrite Esp; exact Hw |]. split; [exact Ess |].
  split.
  - rewrite dict_get_set_other by discriminate. apply dict_get_set_same.
  - apply dict_get_set_same.
Qed.

Lemma X15_witness :
  let s := snd (_process_supparams
                  (snd (_process_genparams (Sample.after_map (Sample.file1 0))))) in
  let s' := snd (_process_fxdparams s) in
  _process_fxdparams s = (Ret "ok"%string, s') /\
  exists blocks ref fmt fxd ior word ss,
    r_blocks (results_of s) = Some blocks /\
    dict_get "FxdParams" blocks = Some ref /\
    r_format (results_of s) = Some fmt /\
    r_FxdParams (results_of s') = Some fxd /\
    let field p1 p2 :=
      uint_at (file_of s) (b_pos ref + (if fmt =? 1 then p1 else p2)) 4 in
    let index := field 24 28 in
    let spacing := field 16 20 in
    let N := field 20 24 in
    float_of_str (format_f 6 (PrimFloat.mul (z2f index) 1e-5)) = Some ior /\
    PrimFloat.eqb ior 0 = false /\
    first_word (repr_float (PrimFloat.mul (z2f spacing) 1e-8) ++ " usec")%string
      = inr word /\
    float_of_str word = Some ss /\
    let dx := PrimFloat.div (PrimFloat.mul ss SOL) ior in
    dict_get "resolution" fxd = Some (VFloat (PrimFloat.mul dx 1000)) /\
    dict_get "range" fxd = Some (VFloat (PrimFloat.mul dx (z2f N))).
Proof.
  intros s s'.
  assert (H : _process_fxdparams s = (Ret "ok"%string, s')) by (vm_compute; reflexivity).
  split; [exact H |]. exact (X15_resolution_and_range_from_dx s s' H).
Defined.

(** ** A data points block without samples *)

Lemma get_signed_eq (n : Z) (s : State) :
  n = 2 \/ n = 4 \/ n = 8 ->
  Z.of_nat (List.length (bytes_at (file_of s) (pos_of s) n)) = n ->
  exists v h, _get_signed n s = (Ret v, mkState (self s) h) /\
              content (filehandle h) = file_of s /\ offset (filehandle h) = pos_of s + n.
Proof.
  intros W L. destruct (read_eq n s) as (h & E & Hc & Ho); [lia |].
  unfold _get_signed. rewrite (bind_ok _ _ _ _ _ E).
  assert (Wb : (n =? 2) || (n =? 4) || (n =? 8) = true).
  { destruct W as [-> | [-> | ->]]; reflexivity. }
  rewrite Wb. unfold unpack_signed. rewrite L, Z.eqb_refl. cbn [lift]. unfold ret.
  eexists _, h. split; [reflexivity |]. split; [exact Hc | lia].
Qed.

Lemma bytes_at_inside_length (c : bytes) (p m : Z) (a n : nat) :
  0 <= p -> List.length (bytes_at c p m) = Z.to_nat m -> (a + n <= Z.to_nat m)%nat ->
  Z.of_nat (List.length (bytes_at c (p + Z.of_nat a) (Z.of_nat n))) = Z.of_nat n.
Proof.
  intros Hp Hlen Hle.
  rewrite (bytes_at_inside c p m a n _ Hp eq_refl Hle).
  rewrite length_firstn, length_skipn, Hlen. lia.
Qed.

(** X16. A data points block that declares no sample cannot be decoded:
    when the block is listed at a valid position, carries its tag in format
    2, has its twelve header bytes and its sample count is 0, the decoder
    raises ValueError (the maximum of an empty list) and leaves the trace
    data as it was. *)
Theorem X16_datapts_without_samples_raises
    (s : State) blocks (ref : BlockDescriptor) (fmt : Z) :
  r_blocks (results_of s) = Some blocks ->
  dict_get "DataPts" blocks = Some ref ->
  r_format (results_of s) = Some fmt ->
  0 <= b_pos ref ->
  (fmt = 2 -> bytes_at (file_of s) (b_pos ref) (header_size 2 DataPts) = tag_of DataPts) ->
  let base := b_pos ref + header_size fmt DataPts in
  List.length (bytes_at (file_of s) base 12) = 12%nat ->
  uint_at (file_of s) base 4 = 0 ->
  exists s',
    _process_datapts s = (Raise (ValueError "max() arg is an empty sequence"), s') /\
    trace_of s' = trace_of s.
Proof.
  intros Hbl Hg Hfmt Hpos Htag base Hlen HN. unfold _process_datapts.
  assert (Hbase : 0 <= base).
  { unfold base, header_size. destruct (fmt =? 2); lia. }
  destruct (enter_block_eq DataPts s blocks ref fmt Hbl Hg Hfmt Hpos Htag)
    as (h1 & E1 & Hc1 & Ho1).
  rewrite (bind_ok _ _ _ _ _ E1). fold base in Ho1.
  erewrite bind_ok; [| reflexivity].
  (* N *)
  match goal with
  | |- context [bind (_get_uint 4) _ ?st] =>
      destruct (get_uint_eq 4 st) as (h2 & E2 & Hc2 & Ho2); [auto | |]
  end.
  { unfold file_of, pos_of. cbn [fh]. rewrite Hc1, Ho1.
    pose proof (bytes_at_inside_length (file_of s) base 12 0 4 Hbase Hlen) as B.
    rewrite Z.add_0_r in B. apply B. cbn. lia. }
  rewrite (bind_ok _ _ _ _ _ E2).
  unfold file_of, pos_of in E2, Hc2, Ho2. cbn [fh self] in E2, Hc2, Ho2.
  erewrite bind_ok; [| reflexivity].
  (* num traces *)
  match goal with
  | |- context [bind (_get_signed 2) _ ?st] =>
      destruct (get_signed_eq 2 st) as (nt & h3 & E3 & Hc3 & Ho3); [auto | |]
  end.
  { unfold file_of, pos_of. cbn [fh]. rewrite Hc2, Ho2, Hc1, Ho1.
    apply (bytes_at_inside_length (file_of s) base 12 4 2 Hbase Hlen). cbn. lia. }
  rewrite (bind_ok _ _ _ _ _ E3).
  unfold file_of, pos_of in Hc3, Ho3. cbn [fh self] in Hc3, Ho3.
  erewrite bind_ok; [| reflexivity].
  (* num data points again *)
  match goal with
  | |- context [bind (_get_uint 4) _ ?st] =>
      destruct (get_uint_eq 4 st) as (h4 & E4 & Hc4 & Ho4); [auto | |]
  end.
  { unfold file_of, pos_of. cbn [fh]. rewrite Hc3, Ho3, Hc2, Ho2, Hc1, Ho1.
    replace (base + 4 + 2) with (base + Z.of_nat 6) by lia.
    apply (bytes_at_inside_length (file_of s) base 12 6 4 Hbase Hlen). cbn. lia. }
  rewrite (bind_ok _ _ _ _ _ E4).
  unfold file_of, pos_of in Hc4, Ho4. cbn [fh self] in Hc4, Ho4.
  (* scaling factor *)
  match goal with
  | |- context [bind (_get_uint 2) _ ?st] =>
      destruct (get_uint_eq 2 st) as (h5 & E5 & Hc5 & Ho5); [auto | |]
  end.
  { unfold file_of, pos_of. cbn [fh]. rewrite Hc4, Ho4, Hc3, Ho3, Hc2, Ho2, Hc1, Ho1.
    replace (base + 4 + 2 + 4) with (base + Z.of_nat 10) by lia.
    apply (bytes_at_inside_length (file_of s) base 12 10 2 Hbase Hlen). cbn. lia. }
  rewrite (bind_ok _ _ _ _ _ E5).
  erewrite bind_ok; [| reflexivity].
  (* the samples: none *)
  unfold file_of, pos_of. cbn [fh self]. rewrite Hc1, Ho1, HN.
  change (range 0) with (@nil Z). cbn [read_samples].
  erewrite bind_ok; [| reflexivity].
  erewrite bind_raise; [| reflexivity].
  eexists. split; reflexivity.
Qed.

Lemma X16_witness :
  let c := Sample.sor_file []
             [Sample.v1 "FxdParams" Sample.fxdparams1;
              Sample.v1 "DataPts" (Sample.datapts [] 1000)] in
  let s := snd (_process_fxdparams (Sample.after_map c)) in
  let blocks := match r_blocks (results_of s) with Some b => b | None => [] end in
  let ref := match dict_get "DataPts" blocks with
             | Some r => r | None => mkBlock "" "" 0 0 0 end in
  let base := b_pos ref + header_size 1 DataPts in
  (dict_get "DataPts" blocks = Some ref /\
   List.length (bytes_at (file_of s) base 12) = 12%nat /\
   uint_at (file_of s) base 4 = 0) /\
  exists s',
    _process_datapts s = (Raise (ValueError "max() arg is an empty sequence"), s') /\
    trace_of s' = trace_of s.
Proof.
  intros c s blocks ref base.
  assert (H1 : r_blocks (results_of s) = Some blocks) by (vm_compute; reflexivity).
  assert (H2 : dict_get "DataPts" blocks = Some ref) by (vm_compute; reflexivity).
  assert (H3 : r_format (results_of s) = Some 1) by (vm_compute; reflexivity).
  assert (H4 : 0 <= b_pos ref) by (vm_compute; discriminate).
  assert (H5 : 1 = 2 ->
               bytes_at (file_of s) (b_pos ref) (header_size 2 DataPts) = tag_of DataPts)
    by (intros H; discriminate H).
  assert (H6 : List.length (bytes_at (file_of s) base 12) = 12%nat)
    by (vm_compute; reflexivity).
  assert (H7 : uint_at (file_of s) base 4 = 0) by (vm_compute; reflexivity).
  split; [exact (conj H2 (conj H6 H7)) |].
  exact (X16_datapts_without_samples_raises s blocks ref 1 H1 H2 H3 H4 H5 H6 H7).
Defined.

(** ** The key events *)

Lemma keeps_results {A} (m : M A) (s s1 : State) (a : A) :
  keeps (fun r : Results => r) m -> m s = (Ret a, s1) -> results_of s1 = results_of s.
Proof.
  intros K H. specialize (K s). rewrite H in K. cbn [snd] in K.
  unfold frame in K. now inversion K.
Qed.

Lemma keyevents_event_sets (factor : float) (j : Z) (s s' : State) (u : unit) :
  keyevents_event factor j s = (Ret u, s') ->
  exists v, record_of KeyEvents (results_of s') =
            Some (dict_set ("event " ++ str_int (j + 1))%string v (xref_of KeyEvents s)).
Proof.
  unfold keyevents_event. intros H.
  inv_bind H event_id s1 H1. apply keeps_results in H1; [| keeps_tac].
  inv_bind H d s2 H2. apply keeps_results in H2; [| keeps_tac].
  inv_bind H sl s3 H3. apply keeps_results in H3; [| keeps_tac].
  inv_bind H sp s4 H4. apply keeps_results in H4; [| keeps_tac].
  inv_bind H rf s5 H5. apply keeps_results in H5; [| keeps_tac].
  inv_bind H raw s6 H6. apply keeps_results in H6; [| keeps_tac].
  inv_bind H xtype s7 H7. apply keeps_results in H7; [| keeps_tac].
  inv_bind H fmt s8 H8. apply keeps_results in H8; [| unfold get_format; keeps_tac].
  inv_bind H u1 s9 H9. apply keeps_results in H9; [| keeps_tac].
  inv_bind H comments s10 H10. apply keeps_results in H10; [| keeps_tac].
  apply xref_of_set_item in H. destruct H as (Hrec & _).
  eexists. rewrite Hrec. unfold xref_of.
  rewrite H10, H9, H8, H7, H6, H5, H4, H3, H2, H1. reflexivity.
Qed.

Lemma NoDup_map_on {A B} (f : A -> B) (l : list A) :
  NoDup l -> (forall x y, In x l -> In y l -> f x = f y -> x = y) -> NoDup (map f l).
Proof.
  induction l as [| a l IH]; intros Hnd Hinj; cbn; [constructor |].
  inversion_clear Hnd as [| ? ? Hnotin Hnd']. constructor.
  - intros Hin. apply in_map_iff in Hin. destruct Hin as (y & Hy & Hin).
    apply Hnotin. rewrite (Hinj a y); [exact Hin | now left | now right | now symmetry].
  - apply IH; [exact Hnd' |]. intros x y Hx Hy. apply Hinj; now right.
Qed.

Lemma range_spec (n j : Z) : In j (range n) -> 0 <= j.
Proof.
  unfold range. intros H. apply in_map_iff in H. destruct H as (k & <- & _). lia.
Qed.

Lemma range_nodup (n : Z) : NoDup (range n).
Proof.
  unfold range. apply NoDup_map_on; [apply seq_NoDup |].
  intros x y _ _ H. lia.
Qed.

Lemma event_keys_nodup (n : Z) :
  NoDup (map (fun j => "event " ++ str_int (j + 1))%string (range n)).
Proof.
  apply NoDup_map_on; [apply range_nodup |].
  intros x y Hx Hy H. apply range_spec in Hx, Hy.
  cbn [append] in H. inversion H as [E].
  assert (Ex : int_of_str (str_int (x + 1)) = Some (x + 1)) by (apply int_of_str_int; lia).
  assert (Ey : int_of_str (str_int (y + 1)) = Some (y + 1)) by (apply int_of_str_int; lia).
  rewrite E in Ex. rewrite Ex in Ey. inversion Ey. lia.
Qed.

(** X17. A successful decode of the key events stores the declared number
    of events, the 16-bit integer at the start of the block (after the tag
    in format 2), under "num events"; then one entry "event 1", "event 2",
    ... for each of them, in that order; then "Summary"; and nothing else. *)
Theorem X17_keyevents_has_one_entry_per_declared_event (s s' : State) :
  _process_keyevents s = (Ret "ok"%string, s') ->
  exists blocks ref fmt ke,
    r_blocks (results_of s) = Some blocks /\
    dict_get "KeyEvents" blocks = Some ref /\
    r_format (results_of s) = Some fmt /\
    r_KeyEvents (results_of s') = Some ke /\
    let nev := uint_at (file_of s) (b_pos ref + header_size fmt KeyEvents) 2 in
    dict_get "num events" ke = Some (VInt nev) /\
    dict_keys ke =
      ("num events"%string ::
       map (fun j => "event " ++ str_int (j + 1))%string (range nev)) ++
      ["Summary"%string].
Proof.
  unfold _process_keyevents. intros H.
  inv_bind H r s1 He. destruct r as [ref0 |];
    [| apply ret_inv in H; destruct H as [H _]; discriminate].
  apply enter_block_inv in He.
  destruct He as (blocks & ref & fmt & Hbl & Hg & Hfmt & Hpos & Hf1 & Ht1 & -> & Hr1 & Hp1 & _).
  inv_bind H nev s2 Hn. apply get_uint_inv in Hn. destruct Hn as (_ & Hnv & Hs2 & _).
  destruct (self_results_trace _ _ Hs2) as [Hr2 _].
  inv_bind H u1 s3 Hset. apply xref_of_set_item in Hset. destruct Hset as (Hrec3 & _).
  assert (Hx3 : xref_of KeyEvents s3 = [("num events"%string, VInt nev)]).
  { unfold xref_of at 1. rewrite Hrec3. unfold xref_of.
    rewrite Hr2, Hr1, record_of_with_record. reflexivity. }
  inv_bind H fxd s4 Hfx. apply lookup_key_inv in Hfx. destruct Hfx as [_ ->].
  inv_bind H index s5 Hix. apply getitem_inv in Hix. destruct Hix as [_ ->].
  inv_bind H ior s6 Hior. apply lift_inv in Hior. destruct Hior as [_ ->].
  inv_bind H factor s7 Hfac. apply lift_inv in Hfac. destruct Hfac as [_ ->].
  inv_bind H u2 s8 Hloop.
  destruct (for_each_set_keys KeyEvents (fun j => "event " ++ str_int (j + 1))%string
              (keyevents_event factor) (keyevents_event_sets factor)
              _ _ _ _ Hloop (event_keys_nodup nev)) as (Hkeys & Hget).
  { intros x _. rewrite Hx3. cbn. intros [E | []]. discriminate E. }
  inv_bind H t s9 H9. apply keeps_results in H9; [| keeps_tac].
  inv_bind H ls s10 H10. apply keeps_results in H10; [| keeps_tac].
  inv_bind H lf s11 H11. apply keeps_results in H11; [| keeps_tac].
  inv_bind H o s12 H12. apply keeps_results in H12; [| keeps_tac].
  inv_bind H os s13 H13. apply keeps_results in H13; [| keeps_tac].
  inv_bind H of_ s14 H14. apply keeps_results in H14; [| keeps_tac].
  inv_bind H v1 s15 H15. apply keeps_results in H15; [| unfold rounded; keeps_tac].
  inv_bind H v2 s16 H16. apply keeps_results in H16; [| unfold rounded; keeps_tac].
  inv_bind H v3 s17 H17. apply keeps_results in H17; [| unfold rounded; keeps_tac].
  inv_bind H v4 s18 H18. apply keeps_results in H18; [| unfold rounded; keeps_tac].
  inv_bind H v5 s19 H19. apply keeps_results in H19; [| unfold rounded; keeps_tac].
  inv_bind H v6 s20 H20. apply keeps_results in H20; [| unfold rounded; keeps_tac].
  inv_bind H u3 s21 Hsum. apply ret_inv in H. destruct H as [_ ->].
  apply xref_of_set_item in Hsum. destruct Hsum as (Hrec21 & _).
  assert (Hx20 : xref_of KeyEvents s20 = xref_of KeyEvents s8).
  { unfold xref_of. rewrite H20, H19, H18, H17, H16, H15, H14, H13, H12, H11, H10, H9.
    reflexivity. }
  rewrite Hx20 in Hrec21. rewrite Hx3 in Hkeys.
  assert (Hfresh : dict_get "Summary" (xref_of KeyEvents s8) = None).
  { apply dict_get_none_keys. rewrite Hkeys. cbn [app In]. intros [E | Hin]; [discriminate E |].
    apply in_map_iff in Hin. destruct Hin as (j & E & _). discriminate E. }
  rewrite dict_set_fresh in Hrec21 by exact Hfresh.
  exists blocks, ref, fmt, (xref_of KeyEvents s8 ++ [("Summary"%string, VDict
            [("total loss"%string, v1); ("ORL"%string, v2); ("loss start"%string, v3);
             ("loss end"%string, v4); ("ORL start"%string, v5);
             ("ORL finish"%string, v6)])]).
  repeat (split; [assumption |]).
  cbv zeta. split.
  - assert (G : dict_get "num events" (xref_of KeyEvents s8) = Some (VInt nev)).
    { rewrite Hget, Hx3; [reflexivity |].
      intros Hin. apply in_map_iff in Hin. destruct Hin as (j & E & _). discriminate E. }
    rewrite (dict_get_app_some _ _ _ _ G), Hnv, Hf1, Hp1. reflexivity.
  - unfold dict_keys in *. rewrite map_app, Hkeys. cbn [map fst app].
    rewrite Hnv, Hf1, Hp1. reflexivity.
Qed.

Lemma X17_witness :
  let s := snd (_process_datapts Sample.before_datapts) in
  let s' := snd (_process_keyevents s) in
  _process_keyevents s = (Ret "ok"%string, s') /\
  exists blocks ref fmt ke,
    r_blocks (results_of s) = Some blocks /\
    dict_get "KeyEvents" blocks = Some ref /\
    r_format (results_of s) = Some fmt /\
    r_KeyEvents (results_of s') = Some ke /\
    let nev := uint_at (file_of s) (b_pos ref + header_size fmt KeyEvents) 2 in
    dict_get "num events" ke = Some (VInt nev) /\
    dict_keys ke =
      ("num events"%string ::
       map (fun j => "event " ++ str_int (j + 1))%string (range nev)) ++
      ["Summary"%string].
Proof.
  intros s s'.
  assert (H : _process_keyevents s = (Ret "ok"%string, s')) by (vm_compute; reflexivity).
  split; [exact H |]. exact (X17_keyevents_has_one_entry_per_declared_event s s' H).
Defined.

(** ** The order in which the blocks are decoded *)

Lemma insert_by_perm {A} (key : A -> Z) (x : A) (l : list A) :
  Permutation (insert_by key x l) (x :: l).
Proof.
  induction l as [| y l IH]; cbn [insert_by]; [reflexivity |].
  destruct (key x <? key y); [reflexivity |].
  rewrite IH. apply perm_swap.
Qed.

Lemma insert_by_sorted {A} (key : A -> Z) (x : A) (l : list A) :
  StronglySorted (fun a b => key a <= key b) l ->
  StronglySorted (fun a b => key a <= key b) (insert_by key x l).
Proof.
  induction l as [| y l IH]; intros Hs; cbn [insert_by].
  - repeat constructor.
  - inversion_clear Hs as [| ? ? Hl Hy].
    destruct (Z.ltb_spec (key x) (key y)) as [Hlt | Hge].
    + constructor; [now constructor |].
      constructor; [lia |].
      rewrite Forall_forall in *. intros z Hz. specialize (Hy z Hz). lia.
    + constructor; [now apply IH |].
      rewrite Forall_forall in *. intros z Hz.
      apply (Permutation_in _ (insert_by_perm key x l)) in Hz.
      destruct Hz as [<- | Hz]; [lia | now apply Hy].
Qed.

Lemma sorted_spec {A} (key : A -> Z) (l : list A) :
  Permutation (sorted key l) l /\
  StronglySorted (fun a b => key a <= key b) (sorted key l).
Proof.
  unfold sorted.
  assert (G : forall acc,
             StronglySorted (fun a b => key a <= key b) acc ->
             Permutation (fold_left (fun acc x => insert_by key x acc) l acc) (acc ++ l) /\
             StronglySorted (fun a b => key a <= key b)
               (fold_left (fun acc x => insert_by key x acc) l acc)).
  { induction l as [| x l IH]; intros acc Hacc; cbn [fold_left].
    - rewrite app_nil_r. split; [reflexivity | exact Hacc].
    - destruct (IH (insert_by key x acc) (insert_by_sorted key x acc Hacc)) as [P S].
      split; [| exact S].
      rewrite P, insert_by_perm. apply Permutation_middle. }
  destruct (G [] (SSorted_nil _)) as [P S]. split; [exact P | exact S].
Qed.

(** X18. The blocks are decoded in the order of their rows in the map's
    table, each listed name once: the list that the block loop of
    [sorparse] runs through is a rearrangement of the names in the block
    dictionary, and along it the order numbers of the blocks never
    decrease. *)
Theorem X18_blocks_are_visited_in_table_order (blocks : dict BlockDescriptor) :
  Permutation (block_order blocks) (dict_keys blocks) /\
  exists visited,
    block_order blocks = map fst visited /\
    (forall k d, In (k, d) visited <-> In (k, d) blocks) /\
    StronglySorted (fun x y => b_order (snd x) <= b_order (snd y)) visited.
Proof.
  destruct (sorted_spec (fun kv : string * BlockDescriptor => b_order (snd kv)) blocks)
    as [P S].
  split.
  - unfold block_order, dict_keys. now apply Permutation_map.
  - exists (sorted (fun kv => b_order (snd kv)) blocks).
    split; [reflexivity |]. split; [| exact S].
    intros k d. split; intros H.
    + now apply (Permutation_in _ P).
    + now apply (Permutation_in _ (Permutation_sym P)).
Qed.

(** ** From the samples to the rows of the CSV file *)

Lemma dict_set_keys_in {V} (x k : string) (v : V) (d : dict V) :
  In x (dict_keys (dict_set k v d)) -> x = k \/ In x (dict_keys d).
Proof.
  induction d as [| [k0 v0] d IH]; cbn [dict_set dict_keys map fst In].
  - intros [H | []]. now left.
  - destruct (String.eqb k k0) eqn:E; cbn [map fst In].
    + intros [H | H]; [now left | right; now right].
    + intros [H | H]; [right; now left |].
      destruct (IH H) as [H1 | H1]; [now left | right; now right].
Qed.

(** A dictionary never holds a key twice. *)
Lemma dict_set_keys_nodup {V} (k : string) (v : V) (d : dict V) :
  NoDup (dict_keys d) -> NoDup (dict_keys (dict_set k v d)).
Proof.
  induction d as [| [k0 v0] d IH]; cbn [dict_set dict_keys map fst]; intros H.
  - repeat constructor. intros [].
  - inversion_clear H as [| ? ? Hnotin Hnd].
    destruct (String.eqb k k0) eqn:E; cbn [map fst].
    + apply String.eqb_eq in E. subst k0. now constructor.
    + apply String.eqb_neq in E. constructor; [| now apply IH].
      intros Hin. apply dict_set_keys_in in Hin. destruct Hin as [-> | Hin]; auto.
Qed.

Lemma mapblock_loop_nodup (idx : list Z) :
  forall (startpos : Z) (s s' : State) (u : unit) b0,
    mapblock_loop idx startpos s = (Ret u, s') ->
    r_blocks (results_of s) = Some b0 -> NoDup (dict_keys b0) ->
    exists b, r_blocks (results_of s') = Some b /\ NoDup (dict_keys b).
Proof.
  induction idx as [| i idx IH]; intros startpos s s' u b0 H Hb Hnd.
  - cbn in H. apply ret_inv in H. destruct H as [_ ->]. eauto.
  - cbn [mapblock_loop] in H.
    inv_bind H bname s1 H1. apply keeps_results in H1; [| keeps_tac].
    inv_bind H v s2 H2. apply keeps_results in H2; [| keeps_tac].
    inv_bind H bsize s3 H3. apply keeps_results in H3; [| keeps_tac].
    inv_bind H u1 s4 Ha. unfold add_block in Ha.
    inv_bind Ha bl s5 Hl. apply lookup_key_inv in Hl. destruct Hl as [Hl ->].
    apply modify_results_inv in Ha. destruct Ha as (_ & Hr4 & _).
    rewrite H3, H2, H1, Hb in Hl. inversion Hl; subst bl.
    eapply IH; [exact H | |].
    + rewrite Hr4. apply with_blocks_fields.
    + now apply dict_set_keys_nodup.
Qed.

Lemma mapblock_nodup (s s' : State) (st : string) b :
  _process_mapblock s = (Ret st, s') ->
  r_blocks (results_of s') = Some b -> NoDup (dict_keys b).
Proof.
  unfold _process_mapblock, mapblock_table. intros H Hb.
  inv_bind H u0 s1 H0. inv_bind H v s2 H2. inv_bind H u1 s3 H3.
  inv_bind H nb s4 H4. inv_bind H n s5 H5. inv_bind H u2 s6 H6.
  inv_bind H u3 s7 H7. apply modify_results_inv in H7. destruct H7 as (_ & Hr7 & _).
  inv_bind H mb s8 H8. apply lookup_key_inv in H8. destruct H8 as [_ ->].
  inv_bind H u4 s9 Hloop. apply ret_inv in H. destruct H as [_ ->].
  destruct (mapblock_loop_nodup _ _ _ _ _ [] Hloop) as (b' & Hb' & Hnd).
  - rewrite Hr7. apply with_blocks_fields.
  - constructor.
  - congruence.
Qed.

(** The block loop over names that are all different: the trace data grows
    by the lines of the data points block if it is among them, and not at
    all otherwise. *)
Lemma loop_trace (c : bytes) blocks (ref : BlockDescriptor) (fmt : Z) :
  (forall key d, dict_get key blocks = Some d -> b_name d = key) ->
  dict_get "DataPts" blocks = Some ref ->
  forall (klist : list string) (st : string) (s s' : State),
    NoDup klist ->
    frame map_view s = (c, (Some blocks, Some fmt)) ->
    sorparse_loop klist st s = (Ret "ok"%string, s') ->
    if in_dec string_dec "DataPts"%string klist then
      exists pts : list (float * float),
        Z.of_nat (List.length pts) = uint_at c (b_pos ref + header_size fmt DataPts) 4 /\
        trace_of s' = trace_of s ++ map (fun p => trace_line (fst p) (snd p)) pts
    else trace_of s' = trace_of s.
Proof.
  intros Hnames Hg klist.
  induction klist as [| bname klist IH]; intros st s s' Hnd Hfr H.
  - cbn in H. apply ret_inv in H. destruct H as [_ ->].
    destruct (in_dec string_dec "DataPts"%string []) as [[] | _]. reflexivity.
  - cbn [sorparse_loop] in H. inv_bind H ref0 s0 Hb.
    apply get_block_inv in Hb. destruct Hb as (blocks' & Hbl' & Hg0 & ->).
    unfold frame, map_view in Hfr. injection Hfr as Hc Hbl Hfm.
    assert (blocks' = blocks) by congruence. subst blocks'.
    rewrite (Hnames _ _ Hg0) in H.
    inv_bind H st' s2 Hd.
    destruct (String.eqb st' "ok") eqn:Eok;
      [| apply ret_inv in H; destruct H as [H _]; subst st'; discriminate].
    apply String.eqb_eq in Eok. subst st'.
    pose proof (keeps_dispatch map_view map_view_with_record bname st s) as K.
    rewrite Hd in K. cbn [snd] in K.
    assert (Hfr2 : frame map_view s2 = (c, (Some blocks, Some fmt))).
    { rewrite K. unfold frame, map_view. now rewrite Hc, Hbl, Hfm. }
    inversion_clear Hnd as [| ? ? Hnotin Hnd'].
    specialize (IH "ok"%string s2 s' Hnd' Hfr2 H).
    destruct (string_dec bname "DataPts") as [-> | Hne].
    + destruct (in_dec string_dec "DataPts"%string ("DataPts"%string :: klist)) as [_ | n];
        [| exfalso; apply n; now left].
      destruct (in_dec string_dec "DataPts"%string klist) as [i | _]; [contradiction |].
      change (dispatch "DataPts" st) with _process_datapts in Hd.
      apply datapts_ok in Hd.
      destruct Hd as (blocks' & ref' & fmt' & fxd & res & resolution & ymax & ymin &
                      Hbl2 & Hg2 & Hfm2 & _ & _ & _ & Hd).
      cbv zeta in Hd. destruct Hd as (_ & _ & Htr).
      assert (blocks' = blocks) by congruence. subst blocks'.
      assert (ref' = ref) by congruence. subst ref'.
      assert (fmt' = fmt) by congruence. subst fmt'.
      rewrite IH, Htr.
      match goal with
      | |- context [map (fun i => trace_line (@?X i) (@?Y i)) ?l] =>
          exists (map (fun i => (X i, Y i)) l)
      end.
      split; [| rewrite map_map; reflexivity].
      rewrite length_map, range_length, Hc. apply Z2Nat.id, uint_at_nonneg.
    + pose proof (preserves_dispatch_other (R := same_trace) bname st Hne s) as P.
      rewrite Hd in P. cbn [snd] in P. destruct P as [P _].
      destruct (in_dec string_dec "DataPts"%string (bname :: klist)) as [i | n];
        destruct (in_dec string_dec "DataPts"%string klist) as [i' | n'].
      * destruct IH as (pts & Hlen & Htr). exists pts. split; [exact Hlen |].
        rewrite Htr, P. reflexivity.
      * exfalso. destruct i as [E | i]; [now apply Hne | contradiction].
      * exfalso. apply n. now right.
      * rewrite IH. exact P.
Qed.

(** X19. From the file to the CSV.  When [convert_to_csv] succeeds on a
    fresh converter and the map lists a data points block, the file written
    holds the header line followed by exactly as many rows as the block
    declares samples, each row being a distance and a loss with six
    decimals separated by a comma. *)
Theorem X19_csv_has_one_row_per_declared_sample
    (disk : Disk) (me : SorConverter) (c : bytes) (st : string) (s1 : State)
    blocks (ref : BlockDescriptor) (fmt : Z) (output_file : option string) :
  disk (filename me) = Some c ->
  tracedata me = [] ->
  after_mapblock c (filename me) me = (Ret st, s1) ->
  r_blocks (results_of s1) = Some blocks ->
  r_format (results_of s1) = Some fmt ->
  dict_get "DataPts" blocks = Some ref ->
  fst (fst (convert_to_csv disk output_file me)) = true ->
  exists (out : string) (pts : list (float * float)),
    fst (convert_to_csv disk output_file me) =
      (true,
       Some (out,
             ("Distance (km),Loss (dB)" ++ LF ++
              fold_right (fun p rest => format_f 6 (fst p) ++ "," ++
                                        format_f 6 (snd p) ++ LF ++ rest)
                         "" pts)%string)) /\
    Z.of_nat (List.length pts) = uint_at c (b_pos ref + header_size fmt DataPts) 4.
Proof.
  intros Hdisk Hempty Hmap Hbl Hfm Hg Hok.
  unfold after_mapblock in Hmap. inv_bind Hmap u0 s0 Hm0.
  pose proof Hmap as Hmap'.
  pose proof (mapblock_nodup _ _ _ _ Hmap Hbl) as Hnd.
  apply mapblock_ok in Hmap.
  destruct Hmap as (fmt' & mb & blocks' & -> & _ & _ & Hbl' & Hfile & Hrows).
  cbv zeta in Hrows. destruct Hrows as (_ & _ & Hall).
  assert (blocks' = blocks) by congruence. subst blocks'.
  assert (Hnames : forall key d, dict_get key blocks = Some d -> b_name d = key).
  { intros key d Hd. destruct (Hall key d Hd) as (j & _ & _ & Hn & _). exact Hn. }
  assert (T1 : trace_of s1 = []).
  { pose proof (preserves_mapblock (R := same_trace) s0) as P.
    rewrite Hmap' in P. destruct P as [P _]. cbn [snd] in P.
    apply modify_results_inv in Hm0. destruct Hm0 as (_ & _ & Ht).
    rewrite P, Ht. exact Hempty. }
  assert (Hc : file_of s1 = c).
  { rewrite Hfile. apply modify_results_inv in Hm0. destruct Hm0 as (Hfh & _).
    unfold file_of. rewrite Hfh. reflexivity. }
  assert (Hfr : frame map_view s1 = (c, (Some blocks, Some fmt))).
  { unfold frame, map_view. now rewrite Hc, Hbl, Hfm. }
  assert (Hkl : NoDup (block_order blocks)).
  { destruct (sorted_spec (fun kv : string * BlockDescriptor => b_order (snd kv)) blocks)
      as [P _].
    unfold block_order. eapply Permutation_NoDup; [| exact Hnd].
    apply Permutation_sym. unfold dict_keys. now apply Permutation_map. }
  pose proof (loop_trace c blocks ref fmt Hnames Hg (block_order blocks) "ok"%string s1)
    as L.
  destruct (in_dec string_dec "DataPts"%string (block_order blocks)) as [_ | n];
    [| exfalso; apply n; eapply block_order_In; exact Hg].
  unfold convert_to_csv in *. unfold sorparse in *. rewrite Hdisk in *.
  unfold sorparse_body in *.
  rewrite (bind_ok _ _ _ _ _ Hm0), (bind_ok _ _ _ _ _ Hmap') in *.
  change (negb ("ok" =? "ok")%string) with false in *. cbv iota in *.
  rewrite (bind_ok _ _ _ _ _ (lookup_key_eq "blocks" r_blocks s1 blocks Hbl)) in *.
  destruct (sorparse_loop (block_order blocks) "ok" s1) as [[st' | e] s2] eqn:El.
  - rewrite (bind_ok _ _ _ _ _ El) in *.
    unfold get_results, get_tracedata, bind, ret in *.
    destruct (String.eqb st' "ok") eqn:Eok; cbn [negb] in *; [| discriminate Hok].
    apply String.eqb_eq in Eok. subst st'.
    destruct (L s2 Hkl Hfr eq_refl) as (pts & Hlen & Htr).
    eexists _, pts. split; [| exact Hlen].
    fold (trace_of s2). rewrite Htr, T1. cbn [app]. unfold _write_csv.
    rewrite (write_csv_fold (fun line => tabs_to_commas (strip line) ++ LF)%string).
    rewrite str_app_assoc, csv_rows. reflexivity.
  - rewrite (bind_raise _ _ _ _ _ El) in *.
    change ("Error: " ++ exn_str e)%string
      with (String "E" ("rror: " ++ exn_str e))%string in Hok.
    discriminate Hok.
Qed.

Lemma X19_witness :
  let c := Sample.file1 0 in
  let disk := Sample.disk c in
  let me := Sample.converter in
  let s1 := snd (after_mapblock c (filename me) me) in
  let blocks := match r_blocks (results_of s1) with Some b => b | None => [] end in
  let ref := match dict_get "DataPts" blocks with
             | Some r => r | None => mkBlock "" "" 0 0 0 end in
  (after_mapblock c (filename me) me = (Ret "ok"%string, s1) /\
   dict_get "DataPts" blocks = Some ref /\
   fst (fst (convert_to_csv disk None me)) = true) /\
  exists (out : string) (pts : list (float * float)),
    fst (convert_to_csv disk None me) =
      (true,
       Some (out,
             ("Distance (km),Loss (dB)" ++ LF ++
              fold_right (fun p rest => format_f 6 (fst p) ++ "," ++
                                        format_f 6 (snd p) ++ LF ++ rest)
                         "" pts)%string)) /\
    Z.of_nat (List.length pts) = uint_at c (b_pos ref + header_size 1 DataPts) 4.
Proof.
  intros c disk me s1 blocks ref.
  assert (H0 : disk (filename me) = Some c) by reflexivity.
  assert (H1 : tracedata me = []) by reflexivity.
  assert (H2 : after_mapblock c (filename me) me = (Ret "ok"%string, s1))
    by (vm_compute; reflexivity).
  assert (H3 : r_blocks (results_of s1) = Some blocks) by (vm_compute; reflexivity).
  assert (H4 : r_format (results_of s1) = Some 1) by (vm_compute; reflexivity).
  assert (H5 : dict_get "DataPts" blocks = Some ref) by (vm_compute; reflexivity).
  assert (H6 : fst (fst (convert_to_csv disk None me)) = true)
    by (vm_compute; reflexivity).
  split; [exact (conj H2 (conj H5 H6)) |].
  exact (X19_csv_has_one_row_per_declared_sample disk me c "ok"%string s1 blocks ref 1
           None H0 H1 H2 H3 H4 H5 H6).
Defined.

(** ** The name of the CSV file *)

Lemma basename_no_slash (p : string) :
  existsb (Ascii.eqb "/"%char) (list_ascii_of_string (basename p)) = false.
Proof.
  induction p as [| c p IH]; [reflexivity |].
  cbn [basename].
  destruct (existsb (Ascii.eqb "/"%char) (list_ascii_of_string p)) eqn:E; [exact IH |].
  destruct (Ascii.eqb c "/"%char) eqn:Ec; [exact E |].
  cbn [list_ascii_of_string existsb]. rewrite Ascii.eqb_sym, Ec. exact E.
Qed.

Lemma substring_no_slash (s : string) :
  existsb (Ascii.eqb "/"%char) (list_ascii_of_string s) = false ->
  forall n m,
    existsb (Ascii.eqb "/"%char) (list_ascii_of_string (String.substring n m s)) = false.
Proof.
  induction s as [| c s IH]; intros H n m.
  - destruct n, m; reflexivity.
  - cbn [list_ascii_of_string existsb] in H. apply orb_false_iff in H.
    destruct H as [Hc Hs].
    destruct n as [| n]; [destruct m as [| m] |]; cbn [String.substring];
      [reflexivity | | now apply IH].
    cbn [list_ascii_of_string existsb]. rewrite Hc. now apply IH.
Qed.

Lemma splitext_root_no_slash (name : string) :
  existsb (Ascii.eqb "/"%char) (list_ascii_of_string name) = false ->
  existsb (Ascii.eqb "/"%char) (list_ascii_of_string (splitext_root name)) = false.
Proof.
  intros H. unfold splitext_root.
  match goal with
  | |- context [match ?x with Some _ => _ | None => _ end] => destruct x as [i |]
  end; [| exact H].
  match goal with
  | |- context [if ?b then _ else _] => destruct b
  end; [exact H | now apply substring_no_slash].
Qed.

(** X20. Without an output name (none, or an empty one) a successful
    conversion writes a file named after the input: the name ends in ".csv"
    and holds no "/", so the file is created in the current directory and
    not beside the input file. *)
Theorem X20_default_csv_name_has_no_directory
    (disk : Disk) (me : SorConverter) (output_file : option string)
    (out text : string) :
  output_file = None \/ output_file = Some ""%string ->
  fst (convert_to_csv disk output_file me) = (true, Some (out, text)) ->
  (exists root, out = (root ++ ".csv")%string) /\
  existsb (Ascii.eqb "/"%char) (list_ascii_of_string out) = false.
Proof.
  intros Hout H. unfold convert_to_csv in H.
  destruct (sorparse disk (filename me) me) as [[[status r] td] me'].
  destruct (negb (String.eqb status "ok")); [discriminate |].
  assert (E : out = (splitext_root (basename (filename me)) ++ ".csv")%string).
  { destruct Hout as [-> | ->]; cbn [fst] in H; inversion H; reflexivity. }
  split; [eexists; exact E |].
  rewrite E, list_ascii_app, existsb_app.
  rewrite splitext_root_no_slash by apply basename_no_slash. reflexivity.
Qed.

Lemma X20_witness :
  let disk := Sample.disk (Sample.file1 0) in
  let r := fst (convert_to_csv disk None Sample.converter) in
  let out := match snd r with Some p => fst p | None => ""%string end in
  let text := match snd r with Some p => snd p | None => ""%string end in
  r = (true, Some (out, text)) /\
  (exists root, out = (root ++ ".csv")%string) /\
  existsb (Ascii.eqb "/"%char) (list_ascii_of_string out) = false.
Proof.
  intros disk r out text.
  assert (H : fst (convert_to_csv disk None Sample.converter) = (true, Some (out, text)))
    by (vm_compute; reflexivity).
  split; [exact H |].
  exact (X20_default_csv_name_has_no_directory disk Sample.converter None out text
           (or_introl eq_refl) H).
Defined.

(** ** What [sorparse] returns *)

(** A decoder that returns says "ok" or "nok". *)
Lemma decoder_status (bname st0 st : string) (s s' : State) :
  dispatch bname st0 s = (Ret st, s') ->
  st = "ok"%string \/ st = "nok"%string \/ st = st0.
Proof.
  unfold dispatch. intros H.
  repeat match type of H with
         | (if ?b then _ else _) _ = _ => destruct b
         end;
    [ unfold _process_genparams in H | unfold _process_supparams in H
    | unfold _process_fxdparams in H | unfold _process_datapts in H
    | unfold _process_keyevents in H | unfold _process_cksum in H
    | apply ret_inv in H; destruct H as [-> _]; auto ];
    apply bind_inv in H; destruct H as ([ref |] & s1 & _ & H); cbv beta zeta in H;
    run_to_end H; auto.
Qed.

Lemma loop_status (klist : list string) :
  forall (st0 st : string) (s s' : State),
    st0 = "ok"%string \/ st0 = "nok"%string ->
    sorparse_loop klist st0 s = (Ret st, s') ->
    st = "ok"%string \/ st = "nok"%string.
Proof.
  induction klist as [| bname klist IH]; intros st0 st s s' H0 H.
  - cbn in H. apply ret_inv in H. destruct H as [-> _]. exact H0.
  - cbn [sorparse_loop] in H. inv_bind H ref s1 Hb. inv_bind H st1 s2 Hd.
    apply decoder_status in Hd.
    assert (H1 : st1 = "ok"%string \/ st1 = "nok"%string) by intuition congruence.
    destruct (String.eqb st1 "ok").
    + eapply IH; [exact H1 | exact H].
    + apply ret_inv in H. destruct H as [-> _]. exact H1.
Qed.

(** X21. [sorparse] answers in one of two ways.  Either the status is "ok"
    or "nok" and the results and trace data returned are the converter's
    own, as the parse left them (complete after "ok", partial after "nok");
    or the status starts with "Error: " and both are None. *)
Theorem X21_sorparse_returns_data_or_an_error
    (disk : Disk) (fname : string) (me : SorConverter) :
  let r := fst (sorparse disk fname me) in
  let me' := snd (sorparse disk fname me) in
  ((status_of r = "ok"%string \/ status_of r = "nok"%string) /\
   results_in r = Some (results me') /\ tracedata_in r = Some (tracedata me')) \/
  (starts_with "Error: " (status_of r) /\
   results_in r = None /\ tracedata_in r = None).
Proof.
  unfold sorparse. destruct (disk fname) as [c |].
  - destruct (sorparse_body (basename fname)
                (mkState me (FileHandler_init (mkRawFile c 0)))) as [[res | e] s] eqn:E;
      cbn [fst snd].
    + left. unfold sorparse_body in E.
      inv_bind E u0 s0 Hm0. inv_bind E st s1 Hmap.
      apply mapblock_ok in Hmap. destruct Hmap as (_ & _ & _ & -> & _).
      change (negb ("ok" =? "ok")%string) with false in E. cbv iota in E.
      inv_bind E blocks s2 Hl. apply lookup_key_inv in Hl. destruct Hl as [_ ->].
      inv_bind E st' s3 Hloop.
      apply loop_status in Hloop; [| now left].
      unfold get_results, get_tracedata, bind, ret in E. inversion E; subst.
      auto.
    + right. unfold status_of, results_in, tracedata_in. cbn [fst snd].
      split; [eexists; reflexivity | auto].
  - right. unfold status_of, results_in, tracedata_in. cbn [fst snd].
    split; [eexists; reflexivity | auto].
Qed.
